(** * local-gemini-sync: the query router, the local analyzer, the store
      and the cloud client, embedded from the TypeScript sources

    Sources embedded here:
    - [src/lib/local-backend.ts]   (class [LocalBackend])
    - [src/lib/cloud-fallback.ts]  (class [CloudFallback])
    - [src/components/ProcessingStatus.tsx] (component [ChatInterface]:
      [processMessage], [processLocalQuery])
    - [src/components/DataUpload.tsx] ([parseCSV], [handleFileUpload])
    - [src/components/SettingsPanel.tsx] ([loadSettings], [saveSettings])
    - [src/pages/Index.tsx] ([initializeApp])

    A JavaScript string is a sequence of UTF-16 code units; it is modelled
    as a list of code units.  Asynchronous functions are modelled by their
    results: a [Promise] that resolves is a returned value, a [Promise]
    that rejects is a thrown error. *)

From Stdlib Require Import NArith ZArith QArith List String Ascii Bool Lia.
From Stdlib Require Import DecimalString DecimalN.
From Stdlib Require SpecFloat.
From stdpp Require Import gmap list.

Local Open Scope N_scope.

(** ** JavaScript strings and the built-ins the sources call *)

Module JS.

(** A string value: its UTF-16 code units. *)
Abbreviation jsstring := (list N).

(** An ASCII literal as a JavaScript string. *)
Definition str (s : string) : jsstring :=
  map N_of_ascii (list_ascii_of_string s).

(** [String.prototype.startsWith] / prefix test on code units. *)
Fixpoint startsWith (s p : jsstring) {struct p} : bool :=
  match p, s with
  | [], _ => true
  | _ :: _, [] => false
  | a :: p', b :: s' => (a =? b) && startsWith s' p'
  end.

(** [String.prototype.includes]: [p] occurs in [s] as a substring. *)
Fixpoint includes (s p : jsstring) : bool :=
  startsWith s p ||
  match s with
  | [] => false
  | _ :: s' => includes s' p
  end.

(** [String.prototype.endsWith]. *)
Definition endsWith (s p : jsstring) : bool :=
  startsWith (rev s) (rev p).

(** Equality of strings, as [===] on two strings. *)
Definition streq (a b : jsstring) : bool := bool_decide (a = b).

(** [Array.prototype.includes] on an array of strings. *)
Definition arrayIncludes (l : list jsstring) (w : jsstring) : bool :=
  existsb (streq w) l.

(** The code units matched by [\s] (WhiteSpace and LineTerminator);
    the same set is what [trim] strips. *)
Definition isSpace (c : N) : bool :=
  ((9 <=? c) && (c <=? 13)) || (c =? 32) || (c =? 160) || (c =? 5760)
  || ((8192 <=? c) && (c <=? 8202)) || (c =? 8232) || (c =? 8233)
  || (c =? 8239) || (c =? 8287) || (c =? 12288) || (c =? 65279).

Definition isDigit (c : N) : bool := (48 <=? c) && (c <=? 57).

(** The code units matched by [\w] (no [i] or [u] flag):
    [A-Za-z0-9_]. *)
Definition isWordChar (c : N) : bool :=
  ((65 <=? c) && (c <=? 90)) || ((97 <=? c) && (c <=? 122))
  || isDigit c || (c =? 95).

(** [s.split(/\s+/)]: the pieces between the maximal runs of white
    space.  [cur] is the piece being read (reversed), [inRun] tells
    that the previous code unit was white space.  A leading or a
    trailing run leaves an empty piece, and the empty string gives one
    empty piece. *)
Fixpoint splitSpaces_go (cur : jsstring) (inRun : bool) (s : jsstring)
  : list jsstring :=
  match s with
  | [] => [rev cur]
  | c :: s' =>
      if isSpace c then
        if inRun then splitSpaces_go [] true s'
        else rev cur :: splitSpaces_go [] true s'
      else splitSpaces_go (c :: cur) false s'
  end.

Definition splitSpaces (s : jsstring) : list jsstring :=
  splitSpaces_go [] false s.

(** [s.split(sep)] for a separator of one code unit. *)
Fixpoint splitChar_go (sep : N) (cur : jsstring) (s : jsstring)
  : list jsstring :=
  match s with
  | [] => [rev cur]
  | c :: s' =>
      if c =? sep then rev cur :: splitChar_go sep [] s'
      else splitChar_go sep (c :: cur) s'
  end.

Definition splitChar (sep : N) (s : jsstring) : list jsstring :=
  splitChar_go sep [] s.

(** [trimStart], [trimEnd], [trim]. *)
Fixpoint trimStart (s : jsstring) : jsstring :=
  match s with
  | [] => []
  | c :: s' => if isSpace c then trimStart s' else s
  end.

Definition trimEnd (s : jsstring) : jsstring := rev (trimStart (rev s)).

Definition trim (s : jsstring) : jsstring := trimEnd (trimStart s).

(** [s.replace] with the global pattern of one double quote and the
    empty replacement: every double quote (code unit 34) is removed. *)
Definition stripQuotes (s : jsstring) : jsstring :=
  List.filter (fun c => negb (c =? 34)) s.

(** [s.replace(/[^\w\s]/g, '')]. *)
Definition stripPunctuation (s : jsstring) : jsstring :=
  List.filter (fun c => isWordChar c || isSpace c) s.

(** [String(n)] for a non-negative integer. *)
Definition numberToString (n : N) : jsstring :=
  str (NilEmpty.string_of_uint (N.to_uint n)).

Definition natToString (n : nat) : jsstring := numberToString (N.of_nat n).

(** [arr.slice(-k)]: the last [k] elements. *)
Definition sliceLast {A} (k : nat) (l : list A) : list A :=
  drop (length l - k) l.

(** A Number, by its exact decimal value.  [Dec neg m e] is
    [(-1)^neg * m * 10^e]; every finite double has such an expansion,
    and a zero is [Dec neg 0 0]. *)
Inductive Num : Type :=
| NaN
| Inf (neg : bool)
| Dec (neg : bool) (m : N) (e : Z).

Definition isNaN (x : Num) : bool :=
  match x with NaN => true | _ => false end.

(** The value of a run of decimal digits. *)
Definition digitsValue (ds : jsstring) : N :=
  fold_left (fun acc d => 10 * acc + (d - 48)) ds 0.

(** The longest prefix of decimal digits, and what follows it. *)
Fixpoint spanDigits (s : jsstring) : jsstring * jsstring :=
  match s with
  | c :: s' =>
      if isDigit c then
        let '(ds, r) := spanDigits s' in (c :: ds, r)
      else ([], s)
  | [] => ([], [])
  end.

(** An optional sign. *)
Definition takeSign (s : jsstring) : bool * jsstring :=
  match s with
  | 45 :: s' => (true, s')
  | 43 :: s' => (false, s')
  | _ => (false, s)
  end.

(** The exponent part [e|E, sign, digits] when there is a complete one
    at the head of [s], else 0 (the exponent is then not part of the
    longest literal prefix). *)
Definition exponentPart (s : jsstring) : Z :=
  match s with
  | c :: s' =>
      if (c =? 101) || (c =? 69) then
        let '(eneg, s'') := takeSign s' in
        let '(ds, _) := spanDigits s'' in
        match ds with
        | [] => 0%Z
        | _ => if eneg then (- Z.of_N (digitsValue ds))%Z
               else Z.of_N (digitsValue ds)
        end
      else 0%Z
  | [] => 0%Z
  end.

(** The decimal expansion without trailing zeros: [m] is divided by 10
    as long as it is a multiple of 10.  [fuel] bounds the divisions; the
    binary length of [m] is more than enough. *)
Fixpoint stripZeros (fuel : nat) (m : N) (e : Z) : N * Z :=
  match fuel with
  | O => (m, e)
  | S fuel' =>
      if (m =? 0) || negb (m mod 10 =? 0) then (m, e)
      else stripZeros fuel' (m / 10) (e + 1)
  end.

(** The exact decimal value of the binary number [M * 2^E]:
    [M * 2^E * 10^0] when [E] is not negative, [M * 5^(-E) * 10^E]
    when it is. *)
Definition decimalOf (neg : bool) (M : positive) (E : Z) : Num :=
  let '(m, e) :=
    match E with
    | Z.neg k => (N.pos M * 5 ^ N.pos k, E)
    | _ => (N.pos M * 2 ^ Z.to_N E, 0%Z)
    end in
  let '(m', e') := stripZeros (S (N.to_nat (N.log2 m))) m e in
  Dec neg m' e'.

(** A binary64 value of the IEEE 754 specification as a Number. *)
Definition ofBinary64 (x : SpecFloat.spec_float) : Num :=
  match x with
  | SpecFloat.S754_zero s => Dec s 0 0
  | SpecFloat.S754_infinity s => Inf s
  | SpecFloat.S754_nan => NaN
  | SpecFloat.S754_finite s M E => decimalOf s M E
  end.

(** The Number value of the decimal [(-1)^neg * m * 10^e]: the binary64
    nearest to it, ties to even, an infinity on overflow and a zero on
    underflow.  It is the correctly rounded quotient, by the division of
    the IEEE 754 specification, of the integers [m * 10^e] and 1, or [m]
    and [10^(-e)]. *)
Definition roundDecimal (neg : bool) (m : N) (e : Z) : Num :=
  match m with
  | N0 => Dec neg 0 0
  | N.pos p =>
      let '(numerator, denominator) :=
        match e with
        | Z0 => (p, 1)%positive
        | Z.pos k => (p * 10 ^ k, 1)%positive
        | Z.neg k => (p, 10 ^ k)%positive
        end in
      ofBinary64
        (SpecFloat.SFdiv 53 1024
           (SpecFloat.S754_finite neg numerator 0)
           (SpecFloat.S754_finite false denominator 0))
  end.

(** The global [parseFloat]: leading white space is skipped, then the
    longest prefix that is a [StrDecimalLiteral] is read and rounded to
    a Number; [NaN] when there is none. *)
Definition parseFloat (s : jsstring) : Num :=
  let '(neg, s1) := takeSign (trimStart s) in
  if startsWith s1 (str "Infinity") then Inf neg
  else
    let '(ip, r1) := spanDigits s1 in
    let '(fp, r2) :=
      match r1 with
      | 46 :: r => spanDigits r
      | _ => ([], r1)
      end in
    match ip ++ fp with
    | [] => NaN
    | ds => roundDecimal neg (digitsValue ds)
              (exponentPart r2 - Z.of_nat (length fp))
    end.

(** A thrown value.  [Error msg] is what [throw new Error(msg)] in the
    sources throws; the others are raised by the host (a rejected
    [fetch], a body that is not JSON, a property read on [undefined],
    a key already present for IndexedDB's [add]). *)
Inductive JSError : Type :=
| Error (message : jsstring)
| TypeError
| SyntaxError
| ConstraintError.

(** The result of a call: it returns or it throws (for an [async]
    function: the promise resolves or rejects). *)
Inductive Completion (A : Type) : Type :=
| Returned (a : A)
| Thrown (e : JSError).
Arguments Returned {A} a.
Arguments Thrown {A} e.

(** Values that the store holds under the [any] type. *)
#[warnings="-register-all"]
Inductive JSValue : Type :=
| JUndefined
| JNull
| JBool (b : bool)
| JNumber (x : Num)
| JString (s : jsstring)
| JArray (items : list JSValue)
| JObject (props : list (jsstring * JSValue)).

(** [ToBoolean]. *)
Definition truthy (v : JSValue) : bool :=
  match v with
  | JUndefined | JNull => false
  | JBool b => b
  | JNumber NaN => false
  | JNumber (Inf _) => true
  | JNumber (Dec _ m _) => negb (m =? 0)
  | JString s => match s with [] => false | _ => true end
  | JArray _ | JObject _ => true
  end.

(** [a || b] on values. *)
Definition orElse (a b : JSValue) : JSValue := if truthy a then a else b.

(** The quotient [a / b] of an integer by a non-negative integer, as
    the exact rational that the double division rounds; [0 / 0] is
    [NaN] and [a / 0] is infinite.  Rounding to the nearest double is
    monotone and 0 and 1 are doubles, so a bound by 0 or by 1 on the
    exact quotient is a bound on the double. *)
Inductive Quotient : Type :=
| QNaN
| QInf
| QFin (q : Q).

Definition divide (a : Z) (b : nat) : Quotient :=
  match b with
  | O => if (a =? 0)%Z then QNaN else QInf
  | S _ => QFin (a # Pos.of_nat b)
  end.

(** [Array.prototype.sort] with a comparator: a stable sort; [x] goes
    before [y] when [cmp x y <= 0] and [x] came first.  The comparators
    of the sources are differences of integers. *)
Fixpoint sortInsert {A} (cmp : A -> A -> Z) (x : A) (l : list A) : list A :=
  match l with
  | [] => [x]
  | y :: l' =>
      if (cmp x y <=? 0)%Z then x :: y :: l'
      else y :: sortInsert cmp x l'
  end.

Fixpoint sort {A} (cmp : A -> A -> Z) (l : list A) : list A :=
  match l with
  | [] => []
  | x :: l' => sortInsert cmp x (sort cmp l')
  end.

(** A property key that is an array index: the canonical decimal
    string of an integer below [2^32 - 1].  Such keys are enumerated
    first, in ascending numeric order. *)
Definition isArrayIndex (k : jsstring) : bool :=
  match k with
  | [] => false
  | c :: k' =>
      forallb isDigit k
      && (negb (c =? 48) || match k' with [] => true | _ => false end)
      && (digitsValue k <=? 4294967294)
  end.

(** The own enumerable string keys of an ordinary object whose
    properties were created in the order of [props], in the order of
    [Object.entries]: array indices ascending, then the other keys in
    creation order. *)
Definition entries {V} (props : list (jsstring * V)) : list (jsstring * V) :=
  sort (fun a b => (Z.of_N (digitsValue a.1) - Z.of_N (digitsValue b.1))%Z)
       (List.filter (fun kv => isArrayIndex kv.1) props)
  ++ List.filter (fun kv => negb (isArrayIndex kv.1)) props.

(** The order in which the keys of an ordinary object are enumerated,
    from the order [keys] in which they were created. *)
Definition enumerationOrder (keys : list jsstring) : list jsstring :=
  sort (fun a b => (Z.of_N (digitsValue a) - Z.of_N (digitsValue b))%Z)
       (List.filter isArrayIndex keys)
  ++ List.filter (fun k => negb (isArrayIndex k)) keys.

(** The names that every ordinary object inherits from
    [Object.prototype].  A read [o[k]] of such a name on an object
    without an own property [k] yields the inherited member, not
    [undefined]. *)
Definition objectPrototypeNames : list jsstring :=
  map str
    [ "constructor"; "hasOwnProperty"; "isPrototypeOf";
      "propertyIsEnumerable"; "toLocaleString"; "toString"; "valueOf";
      "__proto__"; "__defineGetter__"; "__defineSetter__";
      "__lookupGetter__"; "__lookupSetter__" ]%string.

(** [o[key] = v] on an ordinary object, given by its own properties in
    creation order: an existing property is overwritten in place, a new
    one is appended. *)
Fixpoint setProperty {V} (key : jsstring) (v : V) (props : list (jsstring * V))
  : list (jsstring * V) :=
  match props with
  | [] => [(key, v)]
  | (k, old) :: rest =>
      if streq k key then (k, v) :: rest
      else (k, old) :: setProperty key v rest
  end.

(** The same for a primitive [v]: the key [__proto__] reaches the
    accessor of [Object.prototype], which ignores a primitive, and no
    property is created. *)
Definition assign {V} (key : jsstring) (v : V) (props : list (jsstring * V))
  : list (jsstring * V) :=
  if streq key (str "__proto__") then props
  else setProperty key v props.

(** The own property [key], if any. *)
Fixpoint getOwn {V} (key : jsstring) (props : list (jsstring * V)) : option V :=
  match props with
  | [] => None
  | (k, v) :: rest => if streq k key then Some v else getOwn key rest
  end.

(** What the sources take from the engine and do not define: case
    folding of a string (Unicode, locale independent) and the decimal
    rendering [(x * 100).toFixed(1)] of a quotient. *)
Class Host : Type := {
  toLowerCase : jsstring -> jsstring;
  percentToFixed1 : Quotient -> jsstring
}.

(** [s.split(re)] for a pattern [re] that matches the non-empty runs of
    the code units in a class [isSep] (as [[.!?]+] does): the pieces
    between the maximal runs. *)
Fixpoint splitRuns_go (isSep : N -> bool) (cur : jsstring) (inRun : bool)
    (s : jsstring) : list jsstring :=
  match s with
  | [] => [rev cur]
  | c :: s' =>
      if isSep c then
        if inRun then splitRuns_go isSep [] true s'
        else rev cur :: splitRuns_go isSep [] true s'
      else splitRuns_go isSep (c :: cur) false s'
  end.

Definition splitRuns (isSep : N -> bool) (s : jsstring) : list jsstring :=
  splitRuns_go isSep [] false s.

(** The class [[.!?]]. *)
Definition isSentenceEnd (c : N) : bool :=
  (c =? 46) || (c =? 33) || (c =? 63).

(** [arr.join(sep)]. *)
Fixpoint join (sep : jsstring) (l : list jsstring) : jsstring :=
  match l with
  | [] => []
  | [w] => w
  | w :: rest => w ++ sep ++ join sep rest
  end.

(** The index keys [0 .. n-1] of an array or of a string. *)
Definition indexKeys (n : nat) : list jsstring := map natToString (seq 0 n).

(** [Object.keys(v)]; [None] stands for the [TypeError] that [null] and
    [undefined] raise.  An object is given by its own properties in
    creation order; a number or a boolean has no own keys. *)
Definition objectKeys (v : JSValue) : option (list jsstring) :=
  match v with
  | JUndefined | JNull => None
  | JBool _ | JNumber _ => Some []
  | JString s => Some (indexKeys (length s))
  | JArray items => Some (indexKeys (length items))
  | JObject props => Some (map fst (entries props))
  end.

End JS.

Import JS.

(** The literal unions ['user' | 'assistant' | 'system'] and
    ['local' | 'cloud'] that the three sources share. *)
Inductive Role : Type := user | assistant | system.
Inductive ProcessingType : Type := local | cloud.

(** ** [src/lib/local-backend.ts] *)

Module LocalBackend.

(** The value type of the object store [datasets]. *)
Record Dataset : Type := {
  dataset_id : jsstring;
  dataset_name : jsstring;
  dataset_data : JSValue;
  dataset_created : N;
  dataset_size : nat
}.

Record StoredMessage : Type := {
  stored_role : Role;
  stored_content : jsstring;
  stored_timestamp : N;
  stored_processingType : ProcessingType
}.

(** The value type of the object store [conversations]. *)
Record Conversation : Type := {
  conversation_id : jsstring;
  conversation_messages : list StoredMessage;
  conversation_created : N
}.

(** The IndexedDB database [LocalFirstDB], version 1: three object
    stores, each keyed by its key path ([id], [id], [key]).  A record
    [{key, value}] of [settings] is the binding of [key] to [value]. *)
Record Database : Type := {
  datasets : gmap jsstring Dataset;
  conversations : gmap jsstring Conversation;
  settings : gmap jsstring JSValue
}.

(** The fields of the class.  [pyodide] is kept as a flag: loaded or
    [null]. *)
Record State : Type := {
  db : option Database;
  pyodide : bool;
  isInitialized : bool
}.

(** [new LocalBackend()]. *)
Definition fresh : State :=
  {| db := None; pyodide := false; isInitialized := false |}.

(** The first stretch of [initialize()], up to the assignment of
    [this.db].  [opened] is the outcome of [await openDB(...)]: the
    database it opens (the upgrade callback has created the stores that
    were missing), or the error it rejects with.  The [await] is outside
    any [try], so a rejection ends [initialize()] there: [db] is not
    assigned and [isInitialized] stays [false]. *)
Definition openStores (opened : Completion Database) (b : State)
  : Completion unit * State :=
  match opened with
  | Thrown e => (Thrown e, b)
  | Returned d =>
      (Returned tt,
       {| db := Some d; pyodide := pyodide b;
          isInitialized := isInitialized b |})
  end.

(** The second stretch: the interpreter is loaded inside a [try] whose
    [catch] only logs, then [isInitialized] is set.  [pyodideLoads]
    tells whether [loadPyodide] resolved, which is when [this.pyodide]
    is assigned. *)
Definition loadInterpreter (pyodideLoads : bool) (b : State) : State :=
  {| db := db b;
     pyodide := if pyodideLoads then true else pyodide b;
     isInitialized := true |}.

(** [initialize()], when no other call runs between its two stretches. *)
Definition initialize (opened : Completion Database) (pyodideLoads : bool)
    (b : State) : Completion unit * State :=
  if isInitialized b then (Returned tt, b)
  else
    match openStores opened b with
    | (Thrown e, b') => (Thrown e, b')
    | (Returned _, b') => (Returned tt, loadInterpreter pyodideLoads b')
    end.

Definition emptyDatabase : Database :=
  {| datasets := ∅; conversations := ∅; settings := ∅ |}.

(** *** Simple NLP processing *)

Definition positiveWords : list jsstring :=
  map str [ "good"; "great"; "excellent"; "amazing"; "wonderful";
            "fantastic"; "love"; "like" ]%string.

Definition negativeWords : list jsstring :=
  map str [ "bad"; "terrible"; "awful"; "horrible"; "hate"; "dislike";
            "poor"; "worst" ]%string.

Inductive Sentiment : Type := positive_label | negative_label | neutral_label.

(** The text of a label, as it is interpolated in a response. *)
Definition sentimentText (s : Sentiment) : jsstring :=
  match s with
  | positive_label => str "positive"
  | negative_label => str "negative"
  | neutral_label => str "neutral"
  end.

Record SentimentResult : Type := {
  sentiment : Sentiment;
  confidence : Quotient;
  positive : nat;
  negative : nat
}.

(** The array [words] of [basicSentimentAnalysis]. *)
Definition sentimentWords `{Host} (text : jsstring) : list jsstring :=
  splitSpaces (toLowerCase text).

(** [basicSentimentAnalysis(text)]. *)
Definition basicSentimentAnalysis `{Host} (text : jsstring) : SentimentResult :=
  let words := sentimentWords text in
  let positive := length (List.filter (arrayIncludes positiveWords) words) in
  let negative := length (List.filter (arrayIncludes negativeWords) words) in
  let sentiment :=
    if (negative <? positive)%nat then positive_label
    else if (positive <? negative)%nat then negative_label
    else neutral_label in
  let confidence :=
    divide (Z.abs (Z.of_nat positive - Z.of_nat negative)) (length words) in
  {| sentiment := sentiment; confidence := confidence;
     positive := positive; negative := negative |}.

(** The array [words] of [extractKeywords]: case folded, punctuation
    removed, split on white space, pieces of length at most 3 dropped. *)
Definition keywordWords `{Host} (text : jsstring) : list jsstring :=
  List.filter (fun word => (3 <? length word)%nat)
    (splitSpaces (stripPunctuation (toLowerCase text))).

(** A value of the object [frequency].  The type annotation says
    [number]; at run time a value is a number, or the string that [+]
    makes when its left operand is not a number (the text of a member
    inherited from [Object.prototype], followed by the digit 1 once per
    occurrence; the text itself is not modelled). *)
Inductive Count : Type :=
| Counted (n : nat)
| Concatenated.

(** The object [frequency]: its own properties in creation order. *)
Abbreviation Frequency := (list (jsstring * Count)).

(** [(frequency[word] || 0) + 1].  The read finds the own property, else
    the member that [Object.prototype] has under that name, else
    [undefined]. *)
Definition nextCount (word : jsstring) (frequency : Frequency) : Count :=
  match getOwn word frequency with
  | Some (Counted v) => Counted ((if (v =? 0)%nat then 0 else v) + 1)
  | Some Concatenated => Concatenated
  | None =>
      if arrayIncludes objectPrototypeNames word then Concatenated
      else Counted (0 + 1)
  end.

(** [frequency[word] = (frequency[word] || 0) + 1]. *)
Definition increment (word : jsstring) (frequency : Frequency) : Frequency :=
  assign word (nextCount word frequency) frequency.

(** The comparator [([,a], [,b]) => b - a]; a difference with a string
    is [NaN], which [sort] takes as 0.  (With such an entry the
    comparator is not consistent and the order that an engine produces
    is its own; the entries are the same.) *)
Definition byCount (a b : jsstring * Count) : Z :=
  match a.2, b.2 with
  | Counted x, Counted y => (Z.of_nat y - Z.of_nat x)%Z
  | _, _ => 0%Z
  end.

(** [words.forEach(word => ...)] from the empty object. *)
Definition countWords (words : list jsstring) : Frequency :=
  fold_left (fun frequency word => increment word frequency) words [].

(** No word reads a member inherited from [Object.prototype]. *)
Definition ownNamesOnly (words : list jsstring) : bool :=
  forallb (fun word => negb (arrayIncludes objectPrototypeNames word)) words.

Record KeywordsResult : Type := {
  keywords : list (jsstring * Count);
  totalWords : nat
}.

(** [extractKeywords(text)]: the entries sorted by the comparator, the
    first ten kept; an entry [{word, count}] is the pair. *)
Definition extractKeywords `{Host} (text : jsstring) : KeywordsResult :=
  let words := keywordWords text in
  let frequency := countWords words in
  let keywords :=
    take 10
      (sort byCount (entries frequency)) in
  {| keywords := keywords; totalWords := length words |}.

(** A count that is a number, and at least 1. *)
Definition counted (c : Count) : Prop :=
  match c with
  | Counted n => (1 <= n)%nat
  | Concatenated => False
  end.

(** The invariant of the loop that fills [frequency]: no key twice, every
    value a count of at least 1. *)
Definition wellCounted (frequency : Frequency) : Prop :=
  NoDup frequency.*1 /\ Forall (fun e => counted e.2) frequency.

(** *** Database operations *)

Definition notInitialized : jsstring := str "Database not initialized".

(** [saveDataset(name, data)].  [json] is what [JSON.stringify(data)]
    returns ([None] for [undefined], whose [length] is a [TypeError]),
    [now] is the reading of [Date.now()], [created] the one of
    [new Date()]; [add] rejects when the key is already present. *)
Definition saveDataset (name : jsstring) (data : JSValue)
    (json : option jsstring) (now created : N) (b : State)
  : Completion jsstring * State :=
  match db b with
  | None => (Thrown (Error notInitialized), b)
  | Some d =>
      let id := numberToString now in
      match json with
      | None => (Thrown TypeError, b)
      | Some text =>
          let dataset :=
            {| dataset_id := id; dataset_name := name;
               dataset_data := data; dataset_created := created;
               dataset_size := length text |} in
          match datasets d !! id with
          | Some _ => (Thrown ConstraintError, b)
          | None =>
              (Returned id,
               {| db := Some {| datasets := <[id := dataset]> (datasets d);
                                conversations := conversations d;
                                settings := settings d |};
                  pyodide := pyodide b;
                  isInitialized := isInitialized b |})
          end
      end
  end.

(** [getDatasets()].  Only the records are modelled, not the key order
    in which [getAll] lists them. *)
Definition getDatasets (b : State) : Completion (list Dataset) :=
  match db b with
  | None => Returned []
  | Some d => Returned (map_to_list (datasets d)).*2
  end.

(** [saveConversation(conversation)]. *)
Definition saveConversation (conversation : Conversation) (b : State)
  : Completion unit * State :=
  match db b with
  | None => (Returned tt, b)
  | Some d =>
      (Returned tt,
       {| db := Some {| datasets := datasets d;
                        conversations :=
                          <[conversation_id conversation := conversation]>
                            (conversations d);
                        settings := settings d |};
          pyodide := pyodide b;
          isInitialized := isInitialized b |})
  end.

(** [getConversations()]. *)
Definition getConversations (b : State) : Completion (list Conversation) :=
  match db b with
  | None => Returned []
  | Some d => Returned (map_to_list (conversations d)).*2
  end.

(** [setSetting(key, value)]. *)
Definition setSetting (key : jsstring) (value : JSValue) (b : State)
  : Completion unit * State :=
  match db b with
  | None => (Returned tt, b)
  | Some d =>
      (Returned tt,
       {| db := Some {| datasets := datasets d;
                        conversations := conversations d;
                        settings := <[key := value]> (settings d) |};
          pyodide := pyodide b;
          isInitialized := isInitialized b |})
  end.

(** [getSetting(key)]: [setting?.value || null], where [setting] is
    [undefined] when the store has no record under [key]. *)
Definition getSetting (key : jsstring) (b : State) : Completion JSValue :=
  match db b with
  | None => Returned JNull
  | Some d =>
      let value :=
        match settings d !! key with
        | Some v => v
        | None => JUndefined
        end in
      Returned (orElse value JNull)
  end.

(** *** Summarization and the dispatch of the text operations *)

(** The array [sentences] of [basicSummarization]: the pieces between
    the runs of sentence punctuation whose [trim] is not empty. *)
Definition sentencesOf (text : jsstring) : list jsstring :=
  List.filter (fun s => (0 <? length (trim s))%nat)
    (splitRuns isSentenceEnd text).

(** [Math.min(3, Math.ceil(n * 0.3))] for an array length [n].  The
    double products for [n = 1 .. 6] are 0.3, 0.6, 0.8999999999999999,
    1.2, 1.5 and 1.7999999999999998, whose ceilings are those of the
    exact [3n/10]; from [n = 7] on the product is above 2 and the
    minimum is 3, as it is for the exact value. *)
Definition summarySize (n : nat) : nat := Nat.min 3 ((3 * n + 9) / 10).

Record SummaryResult : Type := {
  summary : jsstring;
  originalLength : nat;
  summaryLength : nat
}.

(** The array [summary] of [basicSummarization]. *)
Definition summarySentences (text : jsstring) : list jsstring :=
  take (summarySize (length (sentencesOf text))) (sentencesOf text).

(** [basicSummarization(text)]. *)
Definition basicSummarization (text : jsstring) : SummaryResult :=
  let sentences := sentencesOf text in
  let kept := summarySentences text in
  {| summary := join (str ". ") kept ++ str ".";
     originalLength := length sentences;
     summaryLength := length kept |}.

(** What [processTextLocally] resolves to; the last case is the object
    [{ text, processed: true }]. *)
Inductive TextResult : Type :=
| SentimentOf (r : SentimentResult)
| KeywordsOf (r : KeywordsResult)
| SummaryOf (r : SummaryResult)
| Unprocessed (text : jsstring).

(** [processTextLocally(text, operation)]. *)
Definition processTextLocally `{Host} (text operation : jsstring)
  : TextResult :=
  if streq operation (str "sentiment")
  then SentimentOf (basicSentimentAnalysis text)
  else if streq operation (str "keywords")
  then KeywordsOf (extractKeywords text)
  else if streq operation (str "summary")
  then SummaryOf (basicSummarization text)
  else Unprocessed text.

(** *** Data processing *)

(** What [processDataLocally] resolves to: the three objects of the
    JavaScript fallback, or the value that the interpreter returns. *)
Inductive DataResult : Type :=
| DataSummary (shape : nat * nat) (columns : list jsstring)
    (sample : list JSValue)
| DataStats (message : jsstring)
| DataProcessed (rows : nat)
| InterpreterResult (value : JSValue).

(** [if (!Array.isArray(data)) data = [data]]. *)
Definition asRows (data : JSValue) : list JSValue :=
  match data with
  | JArray items => items
  | _ => [data]
  end.

Definition statsMessage : jsstring := str "Basic stats computed locally".

(** [fallbackDataProcessing(data, operation)].  In the ['stats'] case
    the array [numerics] is computed and dropped; computing it calls
    [Object.entries] on every row. *)
Definition fallbackDataProcessing (data : JSValue) (operation : jsstring)
  : Completion DataResult :=
  let rows := asRows data in
  if streq operation (str "summary") then
    let first := default JUndefined (rows !! 0%nat) in
    match objectKeys (orElse first (JObject [])) with
    | None => Thrown TypeError
    | Some columns =>
        Returned (DataSummary (length rows, length columns) columns
                    (take 5 rows))
    end
  else if streq operation (str "stats") then
    if forallb (fun row => bool_decide (is_Some (objectKeys row))) rows
    then Returned (DataStats statsMessage)
    else Thrown TypeError
  else Returned (DataProcessed (length rows)).

(** [processDataLocally(data, operation)].  [interpreter] is what the
    [try] block around the embedded interpreter gives when the
    interpreter is loaded: the converted result, or [None] when any of
    its steps throws. *)
Definition processDataLocally (interpreter : option JSValue)
    (data : JSValue) (operation : jsstring) (b : State)
  : Completion DataResult :=
  if negb (pyodide b) then fallbackDataProcessing data operation
  else
    match interpreter with
    | Some value => Returned (InterpreterResult value)
    | None => fallbackDataProcessing data operation
    end.

End LocalBackend.

(** ** [src/lib/cloud-fallback.ts] *)

Module CloudFallback.

Record GPTMessage : Type := {
  gpt_role : Role;
  gpt_content : jsstring
}.

(** The fields of the class. *)
Record State : Type := {
  apiKey : option jsstring;
  isEnabled : bool
}.

(** [new CloudFallback()]. *)
Definition fresh : State := {| apiKey := None; isEnabled := false |}.

Definition setApiKey (key : jsstring) (c : State) : State :=
  {| apiKey := Some key; isEnabled := isEnabled c |}.

Definition setEnabled (enabled : bool) (c : State) : State :=
  {| apiKey := apiKey c; isEnabled := enabled |}.

Record Status : Type := {
  status_hasApiKey : bool;
  status_isEnabled : bool
}.

(** [!!this.apiKey]: [null] and the empty string are falsy. *)
Definition hasApiKey (c : State) : bool :=
  match apiKey c with
  | Some (_ :: _) => true
  | _ => false
  end.

Definition getStatus (c : State) : Status :=
  {| status_hasApiKey := hasApiKey c; status_isEnabled := isEnabled c |}.

Record Options : Type := {
  temperature : option Q;
  maxTokens : option nat
}.

Definition noOptions : Options := {| temperature := None; maxTokens := None |}.

(** What [fetch] is called with. *)
Record Request : Type := {
  request_url : jsstring;
  request_authorization : jsstring;
  request_model : jsstring;
  request_messages : list GPTMessage;
  request_temperature : Q;
  request_max_tokens : nat
}.

(** A choice of the response body: with its [message.content], or
    without a [message]. *)
Inductive Choice : Type :=
| WithMessage (content : jsstring)
| WithoutMessage.

(** What [response.json()] gives: a rejection, or the parsed body with
    its array [choices] when it has one. *)
Inductive Body : Type :=
| NotJson
| Json (choices : option (list Choice)).

(** What [fetch] gives: a rejection (no response at all), or a response
    with [ok], [status], [statusText] and a body. *)
Inductive FetchResult : Type :=
| Rejected
| Response (ok : bool) (status : nat) (statusText : jsstring) (body : Body).

(** The remote endpoint. *)
Class Network : Type := {
  fetch : Request -> FetchResult
}.

Definition buildRequest (key : jsstring) (messages : list GPTMessage)
    (options : Options) : Request :=
  {| request_url := str "https://api.openai.com/v1/chat/completions";
     request_authorization := str "Bearer " ++ key;
     request_model := str "gpt-4.1-2025-04-14";
     request_messages := messages;
     request_temperature :=
       match temperature options with
       | Some t => if Qeq_bool t 0 then (7 # 10)%Q else t
       | None => (7 # 10)%Q
       end;
     request_max_tokens :=
       match maxTokens options with
       | Some (S n) => S n
       | _ => 1000%nat
       end |}.

Definition disabledMessage : jsstring := str "Cloud processing is disabled".
Definition noKeyMessage : jsstring := str "GPT API key not provided".

Definition apiErrorMessage (status : nat) (statusText : jsstring) : jsstring :=
  str "GPT API error: " ++ natToString status ++ str " " ++ statusText.

(** [processWithGPT(messages, options)]: its completion, and the
    requests it sent. *)
Definition processWithGPT `{Network} (c : State) (messages : list GPTMessage)
    (options : Options) : Completion jsstring * list Request :=
  if negb (isEnabled c) then (Thrown (Error disabledMessage), [])
  else
    match apiKey c with
    | None | Some [] => (Thrown (Error noKeyMessage), [])
    | Some key =>
        let request := buildRequest key messages options in
        let sent := [request] in
        match fetch request with
        | Rejected => (Thrown TypeError, sent)
        | Response ok status statusText body =>
            if negb ok
            then (Thrown (Error (apiErrorMessage status statusText)), sent)
            else
              match body with
              | NotJson => (Thrown SyntaxError, sent)
              | Json None => (Thrown TypeError, sent)
              | Json (Some []) => (Returned [], sent)
              | Json (Some (WithoutMessage :: _)) => (Thrown TypeError, sent)
              | Json (Some (WithMessage content :: _)) =>
                  (Returned content, sent)
              end
        end
    end.

(** The remote call of [processWithGPT] for these arguments comes back
    with a status that is not a success ([response.ok] is false). *)
Definition nonSuccess `{Network} (c : State) (messages : list GPTMessage)
    (options : Options) : bool :=
  match apiKey c with
  | Some key =>
      match fetch (buildRequest key messages options) with
      | Response ok _ _ _ => negb ok
      | Rejected => false
      end
  | None => false
  end.

Definition chatSystemPrompt : jsstring :=
  str "You are a helpful AI assistant for a local-first data analysis app."
  ++ str " Be concise and practical.".

(** [chatWithGPT(userMessage, conversationHistory)]. *)
Definition chatWithGPT `{Network} (c : State) (userMessage : jsstring)
    (conversationHistory : list GPTMessage)
  : Completion jsstring * list Request :=
  let messages :=
    [ {| gpt_role := system; gpt_content := chatSystemPrompt |} ]
    ++ sliceLast 5 conversationHistory
    ++ [ {| gpt_role := user; gpt_content := userMessage |} ] in
  processWithGPT c messages noOptions.

Definition analystPrompt : jsstring :=
  str "You are a data analyst. Analyze the provided data and answer the "
  ++ str "user's question concisely.".

(** [analyzeDataWithGPT(data, question)].  [json] is what
    [JSON.stringify(data)] returns ([None] for [undefined], on which
    [slice] is a [TypeError]). *)
Definition analyzeDataWithGPT `{Network} (c : State) (json : option jsstring)
    (question : jsstring) : Completion jsstring * list Request :=
  match json with
  | None => (Thrown TypeError, [])
  | Some text =>
      let dataString := take 8000 text in
      let messages :=
        [ {| gpt_role := system; gpt_content := analystPrompt |};
          {| gpt_role := user;
             gpt_content :=
               str "Data: " ++ dataString ++ [10; 10] ++ str "Question: "
               ++ question |} ] in
      processWithGPT c messages noOptions
  end.

Definition enhancePrompt : jsstring :=
  str "You are helping to enhance a local AI result. Provide additional "
  ++ str "insights and context.".

(** [enhanceLocalResult(localResult, originalQuery)].  [json] is what
    [JSON.stringify(localResult)] returns; the template literal renders
    [undefined] by its name. *)
Definition enhanceLocalResult `{Network} (c : State) (json : option jsstring)
    (originalQuery : jsstring) : Completion jsstring * list Request :=
  let rendered := default (str "undefined") json in
  let messages :=
    [ {| gpt_role := system; gpt_content := enhancePrompt |};
      {| gpt_role := user;
         gpt_content :=
           str "Local analysis result: " ++ rendered ++ [10; 10]
           ++ str "Original query: " ++ originalQuery ++ [10; 10]
           ++ str "Provide enhanced insights:" |} ] in
  processWithGPT c messages
    {| temperature := Some (3 # 10)%Q; maxTokens := None |}.

End CloudFallback.

(** ** [src/components/ProcessingStatus.tsx], component [ChatInterface] *)

Module ChatInterface.

Record Message : Type := {
  id : jsstring;
  role : Role;
  content : jsstring;
  timestamp : N;
  processingType : ProcessingType;
  isLoading : option bool
}.

Record LocalResponse : Type := {
  response : jsstring;
  needsCloudFallback : bool
}.

Definition uploadFirst : jsstring :=
  str "I can help you analyze data! Please upload a dataset first using "
  ++ str "the data upload section.".

Definition foundDatasets (n : nat) : jsstring :=
  str "I found " ++ natToString n
  ++ str " dataset(s) in your local storage. I can perform basic analysis "
  ++ str "like summaries, statistics, and filtering. What would you like to "
  ++ str "know about your data?".

Definition sentimentReport `{Host} (r : LocalBackend.SentimentResult) : jsstring :=
  str "Based on local sentiment analysis: This text appears to be **"
  ++ LocalBackend.sentimentText (LocalBackend.sentiment r)
  ++ str "** (confidence: "
  ++ percentToFixed1 (LocalBackend.confidence r)
  ++ str "%). I detected " ++ natToString (LocalBackend.positive r)
  ++ str " positive and " ++ natToString (LocalBackend.negative r)
  ++ str " negative indicators.".

(** [arr.join(', ')]. *)
Fixpoint joinComma (l : list jsstring) : jsstring :=
  match l with
  | [] => []
  | [w] => w
  | w :: rest => w ++ str ", " ++ joinComma rest
  end.

Definition keywordsReport (r : LocalBackend.KeywordsResult) : jsstring :=
  str "Key words extracted locally: "
  ++ joinComma (map fst (LocalBackend.keywords r)).

Definition greeting : jsstring :=
  str "Hello! I'm running locally on your device. I can help you with data "
  ++ str "analysis, text processing, and simple conversations. What can I "
  ++ str "help you with today?".

Definition capabilities : jsstring :=
  str "Here's what I can do locally:"
  ++ [10]
  ++ str "        "
  ++ [10; 55357; 56522]
  ++ str " **Data Analysis**: Upload CSV/JSON files for analysis, stat"
  ++ str "istics, and summaries"
  ++ [10; 55357; 56541]
  ++ str " **Text Processing**: Sentiment analysis, keyword extraction"
  ++ str ", basic summarization  "
  ++ [10; 55357; 56492]
  ++ str " **Simple Chat**: Basic conversations and help"
  ++ [10; 55357; 56589]
  ++ str " **Local Search**: Find and filter your stored data"
  ++ [10; 10]
  ++ str "For more advanced AI capabilities, you can enable cloud proc"
  ++ str "essing in the settings panel.".

Definition complexQuestion : jsstring :=
  str "This seems like a complex question that could benefit from advanced "
  ++ str "AI processing.".

Definition processedLocally : jsstring :=
  str "I processed your message locally. For more sophisticated responses, "
  ++ str "you can enable cloud processing in settings. How else can I help "
  ++ str "you?".

(** The hint: U+1F4A1 (a surrogate pair) and the sentence. *)
Definition hintSentence : jsstring :=
  [55357; 56481]
  ++ str " For more advanced responses, you can enable cloud processin"
  ++ str "g in settings.".

(** The suffix that [processMessage] appends: two line feeds and the
    hint. *)
Definition enablementHint : jsstring := [10; 10] ++ hintSentence.

(** The conditions of the [if] statements of [processLocalQuery], in
    their order. *)
Definition mentionsData (lowerQuery : jsstring) : bool :=
  includes lowerQuery (str "data") || includes lowerQuery (str "analyze")
  || includes lowerQuery (str "dataset").

Definition mentionsSentiment (lowerQuery : jsstring) : bool :=
  includes lowerQuery (str "sentiment") || includes lowerQuery (str "feeling")
  || includes lowerQuery (str "emotion").

Definition mentionsKeywords (lowerQuery : jsstring) : bool :=
  includes lowerQuery (str "keyword")
  || includes lowerQuery (str "important words").

Definition mentionsGreeting (lowerQuery : jsstring) : bool :=
  includes lowerQuery (str "hello") || includes lowerQuery (str "hi")
  || includes lowerQuery (str "hey").

Definition mentionsHelp (lowerQuery : jsstring) : bool :=
  includes lowerQuery (str "help")
  || includes lowerQuery (str "what can you do").

Definition looksComplex (query lowerQuery : jsstring) : bool :=
  (100 <? length query)%nat || includes lowerQuery (str "explain")
  || includes lowerQuery (str "complex")
  || includes lowerQuery (str "detailed").

(** The query falls under one of the first five rules of the router. *)
Definition matchesLocalRule (lowerQuery : jsstring) : bool :=
  mentionsData lowerQuery || mentionsSentiment lowerQuery
  || mentionsKeywords lowerQuery || mentionsGreeting lowerQuery
  || mentionsHelp lowerQuery.

(** [processLocalQuery(query)].  The two calls of
    [localBackend.processTextLocally] pass the operations ['sentiment']
    and ['keywords'], which dispatch to [basicSentimentAnalysis] and
    [extractKeywords]. *)
Definition processLocalQuery `{Host} (backend : LocalBackend.State)
    (query : jsstring) : Completion LocalResponse :=
  let lowerQuery := toLowerCase query in
  if mentionsData lowerQuery then
    match LocalBackend.getDatasets backend with
    | Thrown e => Thrown e
    | Returned datasets =>
        if (length datasets =? 0)%nat
        then Returned {| response := uploadFirst;
                         needsCloudFallback := false |}
        else Returned {| response := foundDatasets (length datasets);
                         needsCloudFallback := false |}
    end
  else if mentionsSentiment lowerQuery then
    let sentiment := LocalBackend.basicSentimentAnalysis query in
    Returned {| response := sentimentReport sentiment;
                needsCloudFallback := false |}
  else if mentionsKeywords lowerQuery then
    let keywords := LocalBackend.extractKeywords query in
    Returned {| response := keywordsReport keywords;
                needsCloudFallback := false |}
  else if mentionsGreeting lowerQuery then
    Returned {| response := greeting; needsCloudFallback := false |}
  else if mentionsHelp lowerQuery then
    Returned {| response := capabilities; needsCloudFallback := false |}
  else if looksComplex query lowerQuery then
    Returned {| response := complexQuestion; needsCloudFallback := true |}
  else
    Returned {| response := processedLocally; needsCloudFallback := true |}.

(** The history handed to [chatWithGPT]: the messages of the render that
    created [processMessage], without the loading assistant messages. *)
Definition historyOf (messages : list Message) : list CloudFallback.GPTMessage :=
  map (fun m => {| CloudFallback.gpt_role := role m;
                   CloudFallback.gpt_content := content m |})
      (List.filter
         (fun m => match role m with
                   | assistant =>
                       negb (match isLoading m with
                             | Some true => true
                             | _ => false
                             end)
                   | _ => true
                   end)
         messages).

(** What the body of the outer [try] of [processMessage] computes: the
    pair [(response, processingType)], or the error that the outer
    [catch] receives; with the number of calls of the Cloud Client and
    the requests sent. *)
Record Attempt : Type := {
  result : Completion (jsstring * ProcessingType);
  cloudCalls : nat;
  requests : list CloudFallback.Request
}.

Definition attempt `{Host} `{CloudFallback.Network}
    (backend : LocalBackend.State) (cloudFallback : CloudFallback.State)
    (messages : list Message) (userMessage : jsstring) : Attempt :=
  match processLocalQuery backend userMessage with
  | Thrown e => {| result := Thrown e; cloudCalls := 0; requests := [] |}
  | Returned localResponse =>
      if needsCloudFallback localResponse then
        let cloudStatus := CloudFallback.getStatus cloudFallback in
        if CloudFallback.status_isEnabled cloudStatus
           && CloudFallback.status_hasApiKey cloudStatus
        then
          let '(completion, sent) :=
            CloudFallback.chatWithGPT cloudFallback userMessage
              (historyOf messages) in
          match completion with
          | Returned text =>
              {| result := Returned (text, cloud);
                 cloudCalls := 1; requests := sent |}
          | Thrown cloudError =>
              {| result :=
                   Returned (response localResponse ++ enablementHint, local);
                 cloudCalls := 1; requests := sent |}
          end
        else
          {| result :=
               Returned (response localResponse ++ enablementHint, local);
             cloudCalls := 0; requests := [] |}
      else
        {| result := Returned (response localResponse, local);
           cloudCalls := 0; requests := [] |}
  end.

(** The updates of the message list that [processMessage] passes to
    [setMessages] once the answer is known: the completion of the
    loading message, and its replacement by the error text. *)
Inductive Update : Type :=
| Completed (loadingId : jsstring) (text : jsstring) (kind : ProcessingType)
| Failed (loadingId : jsstring).

Definition errorText : jsstring :=
  str "Sorry, I encountered an error processing your request. Please try "
  ++ str "again.".

Definition target (u : Update) : jsstring :=
  match u with
  | Completed loadingId _ _ => loadingId
  | Failed loadingId => loadingId
  end.

(** The object that replaces a message with the identifier of the
    update: the spread of [msg] with three fields overwritten. *)
Definition replacement (u : Update) (msg : Message) : Message :=
  match u with
  | Completed _ text kind =>
      {| id := id msg; role := role msg; content := text;
         timestamp := timestamp msg; processingType := kind;
         isLoading := Some false |}
  | Failed _ =>
      {| id := id msg; role := role msg; content := errorText;
         timestamp := timestamp msg; processingType := local;
         isLoading := Some false |}
  end.

(** [prev => prev.map(msg => msg.id === loadingMsg.id ? ... : msg)]. *)
Definition applyUpdate (u : Update) (prev : list Message) : list Message :=
  map (fun msg => if streq (id msg) (target u) then replacement u msg else msg)
      prev.

(** What an update does to one message. *)
Definition updateOne (u : Update) (msg : Message) : Message :=
  if streq (id msg) (target u) then replacement u msg else msg.

(** The four readings of the clock in [processMessage]: [Date.now()] and
    [new Date()] for the user message, then for the loading message. *)
Record Clock : Type := {
  userNow : N;
  userDate : N;
  loadingNow : N;
  loadingDate : N
}.

Record Outcome : Type := {
  attempted : Attempt;
  shown : list Message;
  toasted : bool
}.

(** [processMessage(userMessage)].  [messages] is the state of the render
    that created the closure; the functional updates of [setMessages]
    start from it (no other update is in flight). *)
Definition processMessage `{Host} `{CloudFallback.Network}
    (backend : LocalBackend.State) (cloudFallback : CloudFallback.State)
    (clock : Clock) (messages : list Message) (userMessage : jsstring)
  : Outcome :=
  let userMsg :=
    {| id := numberToString (userNow clock); role := user;
       content := userMessage; timestamp := userDate clock;
       processingType := local; isLoading := None |} in
  let loadingMsg :=
    {| id := numberToString (loadingNow clock + 1); role := assistant;
       content := []; timestamp := loadingDate clock;
       processingType := local; isLoading := Some true |} in
  let prev := messages ++ [userMsg; loadingMsg] in
  let a := attempt backend cloudFallback messages userMessage in
  match result a with
  | Returned (text, kind) =>
      {| attempted := a;
         shown := applyUpdate (Completed (id loadingMsg) text kind) prev;
         toasted := false |}
  | Thrown error =>
      {| attempted := a;
         shown := applyUpdate (Failed (id loadingMsg)) prev;
         toasted := true |}
  end.

(** The text that the caller of [processMessage] gets to see: the
    content written into the loading message. *)
Definition answerText (o : Outcome) : jsstring :=
  match result (attempted o) with
  | Returned (text, _) => text
  | Thrown _ => errorText
  end.

(** The processing type written into the loading message. *)
Definition answerKind (o : Outcome) : ProcessingType :=
  match result (attempted o) with
  | Returned (_, kind) => kind
  | Thrown _ => local
  end.

(** The array [messages] that [chatWithGPT] builds for a user message
    and a history. *)
Definition chatMessages (userMessage : jsstring)
    (conversationHistory : list CloudFallback.GPTMessage)
  : list CloudFallback.GPTMessage :=
  [ {| CloudFallback.gpt_role := system;
       CloudFallback.gpt_content := CloudFallback.chatSystemPrompt |} ]
  ++ sliceLast 5 conversationHistory
  ++ [ {| CloudFallback.gpt_role := user;
          CloudFallback.gpt_content := userMessage |} ].

(** [handleSubmit(e)]: the message handed to [processMessage], if any.
    [input] and [isProcessing] are the state of the render. *)
Definition handleSubmit (input : jsstring) (isProcessing : bool)
  : option jsstring :=
  if match trim input with [] => true | _ => false end || isProcessing
  then None
  else Some (trim input).

End ChatInterface.

(** ** [src/components/DataUpload.tsx] *)

Module DataUpload.

(** A cell of a row: a number or a string. *)
Inductive Cell : Type :=
| NumberCell (x : Num)
| StringCell (s : jsstring).

(** A row object: its own properties in creation order. *)
Abbreviation Row := (list (jsstring * Cell)).

(** The cell of a value: [isNaN(numValue) ? value : numValue]. *)
Definition coerce (value : jsstring) : Cell :=
  let numValue := parseFloat value in
  if isNaN numValue then StringCell value else NumberCell numValue.

(** [s.split(',').map(v => v.trim().replace(...))]. *)
Definition fields (line : jsstring) : list jsstring :=
  map (fun v => stripQuotes (trim v)) (splitChar 44 line).

(** [headers.forEach((header, index) => ...)] on the headers from
    [index] on: [values[index] || ''] is coerced and assigned to
    [row[header]]. *)
Fixpoint forEachHeader (index : nat) (headers values : list jsstring)
    (row : Row) : Row :=
  match headers with
  | [] => row
  | header :: rest =>
      let value := default [] (values !! index) in
      forEachHeader (S index) rest values (assign header (coerce value) row)
  end.

(** [parseCSV(text)]. *)
Definition parseCSV (text : jsstring) : list Row :=
  let lines := splitChar 10 (trim text) in
  match lines with
  | [] => []
  | first :: others =>
      let headers := fields first in
      map (fun line =>
             let values := fields line in
             forEachHeader 0 headers values [])
          others
  end.

(** The array [headers] of [parseCSV]. *)
Definition headersOf (text : jsstring) : list jsstring :=
  fields (hd [] (splitChar 10 (trim text))).


(** The row objects as values, for the store. *)
Definition cellValue (cell : Cell) : JSValue :=
  match cell with
  | NumberCell x => JNumber x
  | StringCell s => JString s
  end.

Definition rowValue (row : Row) : JSValue :=
  JObject (map (fun kv => (kv.1, cellValue kv.2)) row).

Definition rowsValue (rows : list Row) : JSValue :=
  JArray (map rowValue rows).

(** The file picked in the input: its name and its text. *)
Record File : Type := {
  file_name : jsstring;
  file_text : jsstring
}.

Definition unsupportedType : jsstring :=
  str "Unsupported file type. Please upload CSV or JSON files.".

(** The toast of [handleFileUpload]: [Dataset uploaded], or
    [Upload failed] with the error caught. *)
Inductive UploadToast : Type :=
| DatasetUploaded (name : jsstring)
| UploadFailed (e : JSError).

(** The description of the failure toast, where the sources fix it: the
    message of an [Error] that the sources throw.  The message of a host
    error is the engine's. *)
Definition failureDescription (e : JSError) : option jsstring :=
  match e with
  | Error message => Some message
  | _ => None
  end.

(** The value of [data] in [handleFileUpload]: by the extension of the
    file name.  [parse] is [JSON.parse]. *)
Definition readFile (parse : jsstring -> Completion JSValue) (file : File)
  : Completion JSValue :=
  if endsWith (file_name file) (str ".json") then parse (file_text file)
  else if endsWith (file_name file) (str ".csv")
  then Returned (rowsValue (parseCSV (file_text file)))
  else Thrown (Error unsupportedType).

(** [handleFileUpload(event)] for the file [event.target.files?.[0]]:
    the toast shown, if any, and the backend afterwards.  [stringify] is
    [JSON.stringify]; [now] and [created] are the readings of the clock
    in [saveDataset]. *)
Definition handleFileUpload (parse : jsstring -> Completion JSValue)
    (stringify : JSValue -> option jsstring) (file : option File)
    (now created : N) (backend : LocalBackend.State)
  : option UploadToast * LocalBackend.State :=
  match file with
  | None => (None, backend)
  | Some f =>
      match readFile parse f with
      | Thrown e => (Some (UploadFailed e), backend)
      | Returned data =>
          match LocalBackend.saveDataset (file_name f) data (stringify data)
                  now created backend with
          | (Thrown e, backend') => (Some (UploadFailed e), backend')
          | (Returned _, backend') =>
              (Some (DatasetUploaded (file_name f)), backend')
          end
      end
  end.

(** [analyzeDataset(dataset)]: the analysis shown, or the error of the
    failure toast. *)
Definition analyzeDataset (interpreter : option JSValue)
    (dataset : LocalBackend.Dataset) (backend : LocalBackend.State)
  : Completion LocalBackend.DataResult :=
  LocalBackend.processDataLocally interpreter
    (LocalBackend.dataset_data dataset) (str "summary") backend.

End DataUpload.

(** ** [src/components/SettingsPanel.tsx] *)

Module SettingsPanel.

(** The state of the panel: the switch and the key field. *)
Record Panel : Type := {
  cloudEnabled : bool;
  apiKey : jsstring
}.

(** [useState(false)], [useState("")]. *)
Definition initial : Panel := {| cloudEnabled := false; apiKey := [] |}.

Inductive Toast : Type :=
| SettingsSaved
| ApiKeyCleared
| TestRefused
| ConnectionSuccessful
| ConnectionFailed (e : JSError).

Definition cloudEnabledKey : jsstring := str "cloudEnabled".
Definition gptApiKeyKey : jsstring := str "gptApiKey".

(** A stored value as the boolean, or as the string, that the state and
    the setters of the cloud client are declared with; [None] for a
    value of another type, which this model leaves out. *)
Definition asBoolean (v : JSValue) : option bool :=
  match v with
  | JBool b => Some b
  | _ => None
  end.

Definition asString (v : JSValue) : option jsstring :=
  match v with
  | JString s => Some s
  | _ => None
  end.

(** [loadSettings()]: the panel and the cloud client afterwards.  An
    error of [getSetting] is caught and logged, and nothing changes. *)
Definition loadSettings (panel : Panel) (backend : LocalBackend.State)
    (client : CloudFallback.State) : option (Panel * CloudFallback.State) :=
  match LocalBackend.getSetting cloudEnabledKey backend,
        LocalBackend.getSetting gptApiKeyKey backend with
  | Returned enabled, Returned key =>
      match asBoolean (orElse enabled (JBool false)),
            asString (orElse key (JString [])) with
      | Some enabledOrFalse, Some keyOrEmpty =>
          let client1 := CloudFallback.setEnabled enabledOrFalse client in
          Some ({| cloudEnabled := enabledOrFalse; apiKey := keyOrEmpty |},
                if truthy key then CloudFallback.setApiKey keyOrEmpty client1
                else client1)
      | _, _ => None
      end
  | _, _ => Some (panel, client)
  end.

(** [saveSettings()]: the toast, the backend and the cloud client
    afterwards.  ([setSetting] does not throw in this model, so the toast
    of the [catch] is never shown.) *)
Definition saveSettings (panel : Panel) (backend : LocalBackend.State)
    (client : CloudFallback.State)
  : Toast * LocalBackend.State * CloudFallback.State :=
  let backend1 :=
    (LocalBackend.setSetting cloudEnabledKey (JBool (cloudEnabled panel))
       backend).2 in
  let backend2 :=
    (LocalBackend.setSetting gptApiKeyKey (JString (apiKey panel))
       backend1).2 in
  let client1 := CloudFallback.setEnabled (cloudEnabled panel) client in
  let client2 :=
    match apiKey panel with
    | [] => client1
    | _ :: _ => CloudFallback.setApiKey (apiKey panel) client1
    end in
  (SettingsSaved, backend2, client2).

(** [clearApiKey()]. *)
Definition clearApiKey (panel : Panel) (backend : LocalBackend.State)
    (client : CloudFallback.State)
  : Toast * Panel * LocalBackend.State * CloudFallback.State :=
  (ApiKeyCleared,
   {| cloudEnabled := cloudEnabled panel; apiKey := [] |},
   (LocalBackend.setSetting gptApiKeyKey (JString []) backend).2,
   CloudFallback.setApiKey [] client).

Definition testMessage : jsstring :=
  str "Test message - please respond with 'Connection successful'".

(** [testConnection()]: the toast, the cloud client afterwards and the
    requests sent. *)
Definition testConnection `{CloudFallback.Network} (panel : Panel)
    (client : CloudFallback.State)
  : Toast * CloudFallback.State * list CloudFallback.Request :=
  if match apiKey panel with [] => true | _ => false end
     || negb (cloudEnabled panel)
  then (TestRefused, client, [])
  else
    let client' :=
      CloudFallback.setEnabled true
        (CloudFallback.setApiKey (apiKey panel) client) in
    match CloudFallback.chatWithGPT client' testMessage [] with
    | (Returned _, sent) => (ConnectionSuccessful, client', sent)
    | (Thrown e, sent) => (ConnectionFailed e, client', sent)
    end.

End SettingsPanel.

(** ** A host and a network for the examples *)

(** ** [pages/Index.tsx] *)

Module Index.

Import JS.

(** The two toasts of [initializeApp]: [App Ready], and the destructive
    [Initialization Warning]. *)
Inductive Toast := AppReady | InitializationWarning.

(** [initializeApp()]: a rejection of [initialize()] is caught and only
    reported; the page is shown in both cases. *)
Definition initializeApp (opened : Completion LocalBackend.Database)
    (pyodideLoads : bool) (b : LocalBackend.State)
  : Toast * LocalBackend.State :=
  match LocalBackend.initialize opened pyodideLoads b with
  | (Returned _, b') => (AppReady, b')
  | (Thrown _, b') => (InitializationWarning, b')
  end.

End Index.

Module Examples.

(** Case folding of the letters A to Z.  On a string of ASCII code units
    this is [String.prototype.toLowerCase]. *)
Definition asciiToLowerCase (s : jsstring) : jsstring :=
  map (fun c => if (65 <=? c) && (c <=? 90) then c + 32 else c) s.

(** [toFixed(1)] of a double that is not negative: the nearest number
    of tenths of its exact value, the larger one when two are as near. *)
Definition tenthsOf (y : SpecFloat.spec_float) : Z :=
  match y with
  | SpecFloat.S754_finite _ M E =>
      match E with
      | Z.neg k => (2 * 10 * Z.pos M + 2 ^ Z.pos k) / (2 * 2 ^ Z.pos k)
      | _ => 10 * Z.pos M * 2 ^ E
      end
  | _ => 0
  end%Z.

(** [(x * 100).toFixed(1)] as the engine computes it: the quotient of
    the two counts rounded to a double, its product with 100 rounded
    again, then one fractional digit. *)
Definition doublePercent (x : Quotient) : jsstring :=
  match x with
  | QNaN => str "NaN"
  | QInf => str "Infinity"
  | QFin q =>
      let quotient :=
        match Qnum q with
        | Z0 => SpecFloat.S754_zero false
        | Z.pos a =>
            SpecFloat.SFdiv 53 1024 (SpecFloat.S754_finite false a 0)
              (SpecFloat.S754_finite false (Qden q) 0)
        | Z.neg a =>
            SpecFloat.SFdiv 53 1024 (SpecFloat.S754_finite true a 0)
              (SpecFloat.S754_finite false (Qden q) 0)
        end in
      let tenths :=
        tenthsOf
          (SpecFloat.SFmul 53 1024 quotient
             (SpecFloat.S754_finite false 100 0)) in
      (if (Qnum q <? 0)%Z then str "-" else [])
      ++ numberToString (Z.to_N (tenths / 10)) ++ str "."
      ++ numberToString (Z.to_N (tenths mod 10))
  end.

Definition asciiHost : Host :=
  {| toLowerCase := asciiToLowerCase; percentToFixed1 := doublePercent |}.

(** No route to the endpoint: every [fetch] rejects. *)
Definition offline : CloudFallback.Network :=
  {| CloudFallback.fetch := fun _ => CloudFallback.Rejected |}.

(** The endpoint answers every request with status 401. *)
Definition unauthorized : CloudFallback.Network :=
  {| CloudFallback.fetch := fun _ =>
       CloudFallback.Response false 401 (str "Unauthorized")
         CloudFallback.NotJson |}.

(** The backend after [initialize()] on a browser without stored data. *)
Definition initialized : LocalBackend.State :=
  (LocalBackend.initialize (Returned LocalBackend.emptyDatabase) false
     LocalBackend.fresh).2.

(** The cloud client after [setApiKey] and [setEnabled(true)]. *)
Definition configured : CloudFallback.State :=
  CloudFallback.setEnabled true
    (CloudFallback.setApiKey (str "sk-test") CloudFallback.fresh).

Definition noon : ChatInterface.Clock :=
  {| ChatInterface.userNow := 1700000000000;
     ChatInterface.userDate := 1700000000000;
     ChatInterface.loadingNow := 1700000000000;
     ChatInterface.loadingDate := 1700000000000 |}.

(** The endpoint answers every request with one choice. *)
Definition answering : CloudFallback.Network :=
  {| CloudFallback.fetch := fun _ =>
       CloudFallback.Response true 200 (str "OK")
         (CloudFallback.Json
            (Some [CloudFallback.WithMessage (str "Hello from the cloud")]))
  |}.

(** An assistant message that carries the identifier which [noon] gives
    to the loading message. *)
Definition earlierAnswer : ChatInterface.Message :=
  {| ChatInterface.id := str "1700000000001";
     ChatInterface.role := assistant;
     ChatInterface.content := str "An earlier answer";
     ChatInterface.timestamp := 1700000000000;
     ChatInterface.processingType := local;
     ChatInterface.isLoading := Some false |}.

(** The welcome message of a new chat. *)
Definition welcome : ChatInterface.Message :=
  {| ChatInterface.id := str "1";
     ChatInterface.role := assistant;
     ChatInterface.content := str "Hello!";
     ChatInterface.timestamp := 1699999999000;
     ChatInterface.processingType := local;
     ChatInterface.isLoading := None |}.

Definition salesFile : DataUpload.File :=
  {| DataUpload.file_name := str "sales.csv";
     DataUpload.file_text := str "a,b" ++ [10] ++ str "1,x" |}.

Definition notesFile : DataUpload.File :=
  {| DataUpload.file_name := str "notes.txt";
     DataUpload.file_text := str "hello" |}.

(** Stand-ins for [JSON.parse] and [JSON.stringify] in the examples,
    which do not depend on what they give. *)
Definition noParse (text : jsstring) : Completion JSValue :=
  Thrown SyntaxError.

Definition emptyArrayText (v : JSValue) : option jsstring :=
  Some (str "[]").

End Examples.

(** * Properties *)

Import ChatInterface.

(** ** Strings *)

Lemma startsWith_app (p s : jsstring) : startsWith (p ++ s) p = true.
Proof.
  induction p as [|a p IH]; simpl; [reflexivity|].
  rewrite N.eqb_refl. exact IH.
Qed.

Lemma endsWith_app (s p : jsstring) : endsWith (s ++ p) p = true.
Proof.
  unfold endsWith. rewrite rev_app_distr. apply startsWith_app.
Qed.

Lemma streq_true (a b : jsstring) : streq a b = true <-> a = b.
Proof. unfold streq. apply bool_decide_eq_true. Qed.

Lemma streq_false (a b : jsstring) : streq a b = false <-> a <> b.
Proof. unfold streq. apply bool_decide_eq_false. Qed.

Lemma streq_refl (a : jsstring) : streq a a = true.
Proof. apply streq_true. reflexivity. Qed.

(** ** The persistent store *)

Section Store.

Import LocalBackend.

Lemma setSetting_initialized (b : State) (d : Database) (k : jsstring)
    (v : JSValue) :
  db b = Some d ->
  db (setSetting k v b).2
  = Some {| datasets := datasets d; conversations := conversations d;
            settings := <[k := v]> (settings d) |}.
Proof. intros Hd. unfold setSetting. rewrite Hd. reflexivity. Qed.

Lemma getSetting_after_setSetting (b : State) (d : Database) (k : jsstring)
    (v : JSValue) :
  db b = Some d ->
  getSetting k (setSetting k v b).2 = Returned (orElse v JNull).
Proof.
  intros Hd. unfold getSetting.
  rewrite (setSetting_initialized b d k v Hd). simpl.
  rewrite lookup_insert_eq. reflexivity.
Qed.

(** What the round trip of a setting gives today on an open store: a
    truthy value reads back as itself (a falsy one as [null], by
    [getSetting_after_setSetting]), and a key that has no record reads
    as [null]. *)
Lemma truthy_setting_reads_back (b : State) (d : Database) (k : jsstring)
    (v : JSValue) :
  db b = Some d ->
  truthy v = true ->
  getSetting k (setSetting k v b).2 = Returned v
  /\ (forall k' : jsstring,
        settings d !! k' = None -> getSetting k' b = Returned JNull).
Proof.
  intros Hd Hv. split.
  - rewrite (getSetting_after_setSetting b d k v Hd).
    unfold orElse. rewrite Hv. reflexivity.
  - intros k' Hk. unfold getSetting. rewrite Hd, Hk. reflexivity.
Qed.

(** C4, as amended.  On a backend whose database is not open,
    [saveDataset] throws the error [Database not initialized];
    [saveConversation] and [setSetting] return without an error and
    without a write; [getDatasets] and [getConversations] return the
    empty array and [getSetting] returns [null]. *)
Theorem uninitialized_access (b : State) :
  db b = None ->
  (forall name data json now created,
      saveDataset name data json now created b
      = (Thrown (Error notInitialized), b))
  /\ (forall conversation, saveConversation conversation b = (Returned tt, b))
  /\ (forall k v, setSetting k v b = (Returned tt, b))
  /\ getDatasets b = Returned []
  /\ getConversations b = Returned []
  /\ (forall k, getSetting k b = Returned JNull).
Proof.
  intros Hd.
  unfold saveDataset, saveConversation, setSetting, getDatasets,
    getConversations, getSetting.
  rewrite Hd. repeat split; reflexivity.
Qed.

End Store.

(** ** The message list *)

Lemma replacement_id (u : Update) (msg : Message) :
  id (replacement u msg) = id msg.
Proof. destruct u; reflexivity. Qed.

Lemma replacement_twice (u : Update) (msg : Message) :
  replacement u (replacement u msg) = replacement u msg.
Proof. destruct u; reflexivity. Qed.

Lemma updateOne_id (u : Update) (msg : Message) :
  id (updateOne u msg) = id msg.
Proof.
  unfold updateOne. destruct (streq (id msg) (target u)); [|reflexivity].
  apply replacement_id.
Qed.

Lemma updateOne_twice (u : Update) (msg : Message) :
  updateOne u (updateOne u msg) = updateOne u msg.
Proof.
  unfold updateOne at 1. rewrite updateOne_id. unfold updateOne.
  destruct (streq (id msg) (target u)); [|reflexivity].
  apply replacement_twice.
Qed.

Lemma updateOne_swap (u1 u2 : Update) (msg : Message) :
  target u1 <> target u2 ->
  updateOne u1 (updateOne u2 msg) = updateOne u2 (updateOne u1 msg).
Proof.
  intros Hne.
  unfold updateOne at 1 3. rewrite !updateOne_id. unfold updateOne.
  destruct (streq (id msg) (target u1)) eqn:E1;
    destruct (streq (id msg) (target u2)) eqn:E2; try reflexivity.
  apply streq_true in E1. apply streq_true in E2. congruence.
Qed.

(** C9.  The update of the message list goes by identifier: the list
    keeps its length, the entry at any index is replaced exactly when its
    identifier is the one of the update; applying an update twice gives
    what applying it once gives; two updates with distinct identifiers
    commute. *)
Theorem update_by_identifier (u1 u2 : Update) (prev : list Message) :
  length (applyUpdate u1 prev) = length prev
  /\ (forall (i : nat) (msg : Message),
        prev !! i = Some msg ->
        applyUpdate u1 prev !! i
        = Some (if streq (id msg) (target u1) then replacement u1 msg
                else msg))
  /\ applyUpdate u1 (applyUpdate u1 prev) = applyUpdate u1 prev
  /\ (target u1 <> target u2 ->
      applyUpdate u1 (applyUpdate u2 prev)
      = applyUpdate u2 (applyUpdate u1 prev)).
Proof.
  unfold applyUpdate. repeat split.
  - apply length_map.
  - intros i msg Hi. rewrite list_lookup_fmap, Hi. reflexivity.
  - rewrite map_map. apply map_ext. intros msg. apply updateOne_twice.
  - intros Hne. rewrite !map_map. apply map_ext. intros msg.
    apply (updateOne_swap u1 u2 msg Hne).
Qed.

(** ** The query router and the cloud client *)

Section Router.

Context `{host : Host} `{network : CloudFallback.Network}.

Lemma endsWith_hint (text : jsstring) :
  endsWith (text ++ enablementHint) hintSentence = true.
Proof.
  unfold enablementHint. rewrite app_assoc. apply endsWith_app.
Qed.

(** Rules 1 to 5 are final. *)
Lemma processLocalQuery_local (backend : LocalBackend.State)
    (query : jsstring) :
  matchesLocalRule (toLowerCase query) = true ->
  exists r, processLocalQuery backend query = Returned r
            /\ needsCloudFallback r = false.
Proof.
  unfold matchesLocalRule, processLocalQuery. intros Hrule.
  destruct (mentionsData (toLowerCase query)).
  { unfold LocalBackend.getDatasets.
    destruct (LocalBackend.db backend); simpl.
    - destruct (_ =? _)%nat; eexists; split; reflexivity.
    - eexists; split; reflexivity. }
  destruct (mentionsSentiment (toLowerCase query));
    [eexists; split; reflexivity|].
  destruct (mentionsKeywords (toLowerCase query));
    [eexists; split; reflexivity|].
  destruct (mentionsGreeting (toLowerCase query));
    [eexists; split; reflexivity|].
  destruct (mentionsHelp (toLowerCase query));
    [eexists; split; reflexivity|].
  discriminate.
Qed.

(** Rules 6 and 7 ask for the cloud. *)
Lemma processLocalQuery_fallback (backend : LocalBackend.State)
    (query : jsstring) :
  matchesLocalRule (toLowerCase query) = false ->
  processLocalQuery backend query
  = Returned {| response :=
                  if looksComplex query (toLowerCase query)
                  then complexQuestion else processedLocally;
                needsCloudFallback := true |}.
Proof.
  unfold matchesLocalRule, processLocalQuery. intros Hrule.
  destruct (mentionsData (toLowerCase query)); [discriminate|].
  destruct (mentionsSentiment (toLowerCase query)); [discriminate|].
  destruct (mentionsKeywords (toLowerCase query)); [discriminate|].
  destruct (mentionsGreeting (toLowerCase query)); [discriminate|].
  destruct (mentionsHelp (toLowerCase query)); [discriminate|].
  destruct (looksComplex query (toLowerCase query)); reflexivity.
Qed.

Lemma attempt_final backend cloudFallback messages query r :
  processLocalQuery backend query = Returned r ->
  needsCloudFallback r = false ->
  attempt backend cloudFallback messages query
  = {| result := Returned (response r, local);
       cloudCalls := 0; requests := [] |}.
Proof. intros Hq Hr. unfold attempt. rewrite Hq, Hr. reflexivity. Qed.

Lemma attempt_unavailable backend cloudFallback messages query r :
  processLocalQuery backend query = Returned r ->
  needsCloudFallback r = true ->
  CloudFallback.isEnabled cloudFallback
  && CloudFallback.hasApiKey cloudFallback = false ->
  attempt backend cloudFallback messages query
  = {| result := Returned (response r ++ enablementHint, local);
       cloudCalls := 0; requests := [] |}.
Proof.
  intros Hq Hr Hc. unfold attempt. rewrite Hq, Hr. simpl.
  rewrite Hc. reflexivity.
Qed.

Lemma attempt_cloud_error backend cloudFallback messages query r e sent :
  processLocalQuery backend query = Returned r ->
  needsCloudFallback r = true ->
  CloudFallback.isEnabled cloudFallback
  && CloudFallback.hasApiKey cloudFallback = true ->
  CloudFallback.chatWithGPT cloudFallback query (historyOf messages)
  = (Thrown e, sent) ->
  attempt backend cloudFallback messages query
  = {| result := Returned (response r ++ enablementHint, local);
       cloudCalls := 1; requests := sent |}.
Proof.
  intros Hq Hr Hc Hchat. unfold attempt. rewrite Hq, Hr. simpl.
  rewrite Hc, Hchat. reflexivity.
Qed.

Lemma processMessage_attempted backend cloudFallback clock messages query :
  attempted (processMessage backend cloudFallback clock messages query)
  = attempt backend cloudFallback messages query.
Proof.
  unfold processMessage.
  destruct (result (attempt backend cloudFallback messages query))
    as [[text kind]|e]; reflexivity.
Qed.

(** C2.  A query that falls under one of the rules 1 to 5 gets a local
    response with [needsCloudFallback = false]; [processMessage] then
    answers with that response, of processing type [local], without a
    call of the cloud client and without a request, whatever the flags
    of the cloud client are. *)
Theorem local_rules_never_reach_the_cloud
    (backend : LocalBackend.State) (cloudFallback : CloudFallback.State)
    (clock : Clock) (messages : list Message) (query : jsstring) :
  matchesLocalRule (toLowerCase query) = true ->
  exists r,
    processLocalQuery backend query = Returned r
    /\ needsCloudFallback r = false
    /\ let o := processMessage backend cloudFallback clock messages query in
       result (attempted o) = Returned (response r, local)
       /\ answerText o = response r
       /\ cloudCalls (attempted o) = 0%nat
       /\ requests (attempted o) = [].
Proof.
  intros Hrule.
  destruct (processLocalQuery_local backend query Hrule) as (r & Hq & Hr).
  exists r. split; [exact Hq|]. split; [exact Hr|]. cbv zeta.
  unfold answerText. rewrite processMessage_attempted.
  rewrite (attempt_final backend cloudFallback messages query r Hq Hr).
  repeat split; reflexivity.
Qed.

(** C3, as amended.  For a query that falls under none of the rules 1 to
    5 and is longer than 100 code units or contains, case folded,
    [explain], [complex] or [detailed]: when the cloud client is disabled
    or has no credential, the answer is the text of rule 6 followed by
    the enablement hint, so it ends with the hint, and no request is
    sent. *)
Theorem complex_query_gets_the_hint
    (backend : LocalBackend.State) (cloudFallback : CloudFallback.State)
    (clock : Clock) (messages : list Message) (query : jsstring) :
  matchesLocalRule (toLowerCase query) = false ->
  looksComplex query (toLowerCase query) = true ->
  CloudFallback.isEnabled cloudFallback
  && CloudFallback.hasApiKey cloudFallback = false ->
  let o := processMessage backend cloudFallback clock messages query in
  answerText o = complexQuestion ++ enablementHint
  /\ endsWith (answerText o) hintSentence = true
  /\ cloudCalls (attempted o) = 0%nat
  /\ requests (attempted o) = [].
Proof.
  intros Hrule Hcomplex Hcloud. cbv zeta.
  pose proof (processLocalQuery_fallback backend query Hrule) as Hq.
  rewrite Hcomplex in Hq.
  unfold answerText. rewrite processMessage_attempted.
  rewrite (attempt_unavailable backend cloudFallback messages query _ Hq
             eq_refl Hcloud).
  cbn [result cloudCalls requests].
  split; [reflexivity|]. split; [apply endsWith_hint|].
  split; reflexivity.
Qed.

(** The three [throw] statements of [processWithGPT]. *)
Lemma processWithGPT_explicit (c : CloudFallback.State)
    (messages : list CloudFallback.GPTMessage)
    (options : CloudFallback.Options) :
  (exists m,
      (CloudFallback.processWithGPT c messages options).1
      = Thrown (Error m))
  <-> (CloudFallback.isEnabled c = false
       \/ CloudFallback.hasApiKey c = false
       \/ CloudFallback.nonSuccess c messages options = true).
Proof.
  unfold CloudFallback.processWithGPT, CloudFallback.hasApiKey,
    CloudFallback.nonSuccess.
  destruct (CloudFallback.isEnabled c); simpl.
  2: { split; [auto | eauto]. }
  destruct (CloudFallback.apiKey c) as [[|k key]|]; simpl.
  1, 3: split; [auto | eauto].
  destruct (CloudFallback.fetch _) as [|ok status statusText body]; simpl.
  { split; [intros [m Hm]; discriminate
           | intros [H|[H|H]]; discriminate]. }
  destruct ok; simpl.
  2: { split; [auto | eauto]. }
  split; [|intros [H|[H|H]]; discriminate].
  intros [m Hm].
  destruct body as [|[[|[content|] rest]|]]; discriminate.
Qed.

(** A failure of the host is not one of these: a rejected [fetch] is
    passed on as it is. *)
Lemma processWithGPT_rejected (c : CloudFallback.State) (key : jsstring)
    (messages : list CloudFallback.GPTMessage)
    (options : CloudFallback.Options) :
  CloudFallback.isEnabled c = true ->
  CloudFallback.apiKey c = Some key -> key <> [] ->
  CloudFallback.fetch (CloudFallback.buildRequest key messages options)
  = CloudFallback.Rejected ->
  CloudFallback.processWithGPT c messages options
  = (Thrown TypeError, [CloudFallback.buildRequest key messages options]).
Proof.
  intros Hon Hkey Hne Hfetch. unfold CloudFallback.processWithGPT.
  rewrite Hon, Hkey. destruct key as [|k key]; [congruence|].
  simpl. rewrite Hfetch. reflexivity.
Qed.

(** C7.  [processWithGPT] throws one of its own errors exactly when the
    client is disabled, when it has no credential, or when the remote
    call comes back with a status that is not a success; and when the
    call of the cloud client by [processMessage] throws, whatever the
    error, [processMessage] shows no error: it answers with the local
    response followed by the enablement hint. *)
Theorem cloud_failures_are_downgraded
    (backend : LocalBackend.State) (cloudFallback : CloudFallback.State)
    (clock : Clock) (history : list Message) (query : jsstring)
    (messages : list CloudFallback.GPTMessage)
    (options : CloudFallback.Options)
    (r : LocalResponse) (e : JSError) (sent : list CloudFallback.Request) :
  ((exists m,
       (CloudFallback.processWithGPT cloudFallback messages options).1
       = Thrown (Error m))
   <-> (CloudFallback.isEnabled cloudFallback = false
        \/ CloudFallback.hasApiKey cloudFallback = false
        \/ CloudFallback.nonSuccess cloudFallback messages options = true))
  /\ (processLocalQuery backend query = Returned r ->
      needsCloudFallback r = true ->
      CloudFallback.isEnabled cloudFallback
      && CloudFallback.hasApiKey cloudFallback = true ->
      CloudFallback.chatWithGPT cloudFallback query (historyOf history)
      = (Thrown e, sent) ->
      let o := processMessage backend cloudFallback clock history query in
      result (attempted o) = Returned (response r ++ enablementHint, local)
      /\ answerText o = response r ++ enablementHint
      /\ endsWith (answerText o) hintSentence = true
      /\ toasted o = false).
Proof.
  split; [apply processWithGPT_explicit|].
  intros Hq Hr Hc Hchat. cbv zeta.
  pose proof (attempt_cloud_error backend cloudFallback history query r e
                sent Hq Hr Hc Hchat) as Ha.
  unfold answerText. rewrite processMessage_attempted, Ha.
  cbn [result]. split; [reflexivity|]. split; [reflexivity|].
  split; [apply endsWith_hint|].
  unfold processMessage. rewrite Ha. reflexivity.
Qed.

End Router.

(** ** The local analyzer *)

Lemma splitSpaces_go_nonempty (s cur : jsstring) (inRun : bool) :
  splitSpaces_go cur inRun s <> [].
Proof.
  revert cur inRun. induction s as [|c s IH]; intros cur inRun; simpl.
  - discriminate.
  - destruct (isSpace c); [destruct inRun|]; try apply IH; discriminate.
Qed.

Lemma splitSpaces_nonempty (s : jsstring) : splitSpaces s <> [].
Proof. apply splitSpaces_go_nonempty. Qed.

Lemma arrayIncludes_In (l : list jsstring) (w : jsstring) :
  arrayIncludes l w = true <-> In w l.
Proof.
  unfold arrayIncludes. rewrite existsb_exists. split.
  - intros (x & Hx & Heq). apply streq_true in Heq. subst. exact Hx.
  - intros Hw. exists w. split; [exact Hw | apply streq_refl].
Qed.

(** No word is on both lists. *)
Lemma positive_not_negative (w : jsstring) :
  arrayIncludes LocalBackend.positiveWords w = true ->
  arrayIncludes LocalBackend.negativeWords w = false.
Proof.
  intros Hw. apply arrayIncludes_In in Hw.
  unfold LocalBackend.positiveWords in Hw. simpl in Hw.
  repeat (destruct Hw as [Hw|Hw]; [subst w; vm_compute; reflexivity|]).
  destruct Hw.
Qed.

Lemma counts_fit (words : list jsstring) :
  (length (List.filter (arrayIncludes LocalBackend.positiveWords) words)
   + length (List.filter (arrayIncludes LocalBackend.negativeWords) words)
   <= length words)%nat.
Proof.
  induction words as [|w words IH]; [simpl; lia|].
  cbn [List.filter].
  destruct (arrayIncludes LocalBackend.positiveWords w) eqn:Hp.
  - rewrite (positive_not_negative w Hp). cbn [length]. lia.
  - destruct (arrayIncludes LocalBackend.negativeWords w); cbn [length]; lia.
Qed.

Lemma divide_fits (a : Z) (b : nat) :
  (0 <= a <= Z.of_nat b)%Z -> (0 < b)%nat ->
  exists q, divide a b = QFin q /\ (0 <= q)%Q /\ (q <= 1)%Q.
Proof.
  intros Ha Hb. destruct b as [|b]; [lia|].
  exists (a # Pos.of_nat (S b))%Q. split; [reflexivity|].
  unfold Qle. simpl.
  rewrite <- Pos.of_nat_succ, Zpos_P_of_succ_nat. lia.
Qed.

Section Analyzer.

Context `{host : Host}.

Import LocalBackend.

Lemma sentimentWords_nonempty (text : jsstring) :
  (0 < length (sentimentWords text))%nat.
Proof.
  unfold sentimentWords.
  pose proof (splitSpaces_nonempty (toLowerCase text)) as Hne.
  destruct (splitSpaces (toLowerCase text)); [congruence | simpl; lia].
Qed.

Lemma confidence_fits (text : jsstring) :
  exists q, confidence (basicSentimentAnalysis text) = QFin q
            /\ (0 <= q)%Q /\ (q <= 1)%Q.
Proof.
  unfold basicSentimentAnalysis. cbn [confidence].
  apply divide_fits; [|apply sentimentWords_nonempty].
  pose proof (counts_fit (sentimentWords text)). lia.
Qed.

(** C6.  The confidence of [basicSentimentAnalysis] is a quotient between
    0 and 1; and when the count of positive words equals the count of
    negative words, the label is [neutral] and the difference of the
    counts, hence the confidence, is 0. *)
Theorem sentiment_confidence_and_ties (text : jsstring) :
  let r := basicSentimentAnalysis text in
  (exists q, confidence r = QFin q /\ (0 <= q)%Q /\ (q <= 1)%Q)
  /\ (positive r = negative r ->
      sentiment r = neutral_label
      /\ Z.abs (Z.of_nat (positive r) - Z.of_nat (negative r)) = 0%Z
      /\ exists q, confidence r = QFin q /\ (q == 0)%Q).
Proof.
  cbv zeta. split; [apply confidence_fits|].
  unfold basicSentimentAnalysis. cbn [sentiment confidence positive negative].
  intros Heq. rewrite Heq. rewrite Nat.ltb_irrefl.
  split; [reflexivity|]. split; [lia|].
  rewrite Z.sub_diag. simpl Z.abs.
  pose proof (sentimentWords_nonempty text) as Hlen.
  destruct (length (sentimentWords text)) as [|k]; [lia|].
  eexists. split; reflexivity.
Qed.

(** C10.  The array that [split] gives is never empty: the empty string
    gives one empty piece, a string of white space gives two; so
    [words.length] is at least 1 and the confidence of
    [basicSentimentAnalysis] is a finite quotient for every text, never
    [NaN] and never infinite. *)
Theorem sentiment_division_is_defined :
  (forall s : jsstring, splitSpaces s <> [])
  /\ splitSpaces [] = [[]]
  /\ splitSpaces (str "   ") = [[]; []]
  /\ (forall text : jsstring,
        (1 <= length (sentimentWords text))%nat
        /\ confidence (basicSentimentAnalysis text) <> QNaN
        /\ confidence (basicSentimentAnalysis text) <> QInf
        /\ exists q, confidence (basicSentimentAnalysis text) = QFin q).
Proof.
  split; [apply splitSpaces_nonempty|].
  split; [reflexivity|]. split; [reflexivity|].
  intros text. split; [apply sentimentWords_nonempty|].
  destruct (confidence_fits text) as (q & Hq & _).
  rewrite Hq. split; [discriminate|]. split; [discriminate|].
  exists q. reflexivity.
Qed.

End Analyzer.

(** ** Objects as property lists, and sorting *)

Section PropertyLists.

Context {V : Type}.

Implicit Types (props : list (jsstring * V)) (key : jsstring) (v : V).

Lemma getOwn_None props key : getOwn key props = None <-> key ∉ props.*1.
Proof.
  induction props as [|[k old] rest IH]; csimpl.
  - split; [intros _; apply not_elem_of_nil | reflexivity].
  - rewrite not_elem_of_cons. destruct (streq k key) eqn:E.
    + apply streq_true in E. split; [discriminate | intros [Hne _]; congruence].
    + apply streq_false in E. rewrite IH. split; [auto | intros [_ H]; exact H].
Qed.

Lemma getOwn_Some props key v : getOwn key props = Some v -> (key, v) ∈ props.
Proof.
  induction props as [|[k old] rest IH]; csimpl; [discriminate|].
  destruct (streq k key) eqn:E.
  - apply streq_true in E. intros [= ->]. subst. apply list_elem_of_here.
  - intros H. apply list_elem_of_further, IH, H.
Qed.

Lemma setProperty_keys_old props key v :
  key ∈ props.*1 -> (setProperty key v props).*1 = props.*1.
Proof.
  induction props as [|[k old] rest IH]; csimpl.
  - intros H. apply elem_of_nil in H. destruct H.
  - intros H. destruct (streq k key) eqn:E; csimpl; [reflexivity|].
    apply streq_false in E. apply elem_of_cons in H as [H|H]; [congruence|].
    rewrite (IH H). reflexivity.
Qed.

Lemma setProperty_keys_new props key v :
  key ∉ props.*1 -> (setProperty key v props).*1 = props.*1 ++ [key].
Proof.
  induction props as [|[k old] rest IH]; csimpl; [reflexivity|].
  intros H. apply not_elem_of_cons in H as [Hne H].
  destruct (streq k key) eqn:E; csimpl.
  - apply streq_true in E. congruence.
  - rewrite (IH H). reflexivity.
Qed.

Lemma setProperty_Forall (P : V -> Prop) props key v :
  P v -> Forall (fun e => P e.2) props ->
  Forall (fun e => P e.2) (setProperty key v props).
Proof.
  intros Hv. induction 1 as [|[k old] rest Hk Hrest IH]; csimpl.
  - repeat constructor. exact Hv.
  - destruct (streq k key); constructor; auto.
Qed.

Lemma getOwn_setProperty_same props key v :
  getOwn key (setProperty key v props) = Some v.
Proof.
  induction props as [|[k old] rest IH]; csimpl.
  - rewrite streq_refl. reflexivity.
  - destruct (streq k key) eqn:E; csimpl; rewrite E; [reflexivity | exact IH].
Qed.

Lemma getOwn_setProperty_other props key key' v :
  key <> key' ->
  getOwn key' (setProperty key v props) = getOwn key' props.
Proof.
  intros Hne. induction props as [|[k old] rest IH]; csimpl.
  - apply streq_false in Hne. rewrite Hne. reflexivity.
  - destruct (streq k key) eqn:E; csimpl.
    + apply streq_true in E. subst k.
      apply streq_false in Hne. rewrite Hne. reflexivity.
    + destruct (streq k key'); [reflexivity | exact IH].
Qed.

End PropertyLists.

Lemma sortInsert_Permutation {A} (cmp : A -> A -> Z) (x : A) (l : list A) :
  sortInsert cmp x l ≡ₚ x :: l.
Proof.
  induction l as [|y l IH]; simpl; [reflexivity|].
  destruct (cmp x y <=? 0)%Z; [reflexivity|].
  rewrite IH. apply Permutation_swap.
Qed.

Lemma sort_Permutation {A} (cmp : A -> A -> Z) (l : list A) :
  sort cmp l ≡ₚ l.
Proof.
  induction l as [|x l IH]; simpl; [reflexivity|].
  rewrite sortInsert_Permutation, IH. reflexivity.
Qed.

Lemma filter_split_Permutation {A} (p : A -> bool) (l : list A) :
  List.filter p l ++ List.filter (fun x => negb (p x)) l ≡ₚ l.
Proof.
  induction l as [|x l IH]; simpl; [reflexivity|].
  destruct (p x); simpl.
  - rewrite IH. reflexivity.
  - rewrite <- Permutation_middle, IH. reflexivity.
Qed.

Lemma entries_Permutation {V} (props : list (jsstring * V)) :
  entries props ≡ₚ props.
Proof.
  unfold entries. rewrite sort_Permutation.
  apply (filter_split_Permutation (fun kv => isArrayIndex kv.1)).
Qed.

(** ** Keyword extraction *)

Section Keywords.

Import LocalBackend.

Lemma own_name_not_proto (word : jsstring) :
  arrayIncludes objectPrototypeNames word = false ->
  streq word (str "__proto__") = false.
Proof.
  intros Hown. destruct (streq word (str "__proto__")) eqn:E; [|reflexivity].
  apply streq_true in E. subst word. vm_compute in Hown. discriminate.
Qed.

Lemma nextCount_counted (word : jsstring) (frequency : Frequency) :
  arrayIncludes objectPrototypeNames word = false ->
  Forall (fun e => counted e.2) frequency ->
  counted (nextCount word frequency).
Proof.
  intros Hown Hall. unfold nextCount.
  destruct (getOwn word frequency) as [c|] eqn:Hget.
  - apply getOwn_Some in Hget.
    rewrite Forall_forall in Hall. specialize (Hall _ Hget). simpl in Hall.
    destruct c as [n|]; [|destruct Hall]. simpl. lia.
  - rewrite Hown. simpl. lia.
Qed.

Lemma increment_wellCounted (word : jsstring) (frequency : Frequency) :
  arrayIncludes objectPrototypeNames word = false ->
  wellCounted frequency ->
  wellCounted (increment word frequency)
  /\ (forall x, x ∈ (increment word frequency).*1
                <-> x = word \/ x ∈ frequency.*1).
Proof.
  intros Hown [Hnodup Hall]. unfold increment, assign.
  rewrite (own_name_not_proto word Hown).
  pose proof (nextCount_counted word frequency Hown Hall) as Hnext.
  destruct (decide (word ∈ frequency.*1)) as [Hin|Hnin].
  - split; [split|].
    + rewrite setProperty_keys_old by exact Hin. exact Hnodup.
    + apply (setProperty_Forall counted); assumption.
    + intros x. rewrite setProperty_keys_old by exact Hin.
      split; [auto | intros [->|H]; assumption].
  - split; [split|].
    + rewrite setProperty_keys_new by exact Hnin.
      apply NoDup_app. split; [exact Hnodup|]. split.
      * intros x Hx Hx'. apply list_elem_of_singleton in Hx'. congruence.
      * apply NoDup_singleton.
    + apply (setProperty_Forall counted); assumption.
    + intros x. rewrite setProperty_keys_new by exact Hnin.
      rewrite elem_of_app, list_elem_of_singleton. tauto.
Qed.

Lemma forEach_wellCounted (words : list jsstring) (frequency : Frequency) :
  ownNamesOnly words = true ->
  wellCounted frequency ->
  wellCounted
    (fold_left (fun frequency word => increment word frequency)
       words frequency)
  /\ (forall x,
        x ∈ (fold_left (fun frequency word => increment word frequency)
               words frequency).*1
        <-> x ∈ frequency.*1 \/ x ∈ words).
Proof.
  revert frequency.
  induction words as [|word words IH]; intros frequency Hown Hwell.
  - simpl. split; [exact Hwell|]. intros x. rewrite elem_of_nil. tauto.
  - simpl in Hown. apply andb_true_iff in Hown as [Hword Hrest].
    apply negb_true_iff in Hword.
    destruct (increment_wellCounted word frequency Hword Hwell)
      as [Hwell' Hkeys].
    destruct (IH (increment word frequency) Hrest Hwell') as [Hfinal Hin].
    simpl. split; [exact Hfinal|].
    intros x. rewrite Hin, Hkeys, elem_of_cons. tauto.
Qed.

Lemma countWords_distinct (words : list jsstring) :
  ownNamesOnly words = true ->
  length (countWords words) = length (remove_dups words)
  /\ Forall (fun e => counted e.2) (countWords words).
Proof.
  intros Hown.
  assert (wellCounted []) as Hempty.
  { split; [apply NoDup_nil_2 | apply Forall_nil_2]. }
  destruct (forEach_wellCounted words [] Hown Hempty) as [[Hnodup Hall] Hin].
  fold (countWords words) in Hnodup, Hall, Hin.
  split; [|exact Hall].
  rewrite <- (length_fmap fst (countWords words)).
  apply Permutation_length, NoDup_Permutation.
  - exact Hnodup.
  - apply NoDup_remove_dups.
  - intros x. rewrite Hin, elem_of_remove_dups, elem_of_nil. tauto.
Qed.

Context `{host : Host}.

(** C5, as amended.  For a text whose qualifying tokens (case folded,
    punctuation removed, longer than 3) are [n < 10] distinct words, none
    of them the name of a member of [Object.prototype], [extractKeywords]
    returns exactly [n] entries, each with a count that is a number of
    at least 1. *)
Theorem extractKeywords_counts_distinct_words (text : jsstring) (n : nat) :
  ownNamesOnly (keywordWords text) = true ->
  length (remove_dups (keywordWords text)) = n ->
  (n < 10)%nat ->
  length (keywords (extractKeywords text)) = n
  /\ Forall (fun entry => exists count,
                 entry.2 = Counted count /\ (1 <= count)%nat)
       (keywords (extractKeywords text)).
Proof.
  intros Hown Hn Hlt. unfold extractKeywords. cbn [keywords].
  destruct (countWords_distinct (keywordWords text) Hown) as [Hlen Hall].
  assert (sort byCount (entries (countWords (keywordWords text)))
          ≡ₚ countWords (keywordWords text)) as Hperm.
  { rewrite sort_Permutation. apply entries_Permutation. }
  split.
  - rewrite length_take, (Permutation_length Hperm), Hlen, Hn. lia.
  - apply Forall_take. rewrite Hperm.
    eapply Forall_impl; [exact Hall|].
    intros [word c] Hc. simpl in *. destruct c as [count|]; [|destruct Hc].
    exists count. split; [reflexivity | exact Hc].
Qed.

End Keywords.

(** ** CSV import *)

Section CsvImport.

Import DataUpload.

Lemma getOwn_assign_other {V} (props : list (jsstring * V))
    (key key' : jsstring) (v : V) :
  key <> key' -> getOwn key' (assign key v props) = getOwn key' props.
Proof.
  intros Hne. unfold assign.
  destruct (streq key (str "__proto__")); [reflexivity|].
  apply getOwn_setProperty_other, Hne.
Qed.

Lemma getOwn_assign_same {V} (props : list (jsstring * V))
    (key : jsstring) (v : V) :
  key <> str "__proto__" -> getOwn key (assign key v props) = Some v.
Proof.
  intros Hne. unfold assign. apply streq_false in Hne. rewrite Hne.
  apply getOwn_setProperty_same.
Qed.

Lemma forEachHeader_other (headers values : list jsstring) (index : nat)
    (row : Row) (h : jsstring) :
  h ∉ headers ->
  getOwn h (forEachHeader index headers values row) = getOwn h row.
Proof.
  revert index row.
  induction headers as [|header rest IH]; intros index row Hh; simpl.
  - reflexivity.
  - apply not_elem_of_cons in Hh as [Hne Hh].
    rewrite (IH _ _ Hh). apply getOwn_assign_other. congruence.
Qed.

Lemma forEachHeader_cell (headers values : list jsstring) (index j : nat)
    (row : Row) (h : jsstring) :
  NoDup headers -> str "__proto__" ∉ headers ->
  headers !! j = Some h ->
  getOwn h (forEachHeader index headers values row)
  = Some (coerce (default [] (values !! (index + j)%nat))).
Proof.
  revert index j row.
  induction headers as [|header rest IH]; intros index j row Hnodup Hproto Hj.
  - discriminate.
  - apply NoDup_cons in Hnodup as [Hfresh Hnodup].
    apply not_elem_of_cons in Hproto as [Hne Hproto].
    destruct j as [|j]; simpl in Hj; simpl.
    + injection Hj as ->. rewrite (forEachHeader_other _ _ _ _ _ Hfresh).
      rewrite Nat.add_0_r. apply getOwn_assign_same. congruence.
    + rewrite (IH (S index) j _ Hnodup Hproto Hj).
      replace (S index + j)%nat with (index + S j)%nat by lia. reflexivity.
Qed.

(** C8.  [parseCSV] on the text [a,b / 1,x / 2,y] (three lines separated
    by line feeds) gives two rows, [{a: 1, b: x}] then [{a: 2, b: y}],
    the cells of [a] numbers and the cells of [b] strings; the coercion
    goes cell by cell: a cell is the number that [parseFloat] reads from
    its value when there is one, else the value itself, and under
    distinct headers the cell of the header at index [j] comes from the
    value at index [j] alone. *)
Theorem parseCSV_rows_and_cells :
  parseCSV (str "a,b" ++ [10] ++ str "1,x" ++ [10] ++ str "2,y")
  = [ [ (str "a", NumberCell (Dec false 1 0));
        (str "b", StringCell (str "x")) ];
      [ (str "a", NumberCell (Dec false 2 0));
        (str "b", StringCell (str "y")) ] ]
  /\ (forall value : jsstring,
        coerce value
        = match parseFloat value with
          | NaN => StringCell value
          | number => NumberCell number
          end)
  /\ (forall (headers values : list jsstring) (j : nat) (h : jsstring),
        NoDup headers -> str "__proto__" ∉ headers ->
        headers !! j = Some h ->
        getOwn h (forEachHeader 0 headers values [])
        = Some (coerce (default [] (values !! j)))).
Proof.
  split; [vm_compute; reflexivity|]. split.
  - intros value. unfold coerce. destruct (parseFloat value); reflexivity.
  - intros headers values j h Hnodup Hproto Hj.
    apply (forEachHeader_cell headers values 0 j [] h Hnodup Hproto Hj).
Qed.

End CsvImport.

(** * The statements at concrete inputs *)

Section Instances.

Import Examples.

(** [setSetting('gptApiKey', 'sk-test')] on an initialized backend, then
    [getSetting('gptApiKey')]. *)
Lemma truthy_setting_reads_back_example :
  LocalBackend.db initialized = Some LocalBackend.emptyDatabase
  /\ truthy (JString (str "sk-test")) = true
  /\ LocalBackend.getSetting (str "gptApiKey")
       (LocalBackend.setSetting (str "gptApiKey") (JString (str "sk-test"))
          initialized).2
     = Returned (JString (str "sk-test"))
  /\ LocalBackend.getSetting (str "gptApiKey") initialized = Returned JNull.
Proof.
  destruct (truthy_setting_reads_back initialized LocalBackend.emptyDatabase
              (str "gptApiKey") (JString (str "sk-test")) eq_refl eq_refl)
    as [Hread Hunset].
  split; [reflexivity|]. split; [reflexivity|]. split; [exact Hread|].
  apply Hunset. apply lookup_empty.
Defined.

(** C1.  The round trip of a setting fails for a falsy value:
    [setSetting('cloudEnabled', false)] on an open store, which is what
    the settings panel saves for a disabled switch, then
    [getSetting('cloudEnabled')]: the value read is [null], not the
    [false] that was written, because [getSetting] returns
    [setting?.value || null]. *)
Theorem false_setting_reads_back_null :
  LocalBackend.getSetting (str "cloudEnabled")
    (LocalBackend.setSetting (str "cloudEnabled") (JBool false)
       initialized).2
  = Returned JNull
  /\ LocalBackend.getSetting (str "cloudEnabled")
       (LocalBackend.setSetting (str "cloudEnabled") (JBool false)
          initialized).2
     <> Returned (JBool false).
Proof.
  rewrite (getSetting_after_setSetting initialized
             LocalBackend.emptyDatabase _ _ eq_refl).
  split; [reflexivity | discriminate].
Qed.

(** The greeting [hi there] on a configured client. *)
Lemma local_rules_never_reach_the_cloud_witness :
  matchesLocalRule (asciiToLowerCase (str "hi there")) = true
  /\ exists r,
       @processLocalQuery asciiHost initialized (str "hi there") = Returned r
       /\ needsCloudFallback r = false
       /\ requests
            (attempted
               (@processMessage asciiHost offline initialized configured
                  noon [] (str "hi there")))
          = [].
Proof.
  split; [reflexivity|].
  destruct (@local_rules_never_reach_the_cloud asciiHost offline initialized
              configured noon [] (str "hi there") eq_refl)
    as (r & Hq & Hr & _ & _ & _ & Hsent).
  exists r. split; [exact Hq|]. split; [exact Hr | exact Hsent].
Defined.

(** The query [explain this] contains [explain], and [this] contains
    [hi]: rule 4 answers with the greeting, which does not end with the
    hint, although the cloud client is disabled. *)
Lemma explain_this_gets_no_hint :
  let query := str "explain this" in
  let o := @processMessage asciiHost offline initialized CloudFallback.fresh
             noon [] query in
  includes (asciiToLowerCase query) (str "explain") = true
  /\ CloudFallback.isEnabled CloudFallback.fresh = false
  /\ answerText o = greeting
  /\ endsWith (answerText o) hintSentence = false
  /\ endsWith (answerText o) enablementHint = false.
Proof. vm_compute. repeat split; reflexivity. Qed.

Lemma complex_query_gets_the_hint_witness :
  let query := str "explain quantum tunnelling" in
  let o := @processMessage asciiHost offline initialized CloudFallback.fresh
             noon [] query in
  matchesLocalRule (asciiToLowerCase query) = false
  /\ looksComplex query (asciiToLowerCase query) = true
  /\ endsWith (answerText o) hintSentence = true.
Proof.
  cbv zeta. split; [reflexivity|]. split; [reflexivity|].
  exact (proj1 (proj2
           (@complex_query_gets_the_hint asciiHost offline initialized
              CloudFallback.fresh noon [] (str "explain quantum tunnelling")
              eq_refl eq_refl eq_refl))).
Defined.

(** [setSetting] on a backend that was never initialized returns; it
    throws nothing. *)
Lemma uninitialized_setSetting_is_silent :
  (LocalBackend.setSetting (str "cloudEnabled") (JBool true)
     LocalBackend.fresh).1
  = Returned tt
  /\ (forall e,
        (LocalBackend.setSetting (str "cloudEnabled") (JBool true)
           LocalBackend.fresh).1
        <> Thrown e)
  /\ (forall conversation e,
        (LocalBackend.saveConversation conversation LocalBackend.fresh).1
        <> Thrown e).
Proof.
  split; [reflexivity|]. split; intros; discriminate.
Qed.

Lemma uninitialized_access_witness :
  LocalBackend.db LocalBackend.fresh = None
  /\ LocalBackend.saveDataset (str "sales.csv") (JArray [])
       (Some (str "[]")) 1700000000000 1700000000000 LocalBackend.fresh
     = (Thrown (Error LocalBackend.notInitialized), LocalBackend.fresh)
  /\ LocalBackend.getDatasets LocalBackend.fresh = Returned [].
Proof.
  destruct (uninitialized_access LocalBackend.fresh eq_refl)
    as (Hsave & _ & _ & Hget & _).
  split; [reflexivity|]. split; [apply Hsave | exact Hget].
Defined.

(** Two qualifying tokens, one entry. *)
Lemma repeated_word_is_one_entry :
  let text := str "hello hello" in
  length (@LocalBackend.keywordWords asciiHost text) = 2%nat
  /\ (2 < 10)%nat
  /\ LocalBackend.keywords (@LocalBackend.extractKeywords asciiHost text)
     = [(str "hello", LocalBackend.Counted 2)]
  /\ length
       (LocalBackend.keywords (@LocalBackend.extractKeywords asciiHost text))
     <> 2%nat.
Proof.
  cbv zeta. split; [reflexivity|]. split; [lia|].
  split; [reflexivity|]. vm_compute. discriminate.
Qed.

Lemma extractKeywords_counts_distinct_words_witness :
  let text := str "Hello world, hello!" in
  LocalBackend.ownNamesOnly (@LocalBackend.keywordWords asciiHost text) = true
  /\ length (remove_dups (@LocalBackend.keywordWords asciiHost text)) = 2%nat
  /\ length
       (LocalBackend.keywords (@LocalBackend.extractKeywords asciiHost text))
     = 2%nat.
Proof.
  cbv zeta. split; [reflexivity|].
  assert (length
            (remove_dups
               (@LocalBackend.keywordWords asciiHost
                  (str "Hello world, hello!"))) = 2%nat) as Hn.
  { vm_compute. reflexivity. }
  split; [exact Hn|].
  refine (proj1 (@extractKeywords_counts_distinct_words asciiHost
                   (str "Hello world, hello!") 2 eq_refl Hn _)).
  lia.
Defined.

(** One positive and one negative word. *)
Lemma sentiment_confidence_and_ties_witness :
  let r := @LocalBackend.basicSentimentAnalysis asciiHost (str "good bad") in
  LocalBackend.positive r = LocalBackend.negative r
  /\ LocalBackend.sentiment r = LocalBackend.neutral_label.
Proof.
  cbv zeta. split; [reflexivity|].
  exact (proj1 (proj2 (@sentiment_confidence_and_ties asciiHost
                         (str "good bad")) eq_refl)).
Defined.

(** A configured client without a route to the endpoint: [fetch]
    rejects, [chatWithGPT] throws, and the answer is the local text with
    the hint. *)
Lemma cloud_failures_are_downgraded_witness :
  let query := str "tell me a joke" in
  let r := {| response := processedLocally; needsCloudFallback := true |} in
  @processLocalQuery asciiHost initialized query = Returned r
  /\ (@CloudFallback.chatWithGPT offline configured query (historyOf [])).1
     = Thrown TypeError
  /\ answerText
       (@processMessage asciiHost offline initialized configured noon []
          query)
     = processedLocally ++ enablementHint.
Proof.
  cbv zeta. split; [reflexivity|]. split; [reflexivity|].
  refine (proj1 (proj2
            (proj2 (@cloud_failures_are_downgraded asciiHost offline
                      initialized configured noon [] (str "tell me a joke")
                      [] CloudFallback.noOptions
                      {| response := processedLocally;
                         needsCloudFallback := true |}
                      TypeError
                      (@CloudFallback.chatWithGPT offline configured
                         (str "tell me a joke") (historyOf [])).2)
               eq_refl eq_refl eq_refl eq_refl))).
Defined.

Lemma parseCSV_rows_and_cells_witness :
  let headers := [str "a"; str "b"] in
  let values := [str "1"; str "x"] in
  NoDup headers
  /\ getOwn (str "b") (DataUpload.forEachHeader 0 headers values [])
     = Some (DataUpload.StringCell (str "x")).
Proof.
  cbv zeta.
  assert (NoDup [str "a"; str "b"]) as Hnodup.
  { apply NoDup_cons. split.
    - intros H. apply list_elem_of_singleton in H. discriminate.
    - apply NoDup_singleton. }
  split; [exact Hnodup|].
  refine (proj2 (proj2 parseCSV_rows_and_cells)
            [str "a"; str "b"] [str "1"; str "x"] 1%nat (str "b")
            Hnodup _ eq_refl).
  intros H. apply elem_of_cons in H as [H|H]; [discriminate|].
  apply list_elem_of_singleton in H. discriminate.
Defined.

(** The completion of a loading message and the failure of another. *)
Lemma update_by_identifier_witness :
  let first := Completed (str "2") (str "done") cloud in
  let second := Failed (str "4") in
  let prev :=
    [ {| id := str "2"; role := assistant; content := [];
         timestamp := 1; processingType := local; isLoading := Some true |};
      {| id := str "4"; role := assistant; content := [];
         timestamp := 3; processingType := local; isLoading := Some true |} ] in
  target first <> target second
  /\ applyUpdate first (applyUpdate second prev)
     = applyUpdate second (applyUpdate first prev).
Proof.
  cbv zeta.
  assert (target (Completed (str "2") (str "done") cloud)
          <> target (Failed (str "4"))) as Hne by discriminate.
  split; [exact Hne|].
  exact (proj2 (proj2 (proj2
           (update_by_identifier (Completed (str "2") (str "done") cloud)
              (Failed (str "4")) _))) Hne).
Defined.

End Instances.

(** * Further properties of the sources *)

(** ** The persistent store: writes and reads *)

Section StoreWrites.

Import LocalBackend.

Lemma saveDataset_thrown_keeps_state name data json now created b e b' :
  saveDataset name data json now created b = (Thrown e, b') -> b' = b.
Proof.
  unfold saveDataset.
  destruct (db b) as [d|]; [|intros [= _ <-]; reflexivity].
  destruct json as [text|]; [|intros [= _ <-]; reflexivity].
  destruct (datasets d !! numberToString now);
    [intros [= _ <-]; reflexivity | discriminate].
Qed.

Lemma saveDataset_stores (b : State) (d : Database)
    (name : jsstring) (data : JSValue) (json : jsstring) (now created : N) :
  db b = Some d ->
  datasets d !! numberToString now = None ->
  saveDataset name data (Some json) now created b
  = (Returned (numberToString now),
     {| db :=
          Some {| datasets :=
                    <[numberToString now :=
                        {| dataset_id := numberToString now;
                           dataset_name := name; dataset_data := data;
                           dataset_created := created;
                           dataset_size := length json |}]> (datasets d);
                  conversations := conversations d;
                  settings := settings d |};
        pyodide := pyodide b;
        isInitialized := isInitialized b |}).
Proof.
  intros Hd Hfresh. unfold saveDataset. rewrite Hd, Hfresh. reflexivity.
Qed.

Lemma getDatasets_lists (b : State) (d : Database) (key : jsstring)
    (dataset : Dataset) :
  db b = Some d -> datasets d !! key = Some dataset ->
  exists listed, getDatasets b = Returned listed /\ dataset ∈ listed.
Proof.
  intros Hd Hkey. unfold getDatasets. rewrite Hd.
  eexists. split; [reflexivity|].
  apply list_elem_of_fmap. exists (key, dataset). split; [reflexivity|].
  apply elem_of_map_to_list, Hkey.
Qed.

(** X1.  On an open database that has no dataset under the identifier
    [String(now)], [saveDataset] returns that identifier; [getDatasets]
    then lists the new record, with the name, the data and the length of
    its JSON text, and lists one record more than before; the
    conversations and the settings are as before. *)
Theorem saveDataset_then_getDatasets (b : State) (d : Database)
    (name : jsstring) (data : JSValue) (json : jsstring) (now created : N) :
  db b = Some d ->
  datasets d !! numberToString now = None ->
  exists b' d' listed before,
    saveDataset name data (Some json) now created b
    = (Returned (numberToString now), b')
    /\ db b' = Some d'
    /\ getDatasets b' = Returned listed
    /\ getDatasets b = Returned before
    /\ {| dataset_id := numberToString now; dataset_name := name;
          dataset_data := data; dataset_created := created;
          dataset_size := length json |} ∈ listed
    /\ length listed = S (length before)
    /\ conversations d' = conversations d
    /\ settings d' = settings d.
Proof.
  intros Hd Hfresh.
  rewrite (saveDataset_stores b d name data json now created Hd Hfresh).
  unfold getDatasets. rewrite Hd.
  eexists _, _, _, _. split; [reflexivity|]. cbn [db].
  split; [reflexivity|]. split; [reflexivity|]. split; [reflexivity|].
  cbn [datasets conversations settings]. split; [|split; [|split; reflexivity]].
  - apply list_elem_of_fmap. eexists (_, _). split; [reflexivity|].
    apply elem_of_map_to_list. apply lookup_insert_eq.
  - rewrite !length_fmap.
    rewrite (Permutation_length (map_to_list_insert _ _ _ Hfresh)).
    reflexivity.
Qed.

(** X2.  Two saves that read the same millisecond from the clock: the
    second one is rejected with the constraint error of [add], and the
    store keeps the first dataset and nothing of the second. *)
Theorem saveDataset_same_millisecond (b : State) (d : Database)
    (name name' : jsstring) (data data' : JSValue) (json json' : jsstring)
    (now created created' : N) :
  db b = Some d ->
  datasets d !! numberToString now = None ->
  let first := saveDataset name data (Some json) now created b in
  first.1 = Returned (numberToString now)
  /\ saveDataset name' data' (Some json') now created' first.2
     = (Thrown ConstraintError, first.2).
Proof.
  intros Hd Hfresh. cbv zeta. unfold saveDataset.
  rewrite Hd, Hfresh. cbn [fst snd db datasets].
  split; [reflexivity|]. rewrite lookup_insert_eq. reflexivity.
Qed.

(** X3.  [saveConversation] replaces: after two saves under one
    identifier the store is what the second save alone gives;
    [getConversations] lists the second conversation, and as many
    conversations as after the first save. *)
Theorem saveConversation_replaces (b : State) (d : Database)
    (c1 c2 : Conversation) :
  db b = Some d ->
  conversation_id c1 = conversation_id c2 ->
  (saveConversation c2 (saveConversation c1 b).2).2
  = (saveConversation c2 b).2
  /\ exists listed listed1,
       getConversations (saveConversation c2 (saveConversation c1 b).2).2
       = Returned listed
       /\ getConversations (saveConversation c1 b).2 = Returned listed1
       /\ c2 ∈ listed
       /\ length listed = length listed1.
Proof.
  intros Hd Hid. unfold saveConversation, getConversations. rewrite Hd.
  cbn [fst snd db datasets conversations settings].
  split; [rewrite Hid, insert_insert_eq; reflexivity|].
  eexists _, _. split; [reflexivity|]. split; [reflexivity|]. split.
  - apply list_elem_of_fmap. eexists (_, _). split; [reflexivity|].
    apply elem_of_map_to_list. apply lookup_insert_eq.
  - rewrite !length_fmap, !length_map_to_list.
    apply map_size_insert_Some. rewrite Hid, lookup_insert_eq. eauto.
Qed.

(** X4.  A write of one setting leaves every other setting as it reads,
    on an open database or not; and of two writes of one key the later
    one is what reads back. *)
Theorem setSetting_other_keys_and_last_write (b : State)
    (k k' : jsstring) (v v1 v2 : JSValue) :
  (k <> k' -> getSetting k' (setSetting k v b).2 = getSetting k' b)
  /\ getSetting k (setSetting k v2 (setSetting k v1 b).2).2
     = getSetting k (setSetting k v2 b).2.
Proof.
  unfold setSetting, getSetting.
  destruct (db b) as [d|] eqn:Hd;
    repeat (progress (cbn [fst snd db settings]; rewrite ?Hd)).
  - split.
    + intros Hne. rewrite lookup_insert_ne by exact Hne. reflexivity.
    + rewrite !lookup_insert_eq. reflexivity.
  - split; reflexivity.
Qed.

(** X5.  [initialize()] runs once, and only a rejection of [openDB]
    makes it fail.  On a backend whose database is open whenever it is
    marked initialized: the call returns exactly when the backend is
    marked initialized afterwards, and the database is then open, so
    that [saveDataset] no longer throws the not-initialized error; a
    rejection is the one of [openDB] on a backend that was not
    initialized, leaves the backend as it was, [initializeApp] turns it
    into the warning toast, and a later call tries again and opens the
    database it is given; once a call has returned, a later call changes
    nothing and returns, also when its [openDB] would reject.  Between
    the two stretches of a call the database is assigned but the backend
    is not yet marked, so a call starting there opens the database
    again. *)
Theorem initialize_runs_once (opened opened' : Completion Database)
    (py py' : bool) (b : State) :
  (isInitialized b = true -> is_Some (db b)) ->
  let first := initialize opened py b in
  (first.1 = Returned tt <-> isInitialized first.2 = true)
  /\ (first.1 = Returned tt ->
      is_Some (db first.2)
      /\ initialize opened' py' first.2 = (Returned tt, first.2)
      /\ (Index.initializeApp opened py b).1 = Index.AppReady
      /\ forall name data json now created,
           (saveDataset name data json now created first.2).1
           <> Thrown (Error notInitialized))
  /\ (forall e, first.1 = Thrown e ->
        opened = Thrown e /\ isInitialized b = false /\ first.2 = b
        /\ Index.initializeApp opened py b = (Index.InitializationWarning, b)
        /\ forall d,
             initialize (Returned d) py' first.2
             = (Returned tt,
                {| db := Some d;
                   pyodide := if py' then true else pyodide b;
                   isInitialized := true |}))
  /\ (forall d d',
        isInitialized b = false ->
        isInitialized (openStores (Returned d) b).2 = false
        /\ db (initialize (Returned d') py' (openStores (Returned d) b).2).2
           = Some d').
Proof.
  intros Hopen first.
  assert (first.1 = Returned tt -> is_Some (db first.2)) as Hdb.
  { subst first. unfold initialize, openStores.
    destruct (isInitialized b) eqn:Hb; [intros _; exact (Hopen eq_refl)|].
    destruct opened as [d|e]; cbn [fst snd]; [|discriminate].
    intros _. eexists. reflexivity. }
  split; [|split; [|split]].
  - subst first. unfold initialize, openStores.
    destruct (isInitialized b) eqn:Hb; cbn [fst snd].
    + rewrite Hb. split; reflexivity.
    + destruct opened as [d|e]; cbn [fst snd loadInterpreter isInitialized].
      * split; reflexivity.
      * rewrite Hb. split; discriminate.
  - intros Hreturned. split; [exact (Hdb Hreturned)|].
    split; [|split].
    + assert (isInitialized first.2 = true) as Hflag.
      { subst first. revert Hreturned. unfold initialize, openStores.
        destruct (isInitialized b) eqn:Hb; cbn [fst snd];
          [intros _; exact Hb|].
        destruct opened as [d|e]; cbn [fst snd]; [reflexivity|discriminate]. }
      unfold initialize at 1. rewrite Hflag. reflexivity.
    + unfold Index.initializeApp. fold first.
      destruct first as [[u|e] b']; cbn [fst] in Hreturned;
        [reflexivity | discriminate].
    + intros name data json now created.
      destruct (Hdb Hreturned) as [d Hd].
      unfold saveDataset. rewrite Hd.
      destruct json as [text|]; [|discriminate].
      destruct (datasets d !! numberToString now); discriminate.
  - intros e. subst first. unfold Index.initializeApp, initialize, openStores.
    destruct (isInitialized b) eqn:Hb; cbn [fst snd]; [discriminate|].
    destruct opened as [d|e']; cbn [fst snd]; [discriminate|].
    intros [= ->]. rewrite Hb.
    repeat (split; [reflexivity|]). intros d. reflexivity.
  - intros d d' Hb. unfold initialize, openStores. cbn [snd isInitialized].
    rewrite Hb. split; reflexivity.
Qed.

End StoreWrites.

(** ** Summarization *)

Lemma splitRuns_go_pieces (P : N -> Prop) (isSep : N -> bool)
    (s cur : jsstring) (inRun : bool) :
  (forall c, c ∈ s -> isSep c = false -> P c) ->
  Forall P cur ->
  Forall (Forall P) (splitRuns_go isSep cur inRun s).
Proof.
  revert cur inRun.
  induction s as [|c s IH]; intros cur inRun Hs Hcur; cbn [splitRuns_go].
  - constructor; [|constructor]. apply Forall_rev. exact Hcur.
  - assert (forall c', c' ∈ s -> isSep c' = false -> P c') as Hs'.
    { intros c' Hc'. apply Hs. apply list_elem_of_further, Hc'. }
    destruct (isSep c) eqn:Hc.
    + destruct inRun.
      * apply IH; [exact Hs' | constructor].
      * constructor; [apply Forall_rev; exact Hcur|].
        apply IH; [exact Hs' | constructor].
    + apply IH; [exact Hs'|]. constructor; [|exact Hcur].
      apply Hs; [apply list_elem_of_here | exact Hc].
Qed.

Lemma splitRuns_pieces (P : N -> Prop) (isSep : N -> bool) (s : jsstring) :
  (forall c, c ∈ s -> isSep c = false -> P c) ->
  Forall (Forall P) (splitRuns isSep s).
Proof. intros Hs. apply splitRuns_go_pieces; [exact Hs | constructor]. Qed.

Lemma trimStart_spaces (s : jsstring) :
  Forall (fun c => isSpace c = true) s -> trimStart s = [].
Proof.
  induction 1 as [|c s Hc _ IH]; cbn [trimStart]; [reflexivity|].
  rewrite Hc. exact IH.
Qed.

Lemma trim_spaces (s : jsstring) :
  Forall (fun c => isSpace c = true) s -> trim s = [].
Proof.
  intros Hs. unfold trim, trimEnd. rewrite (trimStart_spaces s Hs).
  reflexivity.
Qed.

Lemma filter_none {A} (p : A -> bool) (l : list A) :
  Forall (fun x => p x = false) l -> List.filter p l = [].
Proof.
  induction 1 as [|x l Hx _ IH]; cbn [List.filter]; [reflexivity|].
  rewrite Hx. exact IH.
Qed.

Lemma summarySize_bounds (n : nat) :
  (LocalBackend.summarySize n <= 3)%nat
  /\ (LocalBackend.summarySize n <= n)%nat
  /\ (1 <= n -> 1 <= LocalBackend.summarySize n)%nat
  /\ (7 <= n -> LocalBackend.summarySize n = 3)%nat.
Proof.
  unfold LocalBackend.summarySize.
  assert ((3 * n + 9) / 10 < S n)%nat as Hle.
  { apply Nat.Div0.div_lt_upper_bound. lia. }
  assert (1 <= n -> 1 <= (3 * n + 9) / 10)%nat as Hpos.
  { intros Hn. apply Nat.div_le_lower_bound; lia. }
  assert (7 <= n -> 3 <= (3 * n + 9) / 10)%nat as Hcap.
  { intros Hn. apply Nat.div_le_lower_bound; lia. }
  repeat split; lia.
Qed.

Section Summaries.

Import LocalBackend.

(** X6.  [basicSummarization] keeps [min(3, ceil(0.3 n))] of the [n]
    sentences it finds: never more than three, never more than there
    are, at least one when there is a sentence, and exactly three from
    seven sentences on. *)
Theorem summary_keeps_at_most_three (text : jsstring) :
  let r := basicSummarization text in
  summaryLength r = Nat.min 3 ((3 * originalLength r + 9) / 10)
  /\ (summaryLength r <= 3)%nat
  /\ (summaryLength r <= originalLength r)%nat
  /\ (1 <= originalLength r -> 1 <= summaryLength r)%nat
  /\ (7 <= originalLength r -> summaryLength r = 3)%nat.
Proof.
  cbv zeta. unfold basicSummarization, summarySentences.
  cbn [summaryLength originalLength].
  rewrite length_take.
  destruct (summarySize_bounds (length (sentencesOf text)))
    as (H3 & Hn & H1 & H7).
  fold (summarySize (length (sentencesOf text))).
  repeat split; lia.
Qed.

(** X7.  A text without a sentence, that is a text of white space and of
    the marks [.], [!] and [?] only (the empty text is one), is
    summarized by a lone full stop, with both lengths 0. *)
Theorem summary_of_no_sentence (text : jsstring) :
  Forall (fun c => isSpace c || isSentenceEnd c = true) text ->
  basicSummarization text
  = {| summary := str "."; originalLength := 0; summaryLength := 0 |}.
Proof.
  intros Hblank.
  assert (sentencesOf text = []) as Hnone.
  { unfold sentencesOf. apply filter_none.
    eapply Forall_impl;
      [apply (splitRuns_pieces (fun c => isSpace c = true))|].
    - intros c Hc Hsep. rewrite Forall_forall in Hblank.
      specialize (Hblank c Hc). rewrite Hsep, orb_false_r in Hblank.
      exact Hblank.
    - intros piece Hpiece. cbv beta. rewrite (trim_spaces piece Hpiece).
      reflexivity. }
  unfold basicSummarization, summarySentences. rewrite Hnone. reflexivity.
Qed.

(** X8.  The sentences of a summary are the first sentences of the text,
    in their order; each one has a code unit that is not white space,
    contains none of the marks [.], [!] and [?], and is made of code
    units of the text; and the summary ends with a full stop. *)
Theorem summary_sentences_are_leading_sentences (text : jsstring) :
  (exists rest, sentencesOf text = summarySentences text ++ rest)
  /\ Forall (fun sentence =>
               trim sentence <> []
               /\ Forall (fun c => isSentenceEnd c = false /\ c ∈ text)
                    sentence)
       (summarySentences text)
  /\ endsWith (summary (basicSummarization text)) (str ".") = true.
Proof.
  split; [|split].
  - exists (drop (summarySize (length (sentencesOf text))) (sentencesOf text)).
    unfold summarySentences. symmetry. apply take_drop.
  - unfold summarySentences. apply Forall_take. unfold sentencesOf.
    apply Forall_forall. intros sentence Hin.
    apply list_elem_of_In, filter_In in Hin as [Hin Hkeep].
    split.
    + intros Hnil. rewrite Hnil in Hkeep. discriminate.
    + pose proof (splitRuns_pieces
                    (fun c => isSentenceEnd c = false /\ c ∈ text)
                    isSentenceEnd text) as Hpieces.
      rewrite Forall_forall in Hpieces.
      apply Hpieces; [auto|]. apply list_elem_of_In, Hin.
  - unfold basicSummarization. cbn [summary]. apply endsWith_app.
Qed.

End Summaries.

(** ** Data processing without the interpreter *)

Lemma objectKeys_orElse (v : JSValue) :
  is_Some (objectKeys (orElse v (JObject []))).
Proof.
  unfold orElse.
  destruct v as [| |[]|[|neg|neg m e]|[|c s]|items|props]; cbn;
    try (destruct (m =? 0)); cbn; eauto.
Qed.

Lemma objectKeys_nullish (v : JSValue) :
  objectKeys v = None <-> v = JNull \/ v = JUndefined.
Proof.
  destruct v; cbn; split; intros H; try discriminate; auto;
    destruct H as [H|H]; discriminate.
Qed.

Lemma forallb_false_elem {A} (p : A -> bool) (l : list A) :
  forallb p l = false -> exists x, x ∈ l /\ p x = false.
Proof.
  induction l as [|x l IH]; cbn [forallb]; [discriminate|].
  destruct (p x) eqn:Hx; cbn [andb].
  - intros H. destruct (IH H) as (y & Hy & Hpy).
    exists y. split; [apply list_elem_of_further, Hy | exact Hpy].
  - intros _. exists x. split; [apply list_elem_of_here | exact Hx].
Qed.

Section DataProcessing.

Import LocalBackend.

(** X9.  When the interpreter is not loaded, or when its run throws, the
    operation [summary] does not fail: it gives the number of rows, the
    keys of the first row as columns (none when there is no row or the
    first row is falsy), and the first five rows at most as the sample.
    Data that is not an array counts as one row. *)
Theorem summary_without_interpreter (interpreter : option JSValue)
    (data : JSValue) (b : State) :
  pyodide b = false \/ interpreter = None ->
  exists columns,
    processDataLocally interpreter data (str "summary") b
    = Returned (DataSummary (length (asRows data), length columns) columns
                  (take 5 (asRows data)))
    /\ objectKeys (orElse (default JUndefined (asRows data !! 0%nat))
                     (JObject []))
       = Some columns
    /\ length (take 5 (asRows data)) = Nat.min 5 (length (asRows data))
    /\ ((forall items, data <> JArray items) -> length (asRows data) = 1%nat)
    /\ (asRows data = [] -> columns = []).
Proof.
  intros Hfallback.
  destruct (objectKeys_orElse (default JUndefined (asRows data !! 0%nat)))
    as [columns Hcolumns].
  exists columns.
  assert (fallbackDataProcessing data (str "summary")
          = Returned (DataSummary (length (asRows data), length columns)
                        columns (take 5 (asRows data)))) as Hsummary.
  { unfold fallbackDataProcessing. rewrite streq_refl, Hcolumns.
    reflexivity. }
  split.
  - unfold processDataLocally.
    destruct Hfallback as [Hpy| ->]; [rewrite Hpy; exact Hsummary|].
    destruct (pyodide b); exact Hsummary.
  - split; [exact Hcolumns|]. split; [apply length_take|]. split.
    + intros Hdata. destruct data; try reflexivity.
      exfalso. eapply Hdata. reflexivity.
    + intros Hempty. rewrite Hempty in Hcolumns. cbn in Hcolumns.
      congruence.
Qed.

(** X10.  The operation [stats] of the fallback throws a [TypeError]
    exactly when a row is [null] or [undefined] (so it throws for the
    data [null], which [summary] accepts as one row without columns);
    otherwise it gives the fixed message and no statistics. *)
Theorem stats_fallback_rejects_null_rows (data : JSValue) :
  (fallbackDataProcessing data (str "stats") = Thrown TypeError
   <-> exists row, row ∈ asRows data /\ (row = JNull \/ row = JUndefined))
  /\ (fallbackDataProcessing data (str "stats") <> Thrown TypeError ->
      fallbackDataProcessing data (str "stats")
      = Returned (DataStats statsMessage))
  /\ fallbackDataProcessing JNull (str "stats") = Thrown TypeError
  /\ fallbackDataProcessing JNull (str "summary")
     = Returned (DataSummary (1%nat, 0%nat) [] [JNull]).
Proof.
  assert (fallbackDataProcessing data (str "stats")
          = if forallb (fun row => bool_decide (is_Some (objectKeys row)))
                 (asRows data)
            then Returned (DataStats statsMessage) else Thrown TypeError)
    as Hstats by reflexivity.
  split; [|split; [|split; reflexivity]].
  - rewrite Hstats.
    destruct (forallb _ (asRows data)) eqn:Hall.
    + split; [discriminate|]. intros (row & Hin & Hnull).
      rewrite forallb_forall in Hall.
      specialize (Hall row (proj1 (list_elem_of_In _ _) Hin)).
      apply bool_decide_eq_true in Hall as [keys Hkeys].
      apply objectKeys_nullish in Hnull. congruence.
    + split; [intros _|reflexivity].
      apply forallb_false_elem in Hall as (row & Hin & Hrow).
      exists row. split; [exact Hin|].
      apply objectKeys_nullish.
      apply bool_decide_eq_false in Hrow.
      destruct (objectKeys row) as [keys|]; [|reflexivity].
      exfalso. apply Hrow. eauto.
  - rewrite Hstats. destruct (forallb _ (asRows data)); congruence.
Qed.

End DataProcessing.

(** ** The cloud client: what is sent *)

Section CloudRequests.

Context `{network : CloudFallback.Network}.

Import CloudFallback.

Lemma processWithGPT_sent (c : State) (messages : list GPTMessage)
    (options : Options) :
  (processWithGPT c messages options).2
  = if isEnabled c && hasApiKey c
    then [buildRequest (default [] (apiKey c)) messages options]
    else [].
Proof.
  unfold processWithGPT, hasApiKey.
  destruct (isEnabled c); cbn [negb andb]; [|reflexivity].
  destruct (apiKey c) as [[|k key]|]; cbn [default]; try reflexivity.
  destruct (fetch _) as [|[] status statusText [|[[|[content|] rest]|]]];
    reflexivity.
Qed.

Lemma buildRequest_settings (key : jsstring) (messages : list GPTMessage)
    (options : Options) :
  ~ (request_temperature (buildRequest key messages options) == 0)%Q
  /\ (1 <= request_max_tokens (buildRequest key messages options))%nat.
Proof.
  unfold buildRequest. cbn [request_temperature request_max_tokens]. split.
  - destruct (temperature options) as [t|]; [|discriminate].
    destruct (Qeq_bool t 0) eqn:Ht; [discriminate|].
    intros Hzero. apply Qeq_bool_iff in Hzero. congruence.
  - destruct (maxTokens options) as [[|n]|];
      [apply Nat.leb_le; reflexivity | lia | apply Nat.leb_le; reflexivity].
Qed.

(** X11.  [processWithGPT] sends nothing when the client is disabled or
    has no credential, and exactly one request when it is enabled and
    has one, whatever the endpoint answers.  A request that is sent
    carries the credential of the client as bearer token, the messages
    it was given, a temperature that is not 0 and a positive token limit
    (an option of 0 is replaced by the default). *)
Theorem processWithGPT_sends_at_most_one_request (c : State)
    (messages : list GPTMessage) (options : Options) :
  (isEnabled c = false \/ hasApiKey c = false ->
   (processWithGPT c messages options).2 = [])
  /\ (isEnabled c = true -> hasApiKey c = true ->
      exists r, (processWithGPT c messages options).2 = [r])
  /\ (forall r, r ∈ (processWithGPT c messages options).2 ->
        (processWithGPT c messages options).2 = [r]
        /\ isEnabled c = true
        /\ (exists key, apiKey c = Some key /\ key <> []
                        /\ request_authorization r = str "Bearer " ++ key)
        /\ request_messages r = messages
        /\ ~ (request_temperature r == 0)%Q
        /\ (1 <= request_max_tokens r)%nat).
Proof.
  rewrite processWithGPT_sent. split; [|split].
  - intros [Hoff|Hkey]; [rewrite Hoff | rewrite Hkey, andb_false_r];
      reflexivity.
  - intros Hon Hkey. rewrite Hon, Hkey. cbn [andb].
    eexists. reflexivity.
  - intros r Hr.
    destruct (isEnabled c) eqn:Hon; cbn [andb] in Hr |- *;
      [|apply elem_of_nil in Hr; destruct Hr].
    destruct (hasApiKey c) eqn:Hkey; [|apply elem_of_nil in Hr; destruct Hr].
    apply list_elem_of_singleton in Hr. subst r.
    split; [reflexivity|]. split; [reflexivity|].
    unfold hasApiKey in Hkey.
    destruct (apiKey c) as [[|k key]|]; try discriminate. cbn [default].
    split; [exists (k :: key); repeat split; discriminate|].
    split; [reflexivity|]. apply buildRequest_settings.
Qed.

(** X12.  The request of [chatWithGPT] holds the system prompt first,
    the user message last and, between them, the last five messages of
    the history in their order (the whole history when it is shorter):
    [min(5, n) + 2] messages, never more than seven. *)
Theorem chatWithGPT_caps_the_history (c : State) (userMessage : jsstring)
    (history : list GPTMessage) :
  forall r, r ∈ (chatWithGPT c userMessage history).2 ->
    request_messages r
    = {| gpt_role := system; gpt_content := chatSystemPrompt |}
      :: sliceLast 5 history
      ++ [ {| gpt_role := user; gpt_content := userMessage |} ]
    /\ (exists older, history = older ++ sliceLast 5 history)
    /\ length (sliceLast 5 history) = Nat.min 5 (length history)
    /\ length (request_messages r) = (Nat.min 5 (length history) + 2)%nat
    /\ (length (request_messages r) <= 7)%nat.
Proof.
  intros r Hr. unfold chatWithGPT in Hr.
  rewrite processWithGPT_sent in Hr.
  destruct (isEnabled c && hasApiKey c);
    [|apply elem_of_nil in Hr; destruct Hr].
  apply list_elem_of_singleton in Hr. subst r.
  unfold buildRequest. cbn [request_messages].
  assert (length (sliceLast 5 history) = Nat.min 5 (length history)) as Hlen.
  { unfold sliceLast. rewrite length_drop. lia. }
  split; [reflexivity|]. split.
  - exists (take (length history - 5) history). unfold sliceLast.
    symmetry. apply take_drop.
  - split; [exact Hlen|].
    assert (length
              ([ {| gpt_role := system; gpt_content := chatSystemPrompt |} ]
               ++ sliceLast 5 history
               ++ [ {| gpt_role := user; gpt_content := userMessage |} ])
            = (Nat.min 5 (length history) + 2)%nat) as Htotal.
    { rewrite !length_app, Hlen. cbn [length]. lia. }
    rewrite Htotal. split; [reflexivity | lia].
Qed.

(** X13.  [analyzeDataWithGPT] sends at most the first 8000 code units of
    the JSON text of the data, between the fixed labels and before the
    question; and when [JSON.stringify] gives [undefined] it throws
    before anything is sent. *)
Theorem analyzeDataWithGPT_truncates_the_data (c : State)
    (json : option jsstring) (question : jsstring) :
  (json = None ->
   analyzeDataWithGPT c json question = (Thrown TypeError, []))
  /\ (forall text r,
        json = Some text ->
        r ∈ (analyzeDataWithGPT c json question).2 ->
        exists content,
          request_messages r
          = [ {| gpt_role := system; gpt_content := analystPrompt |};
              {| gpt_role := user; gpt_content := content |} ]
          /\ content
             = str "Data: " ++ take 8000 text ++ [10; 10]
               ++ str "Question: " ++ question
          /\ (length (take 8000 text) <= 8000)%nat
          /\ length content
             = (18 + length (take 8000 text) + length question)%nat).
Proof.
  split; [intros ->; reflexivity|].
  intros text r -> Hr. unfold analyzeDataWithGPT in Hr.
  rewrite processWithGPT_sent in Hr.
  destruct (isEnabled c && hasApiKey c);
    [|apply elem_of_nil in Hr; destruct Hr].
  apply list_elem_of_singleton in Hr. subst r.
  unfold buildRequest. cbn [request_messages].
  eexists. split; [reflexivity|]. split; [reflexivity|].
  split; [rewrite length_take; lia|].
  rewrite !length_app. cbn [length str list_ascii_of_string map].
  lia.
Qed.

End CloudRequests.

(** ** The router: labels, the message list, submission *)

Lemma str_inj (s t : string) : str s = str t -> s = t.
Proof.
  unfold str. intros H.
  apply (f_equal (map ascii_of_N)) in H.
  rewrite !map_map in H.
  rewrite !(map_ext _ (fun a => a) ascii_N_embedding), !map_id in H.
  rewrite <- (string_of_list_ascii_of_string s),
          <- (string_of_list_ascii_of_string t), H.
  reflexivity.
Qed.

Lemma numberToString_inj (n m : N) :
  numberToString n = numberToString m -> n = m.
Proof.
  unfold numberToString. intros H. apply str_inj in H.
  apply DecimalN.Unsigned.to_uint_inj.
  pose proof (NilEmpty.usu (N.to_uint n)) as Hn.
  pose proof (NilEmpty.usu (N.to_uint m)) as Hm.
  rewrite H in Hn. congruence.
Qed.

Section Conversation.

Context `{host : Host} `{network : CloudFallback.Network}.

(** The outcome of the attempt, by cases. *)
Lemma attempt_cases backend cloudFallback messages query :
  let a := attempt backend cloudFallback messages query in
  (matchesLocalRule (toLowerCase query) = true
   /\ exists r, processLocalQuery backend query = Returned r
                /\ a = {| result := Returned (response r, local);
                          cloudCalls := 0; requests := [] |})
  \/ (matchesLocalRule (toLowerCase query) = false
      /\ exists r, processLocalQuery backend query = Returned r
         /\ needsCloudFallback r = true
         /\ ((CloudFallback.isEnabled cloudFallback
              && CloudFallback.hasApiKey cloudFallback = false
              /\ a = {| result :=
                          Returned (response r ++ enablementHint, local);
                        cloudCalls := 0; requests := [] |})
             \/ (CloudFallback.isEnabled cloudFallback
                 && CloudFallback.hasApiKey cloudFallback = true
                 /\ cloudCalls a = 1%nat
                 /\ requests a
                    = (CloudFallback.chatWithGPT cloudFallback query
                         (historyOf messages)).2
                 /\ ((exists text,
                        (CloudFallback.chatWithGPT cloudFallback query
                           (historyOf messages)).1 = Returned text
                        /\ result a = Returned (text, cloud))
                     \/ (exists e,
                           (CloudFallback.chatWithGPT cloudFallback query
                              (historyOf messages)).1 = Thrown e
                           /\ result a
                              = Returned (response r ++ enablementHint,
                                          local)))))).
Proof.
  cbv zeta.
  destruct (matchesLocalRule (toLowerCase query)) eqn:Hrule.
  - left. split; [reflexivity|].
    destruct (processLocalQuery_local backend query Hrule) as (r & Hq & Hr).
    exists r. split; [exact Hq|]. apply attempt_final; assumption.
  - right. split; [reflexivity|].
    pose proof (processLocalQuery_fallback backend query Hrule) as Hq.
    eexists. split; [exact Hq|]. split; [reflexivity|].
    destruct (CloudFallback.isEnabled cloudFallback
              && CloudFallback.hasApiKey cloudFallback) eqn:Hcloud.
    + right. split; [reflexivity|].
      unfold attempt. rewrite Hq. cbn [needsCloudFallback].
      cbn [CloudFallback.getStatus CloudFallback.status_isEnabled
             CloudFallback.status_hasApiKey].
      rewrite Hcloud.
      destruct (CloudFallback.chatWithGPT cloudFallback query
                  (historyOf messages)) as [[text|e] sent];
        cbn [cloudCalls requests result fst snd];
        (split; [reflexivity|]); (split; [reflexivity|]);
        [left | right]; eexists; split; reflexivity.
    + left. split; [reflexivity|].
      apply attempt_unavailable; [exact Hq | reflexivity | exact Hcloud].
Qed.

(** X14.  An answer is labelled [cloud] only when it is the text that the
    cloud client returned: the query falls under none of the rules 1 to
    5, the client is enabled and has a credential, it was called once,
    and a request was sent. *)
Theorem cloud_label_means_cloud_text
    (backend : LocalBackend.State) (cloudFallback : CloudFallback.State)
    (clock : Clock) (messages : list Message) (query text : jsstring) :
  let o := processMessage backend cloudFallback clock messages query in
  result (attempted o) = Returned (text, cloud) ->
  matchesLocalRule (toLowerCase query) = false
  /\ CloudFallback.isEnabled cloudFallback = true
  /\ CloudFallback.hasApiKey cloudFallback = true
  /\ (CloudFallback.chatWithGPT cloudFallback query (historyOf messages)).1
     = Returned text
  /\ cloudCalls (attempted o) = 1%nat
  /\ length (requests (attempted o)) = 1%nat.
Proof.
  cbv zeta. rewrite processMessage_attempted. intros Hcloud.
  destruct (attempt_cases backend cloudFallback messages query)
    as [(_ & r & _ & Ha)
       |(Hrule & r & _ & _ & [(_ & Ha)|(Hon & Hcalls & Hsent & Hres)])].
  - rewrite Ha in Hcloud. discriminate.
  - rewrite Ha in Hcloud. discriminate.
  - apply andb_true_iff in Hon as [Hon Hkey].
    split; [exact Hrule|]. split; [exact Hon|]. split; [exact Hkey|].
    destruct Hres as [(text' & Htext & Hr)|(e & _ & Hr)];
      rewrite Hr in Hcloud; [|discriminate].
    injection Hcloud as ->.
    split; [exact Htext|]. split; [exact Hcalls|].
    rewrite Hsent. unfold CloudFallback.chatWithGPT.
    rewrite processWithGPT_sent, Hon, Hkey. reflexivity.
Qed.

(** X15.  When the query needs the cloud, the client is enabled with a
    credential and the endpoint answers with a success whose first
    choice has a message, the answer is the content of that message,
    labelled [cloud], without the hint, after one request. *)
Theorem cloud_answer_is_returned
    (backend : LocalBackend.State) (cloudFallback : CloudFallback.State)
    (clock : Clock) (messages : list Message) (query key : jsstring)
    (status : nat) (statusText content : jsstring)
    (others : list CloudFallback.Choice) :
  matchesLocalRule (toLowerCase query) = false ->
  CloudFallback.isEnabled cloudFallback = true ->
  CloudFallback.apiKey cloudFallback = Some key -> key <> [] ->
  CloudFallback.fetch
    (CloudFallback.buildRequest key
       (chatMessages query (historyOf messages)) CloudFallback.noOptions)
  = CloudFallback.Response true status statusText
      (CloudFallback.Json (Some (CloudFallback.WithMessage content :: others)))
  ->
  let o := processMessage backend cloudFallback clock messages query in
  answerText o = content
  /\ answerKind o = cloud
  /\ requests (attempted o)
     = [CloudFallback.buildRequest key
          (chatMessages query (historyOf messages)) CloudFallback.noOptions]
  /\ toasted o = false.
Proof.
  intros Hrule Hon Hkey Hne Hfetch. cbv zeta.
  pose proof (processLocalQuery_fallback backend query Hrule) as Hq.
  assert (CloudFallback.chatWithGPT cloudFallback query (historyOf messages)
          = (Returned content,
             [CloudFallback.buildRequest key
                (chatMessages query (historyOf messages))
                CloudFallback.noOptions])) as Hchat.
  { unfold CloudFallback.chatWithGPT, CloudFallback.processWithGPT.
    rewrite Hon, Hkey. destruct key as [|k key]; [congruence|].
    cbn [negb]. unfold chatMessages in Hfetch. rewrite Hfetch.
    reflexivity. }
  assert (attempt backend cloudFallback messages query
          = {| result := Returned (content, cloud); cloudCalls := 1;
               requests :=
                 [CloudFallback.buildRequest key
                    (chatMessages query (historyOf messages))
                    CloudFallback.noOptions] |}) as Ha.
  { unfold attempt. rewrite Hq. cbn [needsCloudFallback].
    cbn [CloudFallback.getStatus CloudFallback.status_isEnabled
           CloudFallback.status_hasApiKey].
    unfold CloudFallback.hasApiKey. rewrite Hon, Hkey.
    destruct key as [|k key]; [congruence|]. cbn [andb].
    rewrite Hchat. reflexivity. }
  unfold answerText, answerKind. rewrite processMessage_attempted, Ha.
  cbn [result requests]. split; [reflexivity|]. split; [reflexivity|].
  split; [reflexivity|]. unfold processMessage. rewrite Ha. reflexivity.
Qed.

(** X16.  Without a credential, or with the client disabled, no query
    makes [processMessage] call the cloud client or send a request, and
    every answer is labelled [local]; [setApiKey('')], which is what
    clearing the key does, and [setEnabled(false)] put the client in
    that state. *)
Theorem no_credential_no_request
    (backend : LocalBackend.State) (cloudFallback : CloudFallback.State)
    (clock : Clock) (messages : list Message) (query : jsstring) :
  (CloudFallback.hasApiKey cloudFallback = false
   \/ CloudFallback.isEnabled cloudFallback = false ->
   let o := processMessage backend cloudFallback clock messages query in
   cloudCalls (attempted o) = 0%nat
   /\ requests (attempted o) = []
   /\ answerKind o = local)
  /\ CloudFallback.hasApiKey (CloudFallback.setApiKey [] cloudFallback)
     = false
  /\ CloudFallback.isEnabled (CloudFallback.setEnabled false cloudFallback)
     = false.
Proof.
  split; [|split; reflexivity].
  intros Hoff. cbv zeta. unfold answerKind.
  rewrite processMessage_attempted.
  destruct (attempt_cases backend cloudFallback messages query)
    as [(_ & r & _ & Ha)
       |(_ & r & _ & _ & [(_ & Ha)|(Hon & _)])].
  - rewrite Ha. repeat split; reflexivity.
  - rewrite Ha. repeat split; reflexivity.
  - apply andb_true_iff in Hon as [Hon Hkey].
    destruct Hoff; congruence.
Qed.

End Conversation.

Section MessageList.

Context `{host : Host} `{network : CloudFallback.Network}.

Variables (backend : LocalBackend.State)
  (cloudFallback : CloudFallback.State) (clock : Clock)
  (messages : list Message) (query : jsstring).

Let o := processMessage backend cloudFallback clock messages query.
Let loadingId := numberToString (loadingNow clock + 1).

Lemma shown_lookup (i : nat) (msg : Message) :
  (messages
   ++ [ {| id := numberToString (userNow clock); role := user;
           content := query; timestamp := userDate clock;
           processingType := local; isLoading := None |};
        {| id := loadingId; role := assistant; content := [];
           timestamp := loadingDate clock; processingType := local;
           isLoading := Some true |} ]) !! i = Some msg ->
  shown o !! i
  = Some (if streq (id msg) loadingId
          then {| id := id msg; role := role msg; content := answerText o;
                  timestamp := timestamp msg;
                  processingType := answerKind o;
                  isLoading := Some false |}
          else msg).
Proof using Type.
  intros Hi. unfold o, answerText, answerKind, processMessage.
  destruct (result (attempt backend cloudFallback messages query))
    as [[text kind]|e] eqn:Hresult;
    cbn [shown attempted]; rewrite Hresult; unfold applyUpdate;
    rewrite list_lookup_fmap; fold loadingId; rewrite Hi;
    cbn [fmap option_fmap option_map target id];
    destruct (streq (id msg) loadingId); reflexivity.
Qed.

(** X17.  The update that ends [processMessage] goes by identifier over
    the whole list: an earlier message that carries the identifier of
    the loading message (identifiers come from the clock) gets the new
    answer as its content, and every earlier message with another
    identifier stays as it is. *)
Theorem earlier_message_with_the_loading_id_is_overwritten
    (i : nat) (msg : Message) :
  messages !! i = Some msg ->
  (id msg = loadingId ->
   shown o !! i
   = Some {| id := id msg; role := role msg; content := answerText o;
             timestamp := timestamp msg; processingType := answerKind o;
             isLoading := Some false |})
  /\ (id msg <> loadingId -> shown o !! i = Some msg).
Proof using Type.
  intros Hi.
  pose proof (shown_lookup i msg (lookup_app_l_Some _ _ _ _ Hi)) as Hshown.
  split; intros Hid; rewrite Hshown.
  - apply streq_true in Hid. rewrite Hid. reflexivity.
  - apply streq_false in Hid. rewrite Hid. reflexivity.
Qed.

(** X18.  When no earlier message carries the identifier of the loading
    message and the two readings of the clock do not make the user
    message collide with it, [processMessage] leaves the earlier
    messages as they are and appends two: the user message as typed,
    then the assistant message with the answer, its processing type and
    [isLoading = false]. *)
Theorem exchange_is_appended :
  Forall (fun msg => id msg <> loadingId) messages ->
  userNow clock <> loadingNow clock + 1 ->
  shown o
  = messages
    ++ [ {| id := numberToString (userNow clock); role := user;
            content := query; timestamp := userDate clock;
            processingType := local; isLoading := None |};
         {| id := loadingId; role := assistant; content := answerText o;
            timestamp := loadingDate clock; processingType := answerKind o;
            isLoading := Some false |} ].
Proof using Type.
  intros Hfresh Hclock.
  assert (streq (numberToString (userNow clock)) loadingId = false) as Huser.
  { apply streq_false. intros Heq. apply Hclock.
    apply numberToString_inj, Heq. }
  apply list_eq. intros i.
  destruct ((messages
             ++ [ {| id := numberToString (userNow clock); role := user;
                     content := query; timestamp := userDate clock;
                     processingType := local; isLoading := None |};
                  {| id := loadingId; role := assistant; content := [];
                     timestamp := loadingDate clock;
                     processingType := local;
                     isLoading := Some true |} ]) !! i)
    as [msg|] eqn:Hi.
  - rewrite (shown_lookup i msg Hi).
    apply lookup_app_Some in Hi as [Hi|[Hlen Hi]].
    + rewrite (lookup_app_l_Some _ _ _ _ Hi).
      rewrite Forall_forall in Hfresh.
      assert (id msg <> loadingId) as Hne.
      { apply Hfresh. eapply list_elem_of_lookup_2, Hi. }
      apply streq_false in Hne. rewrite Hne. reflexivity.
    + rewrite lookup_app_r by exact Hlen.
      destruct (i - length messages)%nat as [|[|j]] eqn:Hj;
        cbn in Hi |- *; [| |discriminate].
      * injection Hi as <-. cbn [id]. rewrite Huser. reflexivity.
      * injection Hi as <-. cbn [id]. rewrite streq_refl. reflexivity.
  - apply lookup_ge_None in Hi. rewrite length_app in Hi. cbn in Hi.
    rewrite (proj2 (lookup_ge_None _ _)).
    + symmetry. apply lookup_ge_None. rewrite length_app. cbn. lia.
    + unfold o, processMessage.
      destruct (result (attempt backend cloudFallback messages query))
        as [[text kind]|e]; cbn [shown]; unfold applyUpdate;
        rewrite length_map, length_app; cbn; lia.
Qed.

End MessageList.

(** *** Submission *)

Lemma trimStart_decompose (s : jsstring) :
  exists spaces, s = spaces ++ trimStart s.
Proof.
  induction s as [|c s [spaces IH]]; cbn [trimStart].
  - exists []. reflexivity.
  - destruct (isSpace c).
    + exists (c :: spaces). cbn. rewrite <- IH. reflexivity.
    + exists []. reflexivity.
Qed.

Lemma trimStart_head (s rest : jsstring) (c : N) :
  trimStart s = c :: rest -> isSpace c = false.
Proof.
  induction s as [|c' s IH]; cbn [trimStart]; [discriminate|].
  destruct (isSpace c') eqn:Hc'; [exact IH|].
  intros [= <- _]. exact Hc'.
Qed.

Lemma trim_first (s rest : jsstring) (c : N) :
  trim s = c :: rest -> isSpace c = false.
Proof.
  unfold trim, trimEnd. intros Htrim.
  destruct (trimStart_decompose (rev (trimStart s))) as [spaces Hrev].
  apply (f_equal (@rev N)) in Hrev.
  rewrite rev_involutive, rev_app_distr, Htrim in Hrev.
  cbn in Hrev. apply (trimStart_head s _ c Hrev).
Qed.

Lemma trim_last (s front : jsstring) (c : N) :
  trim s = front ++ [c] -> isSpace c = false.
Proof.
  unfold trim, trimEnd. intros Htrim.
  apply (f_equal (@rev N)) in Htrim.
  rewrite rev_involutive, rev_app_distr in Htrim. cbn in Htrim.
  apply (trimStart_head _ _ c Htrim).
Qed.

(** X19.  [handleSubmit] hands nothing to [processMessage] while a
    message is being processed or when the input is white space only;
    what it hands over otherwise is the trimmed input, which is not
    empty and neither starts nor ends with white space. *)
Theorem handleSubmit_hands_over_trimmed_text (input : jsstring)
    (busy : bool) :
  handleSubmit input true = None
  /\ (Forall (fun c => isSpace c = true) input ->
      handleSubmit input busy = None)
  /\ (forall message,
        handleSubmit input busy = Some message ->
        busy = false
        /\ message = trim input
        /\ message <> []
        /\ (forall c rest, message = c :: rest -> isSpace c = false)
        /\ (forall front c, message = front ++ [c] -> isSpace c = false)).
Proof.
  unfold handleSubmit. split; [rewrite orb_true_r; reflexivity|]. split.
  - intros Hblank. rewrite (trim_spaces input Hblank). reflexivity.
  - intros message.
    destruct (trim input) as [|c0 rest0] eqn:Htrim; [discriminate|].
    destruct busy; cbn [orb]; [discriminate|].
    intros [= <-]. split; [reflexivity|]. split; [reflexivity|].
    split; [discriminate|]. rewrite <- Htrim. split.
    + intros c rest. apply trim_first.
    + intros front c. apply trim_last.
Qed.

(** ** CSV import: rows, ragged lines, repeated headers, coercion *)

Lemma splitChar_go_length (sep : N) (s cur : jsstring) :
  length (splitChar_go sep cur s)
  = S (length (List.filter (fun c => c =? sep) s)).
Proof.
  revert cur. induction s as [|c s IH]; intros cur;
    cbn [splitChar_go List.filter]; [reflexivity|].
  destruct (c =? sep); cbn [length]; rewrite IH; reflexivity.
Qed.



(** *** Rounding a decimal to a Number *)

Section Rounding.

Local Open Scope Z_scope.








(** The rounding at work: an integer past [2^53], an overflow, an
    underflow, and a fraction that a double holds exactly. *)
Lemma parseFloat_rounds_to_a_double :
  parseFloat (str "9007199254740993") = Dec false 9007199254740992 0
  /\ parseFloat (str "1e999") = Inf false
  /\ parseFloat (str "1e-400") = Dec false 0 0
  /\ parseFloat (str "-0.5kg") = Dec true 5 (-1).
Proof.
  split; [vm_compute; reflexivity|].
  split; [vm_compute; reflexivity|].
  split; vm_compute; reflexivity.
Qed.

End Rounding.

Section CsvRows.

Import DataUpload.

Lemma parseCSV_lines (text : jsstring) :
  exists first others,
    splitChar 10 (trim text) = first :: others
    /\ parseCSV text
       = map (fun line => forEachHeader 0 (fields first) (fields line) [])
           others.
Proof.
  unfold parseCSV.
  pose proof (splitChar_go_length 10 (trim text) []) as Hlen.
  fold (splitChar 10 (trim text)) in Hlen.
  destruct (splitChar 10 (trim text)) as [|first others];
    [discriminate|].
  exists first, others. split; reflexivity.
Qed.

(** X20.  [parseCSV] gives one row for each line feed of the trimmed
    text: every line after the first is a row, an empty line too, and a
    text of one line, or the empty text, gives no row. *)
Theorem parseCSV_one_row_per_line_feed (text : jsstring) :
  length (parseCSV text)
  = length (List.filter (fun c => c =? 10) (trim text))
  /\ (Forall (fun c => c <> 10) (trim text) -> parseCSV text = []).
Proof.
  destruct (parseCSV_lines text) as (first & others & Hlines & Hrows).
  pose proof (splitChar_go_length 10 (trim text) []) as Hlen.
  fold (splitChar 10 (trim text)) in Hlen. rewrite Hlines in Hlen.
  cbn [length] in Hlen.
  assert (length (parseCSV text)
          = length (List.filter (fun c => c =? 10) (trim text))) as Hcount.
  { rewrite Hrows, length_map. congruence. }
  split; [exact Hcount|].
  intros Hnone. apply length_zero_iff_nil. rewrite Hcount.
  rewrite filter_none; [reflexivity|].
  eapply Forall_impl; [exact Hnone|].
  intros c Hc. apply N.eqb_neq, Hc.
Qed.

Lemma forEachHeader_keys (headers values : list jsstring) (index : nat)
    (row : Row) :
  NoDup (row.*1 ++ headers) -> str "__proto__" ∉ headers ->
  (forEachHeader index headers values row).*1 = row.*1 ++ headers.
Proof.
  revert index row.
  induction headers as [|header rest IH]; intros index row Hnodup Hproto;
    cbn [forEachHeader].
  - rewrite app_nil_r. reflexivity.
  - apply not_elem_of_cons in Hproto as [Hne Hproto].
    apply NoDup_app in Hnodup as (Hrow & Hdisjoint & Hheaders).
    apply NoDup_cons in Hheaders as [Hfresh Hrest].
    assert (header ∉ row.*1) as Hnew.
    { intros Hin. apply (Hdisjoint header Hin). apply list_elem_of_here. }
    assert ((assign header
               (coerce (default [] (values !! index))) row).*1
            = row.*1 ++ [header]) as Hkeys.
    { unfold assign.
      assert (streq header (str "__proto__") = false) as ->
        by (apply streq_false; congruence).
      apply setProperty_keys_new, Hnew. }
    rewrite IH; [rewrite Hkeys, <- app_assoc; reflexivity| |exact Hproto].
    rewrite Hkeys, <- app_assoc. cbn [app].
    apply NoDup_app. split; [exact Hrow|]. split.
    + exact Hdisjoint.
    + apply NoDup_cons. split; assumption.
Qed.

Lemma sort_map {A B} (f : A -> B) (cmp : B -> B -> Z) (l : list A) :
  map f (sort (fun a b => cmp (f a) (f b)) l) = sort cmp (map f l).
Proof.
  induction l as [|x l IH]; [reflexivity|]. cbn [sort map].
  rewrite <- IH. clear IH.
  induction (sort (fun a b => cmp (f a) (f b)) l) as [|y sorted IH];
    [reflexivity|].
  cbn [sortInsert map]. destruct (cmp (f x) (f y) <=? 0)%Z; [reflexivity|].
  cbn [map]. rewrite IH. reflexivity.
Qed.

Lemma filter_map {A B} (f : A -> B) (p : B -> bool) (l : list A) :
  map f (List.filter (fun x => p (f x)) l) = List.filter p (map f l).
Proof.
  induction l as [|x l IH]; [reflexivity|]. cbn [List.filter map].
  destruct (p (f x)); cbn [map]; rewrite IH; reflexivity.
Qed.

Lemma entries_keys {V} (props : list (jsstring * V)) :
  map fst (entries props) = enumerationOrder (map fst props).
Proof.
  unfold entries, enumerationOrder. rewrite map_app.
  rewrite <- (filter_map fst isArrayIndex props).
  rewrite <- (filter_map fst (fun k => negb (isArrayIndex k)) props).
  rewrite <- (sort_map fst
                (fun a b => (Z.of_N (digitsValue a) - Z.of_N (digitsValue b))%Z)).
  reflexivity.
Qed.

Lemma enumerationOrder_Permutation (keys : list jsstring) :
  enumerationOrder keys ≡ₚ keys.
Proof.
  unfold enumerationOrder. rewrite sort_Permutation.
  induction keys as [|k keys IH]; [reflexivity|]. cbn [List.filter].
  destruct (isArrayIndex k); cbn [negb app].
  - rewrite IH. reflexivity.
  - rewrite <- Permutation_middle, IH. reflexivity.
Qed.

Lemma enumerationOrder_without_indices (keys : list jsstring) :
  forallb (fun k => negb (isArrayIndex k)) keys = true ->
  enumerationOrder keys = keys.
Proof.
  intros Hplain. unfold enumerationOrder.
  induction keys as [|k keys IH]; [reflexivity|].
  cbn [forallb] in Hplain. apply andb_prop in Hplain as [Hk Hrest].
  cbn [List.filter]. rewrite Hk.
  destruct (isArrayIndex k); [discriminate|].
  specialize (IH Hrest).
  destruct (List.filter isArrayIndex keys) as [|i indices].
  - cbn [sort app] in IH |- *. rewrite IH. reflexivity.
  - exfalso.
    assert (length (sort
                      (fun a b =>
                         (Z.of_N (digitsValue a) - Z.of_N (digitsValue b))%Z)
                      (i :: indices)
                    ++ List.filter (fun k => negb (isArrayIndex k)) keys)
            = length keys) as Hlen by (rewrite IH; reflexivity).
    rewrite length_app, (Permutation_length (sort_Permutation _ _)) in Hlen.
    cbn [length] in Hlen.
    pose proof (List.filter_length_le
                  (fun k => negb (isArrayIndex k)) keys) as Hle.
    assert (length (List.filter (fun k => negb (isArrayIndex k)) keys)
            = length keys) as Hall.
    { clear -Hrest. induction keys as [|k keys IH]; [reflexivity|].
      cbn [forallb] in Hrest. apply andb_prop in Hrest as [Hk Hrest].
      cbn [List.filter]. rewrite Hk. cbn [length]. rewrite IH; auto. }
    lia.
Qed.

Lemma rowValue_keys (row : Row) :
  objectKeys (rowValue row) = Some (enumerationOrder row.*1).
Proof.
  unfold rowValue, objectKeys. rewrite entries_keys. f_equal. f_equal.
  induction row as [|[k cell] row IH]; [reflexivity|].
  cbn [map fst]. csimpl. rewrite IH. reflexivity.
Qed.

(** X21.  Under distinct headers, none of them [__proto__], every row of
    [parseCSV] has exactly the headers as its keys, whatever the number
    of values on its line: [Object.keys] of a row lists the headers that
    are array indices first, in ascending order, then the other headers
    in the order of the header line.  It is a permutation of the
    headers, and the header line itself when no header is an array
    index. *)
Theorem parseCSV_rows_have_the_headers (text : jsstring) :
  NoDup (headersOf text) -> str "__proto__" ∉ headersOf text ->
  Forall (fun row =>
            objectKeys (rowValue row)
            = Some (enumerationOrder (headersOf text))
            /\ enumerationOrder (headersOf text) ≡ₚ headersOf text
            /\ (forallb (fun header => negb (isArrayIndex header))
                  (headersOf text) = true ->
                objectKeys (rowValue row) = Some (headersOf text)))
         (parseCSV text).
Proof.
  intros Hnodup Hproto.
  destruct (parseCSV_lines text) as (first & others & Hlines & Hrows).
  unfold headersOf in *. rewrite Hlines in *. cbn [hd] in *.
  rewrite Hrows. apply Forall_forall. intros row Hrow.
  apply list_elem_of_fmap in Hrow as (line & -> & _).
  assert (objectKeys (rowValue (forEachHeader 0 (fields first)
                                  (fields line) []))
          = Some (enumerationOrder (fields first))) as Hkeys.
  { rewrite rowValue_keys.
    rewrite (forEachHeader_keys (fields first) (fields line) 0 [])
      by assumption.
    reflexivity. }
  split; [exact Hkeys|].
  split; [apply enumerationOrder_Permutation|].
  intros Hplain. rewrite Hkeys.
  rewrite enumerationOrder_without_indices by exact Hplain. reflexivity.
Qed.

Lemma forEachHeader_extra_values (headers values extra : list jsstring)
    (index : nat) (row : Row) :
  (index + length headers <= length values)%nat ->
  forEachHeader index headers (values ++ extra) row
  = forEachHeader index headers values row.
Proof.
  revert index row.
  induction headers as [|header rest IH]; intros index row Hlen;
    cbn [forEachHeader]; [reflexivity|].
  cbn [length] in Hlen.
  rewrite lookup_app_l by lia. apply IH. lia.
Qed.

(** X22.  Under distinct headers, none of them [__proto__], a line with
    fewer values than headers gives the empty string for each header
    without a value.  Under any headers, the values beyond the last
    header are dropped: the row is the one of the line cut to the number
    of headers. *)
Theorem ragged_lines (headers values extra : list jsstring) (j : nat)
    (h : jsstring) :
  (NoDup headers -> str "__proto__" ∉ headers ->
   headers !! j = Some h -> (length values <= j)%nat ->
   getOwn h (forEachHeader 0 headers values []) = Some (StringCell []))
  /\ ((length headers <= length values)%nat ->
      forEachHeader 0 headers (values ++ extra) []
      = forEachHeader 0 headers values []).
Proof.
  split.
  - intros Hnodup Hproto Hj Hshort.
    rewrite (forEachHeader_cell headers values 0 j [] h Hnodup Hproto Hj).
    cbn [Nat.add]. rewrite (proj2 (lookup_ge_None values j) Hshort).
    reflexivity.
  - intros Hlen. apply forEachHeader_extra_values. cbn [Nat.add]. exact Hlen.
Qed.

Lemma forEachHeader_app (before after values : list jsstring) (index : nat)
    (row : Row) :
  forEachHeader index (before ++ after) values row
  = forEachHeader (index + length before) after values
      (forEachHeader index before values row).
Proof.
  revert index row.
  induction before as [|header rest IH]; intros index row;
    cbn [app forEachHeader length].
  - rewrite Nat.add_0_r. reflexivity.
  - rewrite IH. replace (S index + length rest)%nat
      with (index + S (length rest))%nat by lia. reflexivity.
Qed.

(** X23.  When a header other than [__proto__] occurs more than once,
    its cell comes from the last column that carries it: the values of
    the earlier columns of that name are lost. *)
Theorem repeated_header_keeps_the_last_column
    (before after values : list jsstring) (h : jsstring) :
  h ∉ after -> h <> str "__proto__" ->
  getOwn h (forEachHeader 0 (before ++ h :: after) values [])
  = Some (coerce (default [] (values !! length before))).
Proof.
  intros Hlast Hne.
  rewrite forEachHeader_app. cbn [forEachHeader Nat.add].
  rewrite (forEachHeader_other after values _ _ h Hlast).
  apply getOwn_assign_same, Hne.
Qed.





End CsvRows.

(** ** Upload *)

Section Upload.

Import DataUpload.

(** X25.  An upload that fails leaves the store as it was: nothing is
    written for a file whose name ends neither with [.json] nor with
    [.csv] (the test is on the exact suffix, so [.CSV] is refused), for
    a text that [JSON.parse] rejects, for a database that is not open,
    or for an identifier already taken. *)
Theorem failed_upload_writes_nothing
    (parse : jsstring -> Completion JSValue)
    (stringify : JSValue -> option jsstring) (file : File)
    (now created : N) (backend : LocalBackend.State) :
  (forall e backend',
      handleFileUpload parse stringify (Some file) now created backend
      = (Some (UploadFailed e), backend') ->
      backend' = backend)
  /\ (endsWith (file_name file) (str ".json") = false ->
      endsWith (file_name file) (str ".csv") = false ->
      handleFileUpload parse stringify (Some file) now created backend
      = (Some (UploadFailed (Error unsupportedType)), backend))
  /\ (LocalBackend.db backend = None ->
      forall data, readFile parse file = Returned data ->
      handleFileUpload parse stringify (Some file) now created backend
      = (Some (UploadFailed (Error LocalBackend.notInitialized)), backend)).
Proof.
  unfold handleFileUpload. split; [|split].
  - intros e backend'.
    destruct (readFile parse file) as [data|e0]; [|intros [= _ <-]; reflexivity].
    destruct (LocalBackend.saveDataset _ _ _ _ _ _) as [[id|e1] b1] eqn:Hsave;
      [discriminate|].
    intros [= _ <-].
    apply (saveDataset_thrown_keeps_state _ _ _ _ _ _ _ _ Hsave).
  - intros Hjson Hcsv. unfold readFile. rewrite Hjson, Hcsv. reflexivity.
  - intros Hdb data Hdata. rewrite Hdata.
    unfold LocalBackend.saveDataset. rewrite Hdb. reflexivity.
Qed.

(** X26.  The upload of a file whose name ends with [.csv] (and not with
    [.json]) into an open database, under an identifier that is free:
    the toast reports the upload, and [getDatasets] then lists a dataset
    with the name of the file whose data are the rows of [parseCSV] on
    its text. *)
Theorem csv_upload_is_stored
    (parse : jsstring -> Completion JSValue)
    (stringify : JSValue -> option jsstring) (file : File)
    (now created : N) (backend : LocalBackend.State)
    (d : LocalBackend.Database) (json : jsstring) :
  endsWith (file_name file) (str ".json") = false ->
  endsWith (file_name file) (str ".csv") = true ->
  stringify (rowsValue (parseCSV (file_text file))) = Some json ->
  LocalBackend.db backend = Some d ->
  LocalBackend.datasets d !! numberToString now = None ->
  exists backend' listed,
    handleFileUpload parse stringify (Some file) now created backend
    = (Some (DatasetUploaded (file_name file)), backend')
    /\ LocalBackend.getDatasets backend' = Returned listed
    /\ {| LocalBackend.dataset_id := numberToString now;
          LocalBackend.dataset_name := file_name file;
          LocalBackend.dataset_data :=
            rowsValue (parseCSV (file_text file));
          LocalBackend.dataset_created := created;
          LocalBackend.dataset_size := length json |} ∈ listed.
Proof.
  intros Hjson Hcsv Hstringify Hdb Hfresh.
  pose proof (saveDataset_stores backend d (file_name file)
                (rowsValue (parseCSV (file_text file))) json now created
                Hdb Hfresh) as Hsave.
  destruct (getDatasets_lists
              (LocalBackend.saveDataset (file_name file)
                 (rowsValue (parseCSV (file_text file))) (Some json) now
                 created backend).2
              _ (numberToString now) _
              ltac:(rewrite Hsave; reflexivity)
              (lookup_insert_eq _ _ _))
    as (listed & Hlisted & Hin).
  eexists _, listed.
  split; [|split; [exact Hlisted | exact Hin]].
  unfold handleFileUpload, readFile. rewrite Hjson, Hcsv, Hstringify.
  rewrite Hsave. reflexivity.
Qed.

End Upload.

(** ** The settings panel *)

Section Settings.

Import SettingsPanel.

Lemma setting_keys_differ : gptApiKeyKey <> cloudEnabledKey.
Proof. intros H. vm_compute in H. discriminate. Qed.

Lemma saved_settings_read_back (panel : Panel)
    (backend : LocalBackend.State) (client : CloudFallback.State)
    (d : LocalBackend.Database) :
  LocalBackend.db backend = Some d ->
  exists d',
    LocalBackend.db (saveSettings panel backend client).1.2 = Some d'
    /\ LocalBackend.settings d' !! cloudEnabledKey
       = Some (JBool (cloudEnabled panel))
    /\ LocalBackend.settings d' !! gptApiKeyKey
       = Some (JString (apiKey panel))
    /\ LocalBackend.datasets d' = LocalBackend.datasets d
    /\ LocalBackend.conversations d' = LocalBackend.conversations d.
Proof.
  intros Hd. unfold saveSettings. cbn [fst snd].
  unfold LocalBackend.setSetting. rewrite Hd.
  cbn [fst snd LocalBackend.db LocalBackend.settings].
  eexists. split; [reflexivity|].
  cbn [LocalBackend.settings LocalBackend.datasets
         LocalBackend.conversations].
  split; [|split; [|split; reflexivity]].
  - rewrite lookup_insert_ne by apply setting_keys_differ.
    apply lookup_insert_eq.
  - apply lookup_insert_eq.
Qed.

(** X27.  What [saveSettings] writes into an open database is what
    [loadSettings] restores after a reload, on a new backend that opens
    that database and a new cloud client: the panel shows the saved
    switch and key, the client is enabled as the switch says and has a
    credential exactly when the saved key is not empty.  (A disabled
    switch and an empty key read back as [null] and are restored by
    the defaults of [loadSettings].) *)
Theorem settings_survive_a_reload (panel stale : Panel)
    (backend : LocalBackend.State) (client : CloudFallback.State)
    (d : LocalBackend.Database) (pyodideLoads : bool) :
  LocalBackend.db backend = Some d ->
  exists d' restored,
    saveSettings panel backend client
    = (SettingsSaved, (saveSettings panel backend client).1.2,
       (saveSettings panel backend client).2)
    /\ LocalBackend.db (saveSettings panel backend client).1.2 = Some d'
    /\ loadSettings stale
         (LocalBackend.initialize (Returned d') pyodideLoads
            LocalBackend.fresh).2
         CloudFallback.fresh
       = Some (panel, restored)
    /\ CloudFallback.isEnabled restored = cloudEnabled panel
    /\ CloudFallback.hasApiKey restored
       = match apiKey panel with [] => false | _ => true end
    /\ (apiKey panel <> [] ->
        CloudFallback.apiKey restored = Some (apiKey panel)).
Proof.
  intros Hd.
  destruct (saved_settings_read_back panel backend client d Hd)
    as (d' & Hd' & Henabled & Hkey & _).
  exists d'.
  exists (match apiKey panel with
          | [] =>
              CloudFallback.setEnabled (cloudEnabled panel)
                CloudFallback.fresh
          | _ :: _ =>
              CloudFallback.setApiKey (apiKey panel)
                (CloudFallback.setEnabled (cloudEnabled panel)
                   CloudFallback.fresh)
          end).
  split; [reflexivity|]. split; [exact Hd'|].
  unfold loadSettings, LocalBackend.getSetting, LocalBackend.initialize,
    LocalBackend.openStores, LocalBackend.loadInterpreter.
  cbn [LocalBackend.isInitialized LocalBackend.fresh LocalBackend.db snd].
  rewrite Henabled, Hkey.
  destruct panel as [enabled key]. cbn [cloudEnabled apiKey].
  destruct enabled, key as [|k key];
    cbn; (split; [reflexivity|]); repeat split; congruence.
Qed.

(** X28.  On a backend whose database is not open, [saveSettings] shows
    the toast [Settings saved] although nothing is stored, and
    [loadSettings] gives the defaults: the switch off, the key empty,
    the client disabled. *)
Theorem settings_are_not_kept_without_a_database (panel stale : Panel)
    (backend : LocalBackend.State) (client : CloudFallback.State) :
  LocalBackend.db backend = None ->
  (saveSettings panel backend client).1 = (SettingsSaved, backend)
  /\ loadSettings stale backend client
     = Some (initial, CloudFallback.setEnabled false client).
Proof.
  intros Hd.
  unfold saveSettings, loadSettings, LocalBackend.setSetting,
    LocalBackend.getSetting.
  rewrite Hd. cbn [fst snd]. rewrite Hd. split; reflexivity.
Qed.

(** X29.  Saving with an empty key field does not take the credential
    from the cloud client, which keeps the one it has; [clearApiKey]
    does: the client has no credential afterwards, the key field is
    empty, and the stored key reads back as [null]. *)
Theorem only_clearApiKey_removes_the_credential (panel : Panel)
    (backend : LocalBackend.State) (client : CloudFallback.State) :
  (apiKey panel = [] ->
   CloudFallback.apiKey (saveSettings panel backend client).2
   = CloudFallback.apiKey client
   /\ CloudFallback.hasApiKey (saveSettings panel backend client).2
      = CloudFallback.hasApiKey client)
  /\ (let '(toast, panel', backend', client') :=
        clearApiKey panel backend client in
      toast = ApiKeyCleared
      /\ apiKey panel' = []
      /\ cloudEnabled panel' = cloudEnabled panel
      /\ CloudFallback.hasApiKey client' = false
      /\ CloudFallback.isEnabled client' = CloudFallback.isEnabled client
      /\ LocalBackend.getSetting gptApiKeyKey backend' = Returned JNull).
Proof.
  split.
  - intros Hkey. unfold saveSettings. rewrite Hkey. cbn [snd].
    split; reflexivity.
  - unfold clearApiKey.
    split; [reflexivity|]. split; [reflexivity|]. split; [reflexivity|].
    split; [reflexivity|]. split; [reflexivity|].
    unfold LocalBackend.setSetting, LocalBackend.getSetting.
    destruct (LocalBackend.db backend) as [d|] eqn:Hd;
      cbn [snd LocalBackend.db LocalBackend.settings]; rewrite ?Hd;
      [rewrite lookup_insert_eq|]; reflexivity.
Qed.

Context `{network : CloudFallback.Network}.

(** X30.  [testConnection] sends nothing and leaves the cloud client as
    it is when the key field is empty or the switch is off; otherwise it
    sends one request with the typed key as bearer token, and the client
    stays enabled with that key afterwards, whether the test succeeds or
    fails and although nothing was saved. *)
Theorem testConnection_configures_the_client (panel : Panel)
    (client : CloudFallback.State) :
  (apiKey panel = [] \/ cloudEnabled panel = false ->
   testConnection panel client = (TestRefused, client, []))
  /\ (apiKey panel <> [] -> cloudEnabled panel = true ->
      exists toast request,
        testConnection panel client
        = (toast,
           CloudFallback.setEnabled true
             (CloudFallback.setApiKey (apiKey panel) client),
           [request])
        /\ toast <> TestRefused
        /\ CloudFallback.request_authorization request
           = str "Bearer " ++ apiKey panel
        /\ (toast = ConnectionSuccessful
            <-> exists text,
                  (CloudFallback.chatWithGPT
                     (CloudFallback.setEnabled true
                        (CloudFallback.setApiKey (apiKey panel) client))
                     testMessage []).1 = Returned text)).
Proof.
  unfold testConnection. split.
  - intros [Hkey|Hoff]; [rewrite Hkey | rewrite Hoff, orb_true_r];
      reflexivity.
  - intros Hkey Hon. rewrite Hon.
    destruct (apiKey panel) as [|k key] eqn:Hpanel; [congruence|].
    cbn [negb orb].
    pose proof (processWithGPT_sent
                  (CloudFallback.setEnabled true
                     (CloudFallback.setApiKey (k :: key) client))
                  (chatMessages testMessage []) CloudFallback.noOptions)
      as Hsent.
    change (CloudFallback.processWithGPT _ (chatMessages testMessage [])
              CloudFallback.noOptions)
      with (CloudFallback.chatWithGPT
              (CloudFallback.setEnabled true
                 (CloudFallback.setApiKey (k :: key) client))
              testMessage []) in Hsent.
    unfold CloudFallback.hasApiKey in Hsent.
    cbn [CloudFallback.isEnabled CloudFallback.setEnabled
           CloudFallback.setApiKey CloudFallback.apiKey andb default]
      in Hsent.
    destruct (CloudFallback.chatWithGPT _ testMessage [])
      as [[text|e] sent]; cbn [snd] in Hsent; subst sent;
      eexists _, _; (split; [reflexivity|]); (split; [discriminate|]);
      (split; [reflexivity|]); cbn [fst].
    + split; [eauto | reflexivity].
    + split; [discriminate | intros [text Htext]; discriminate].
Qed.

End Settings.

(** * The further properties at concrete inputs *)

Section FurtherInstances.

Import Examples.

Ltac by_computation := apply (bool_decide_unpack _); vm_compute; exact I.

Lemma saveDataset_then_getDatasets_witness :
  LocalBackend.db initialized = Some LocalBackend.emptyDatabase
  /\ exists b',
       LocalBackend.saveDataset (str "sales.csv") (JArray [])
         (Some (str "[]")) 1700000000000 1700000000000 initialized
       = (Returned (str "1700000000000"), b').
Proof.
  split; [reflexivity|].
  destruct (saveDataset_then_getDatasets initialized
              LocalBackend.emptyDatabase (str "sales.csv") (JArray [])
              (str "[]") 1700000000000 1700000000000 eq_refl
              (lookup_empty _))
    as (b' & _ & _ & _ & Hsave & _).
  exists b'. exact Hsave.
Defined.

Lemma saveDataset_same_millisecond_witness :
  let first :=
    LocalBackend.saveDataset (str "a.csv") (JArray []) (Some (str "[]"))
      1700000000000 1700000000000 initialized in
  LocalBackend.saveDataset (str "b.csv") (JArray []) (Some (str "[]"))
    1700000000000 1700000000005 first.2
  = (Thrown ConstraintError, first.2).
Proof.
  exact (proj2 (saveDataset_same_millisecond initialized
                  LocalBackend.emptyDatabase (str "a.csv") (str "b.csv")
                  (JArray []) (JArray []) (str "[]") (str "[]")
                  1700000000000 1700000000000 1700000000005 eq_refl
                  (lookup_empty _))).
Defined.

Lemma initialize_runs_once_witness :
  let blocked := Error (str "blocked") in
  LocalBackend.initialize (Thrown blocked) true LocalBackend.fresh
  = (Thrown blocked, LocalBackend.fresh)
  /\ Index.initializeApp (Thrown blocked) true LocalBackend.fresh
     = (Index.InitializationWarning, LocalBackend.fresh)
  /\ LocalBackend.initialize (Returned LocalBackend.emptyDatabase) false
       (LocalBackend.initialize (Thrown blocked) true LocalBackend.fresh).2
     = (Returned tt, initialized)
  /\ LocalBackend.initialize (Thrown blocked) true initialized
     = (Returned tt, initialized).
Proof.
  cbv zeta.
  assert (LocalBackend.isInitialized LocalBackend.fresh = true ->
          is_Some (LocalBackend.db LocalBackend.fresh)) as Hfresh
    by discriminate.
  destruct (initialize_runs_once (Thrown (Error (str "blocked")))
              (Thrown (Error (str "blocked"))) true false
              LocalBackend.fresh Hfresh)
    as (_ & _ & Hrejected & _).
  destruct (Hrejected (Error (str "blocked")) eq_refl)
    as (_ & _ & Hsame & Htoast & Hretry).
  split; [reflexivity|]. split; [exact Htoast|].
  split; [exact (Hretry LocalBackend.emptyDatabase)|].
  destruct (initialize_runs_once (Returned LocalBackend.emptyDatabase)
              (Thrown (Error (str "blocked"))) false true
              LocalBackend.fresh Hfresh)
    as (_ & Hreturned & _).
  exact (proj1 (proj2 (Hreturned eq_refl))).
Defined.

Lemma saveConversation_replaces_witness :
  let c1 := {| LocalBackend.conversation_id := str "chat";
               LocalBackend.conversation_messages := [];
               LocalBackend.conversation_created := 1 |} in
  let c2 := {| LocalBackend.conversation_id := str "chat";
               LocalBackend.conversation_messages := [];
               LocalBackend.conversation_created := 2 |} in
  (LocalBackend.saveConversation c2
     (LocalBackend.saveConversation c1 initialized).2).2
  = (LocalBackend.saveConversation c2 initialized).2.
Proof.
  exact (proj1 (saveConversation_replaces initialized
                  LocalBackend.emptyDatabase
                  {| LocalBackend.conversation_id := str "chat";
                     LocalBackend.conversation_messages := [];
                     LocalBackend.conversation_created := 1 |}
                  {| LocalBackend.conversation_id := str "chat";
                     LocalBackend.conversation_messages := [];
                     LocalBackend.conversation_created := 2 |}
                  eq_refl eq_refl)).
Defined.

Lemma setSetting_other_keys_and_last_write_witness :
  str "cloudEnabled" <> str "gptApiKey"
  /\ LocalBackend.getSetting (str "gptApiKey")
       (LocalBackend.setSetting (str "cloudEnabled") (JBool true)
          initialized).2
     = LocalBackend.getSetting (str "gptApiKey") initialized.
Proof.
  assert (str "cloudEnabled" <> str "gptApiKey") as Hne
    by (intros H; vm_compute in H; discriminate).
  split; [exact Hne|].
  exact (proj1 (setSetting_other_keys_and_last_write initialized
                  (str "cloudEnabled") (str "gptApiKey") (JBool true)
                  JNull JNull) Hne).
Defined.

Lemma summary_keeps_at_most_three_witness :
  let text := str "One. Two! Three? Four. Five. Six. Seven." in
  (7 <= LocalBackend.originalLength (LocalBackend.basicSummarization text))%nat
  /\ LocalBackend.summaryLength (LocalBackend.basicSummarization text)
     = 3%nat.
Proof.
  cbv zeta.
  assert (7 <= LocalBackend.originalLength
                 (LocalBackend.basicSummarization
                    (str "One. Two! Three? Four. Five. Six. Seven.")))%nat
    as Hseven by (vm_compute; lia).
  split; [exact Hseven|].
  exact (proj2 (proj2 (proj2 (proj2
           (summary_keeps_at_most_three
              (str "One. Two! Three? Four. Five. Six. Seven."))))) Hseven).
Defined.

Lemma summary_of_no_sentence_witness :
  LocalBackend.summary (LocalBackend.basicSummarization (str " ?! ... "))
  = str ".".
Proof.
  assert (Forall (fun c => isSpace c || isSentenceEnd c = true)
            (str " ?! ... ")) as Hblank by by_computation.
  exact (f_equal LocalBackend.summary
           (summary_of_no_sentence (str " ?! ... ") Hblank)).
Defined.

Lemma summary_without_interpreter_witness :
  LocalBackend.pyodide initialized = false
  /\ exists columns,
       LocalBackend.processDataLocally None
         (JArray [JObject [(str "a", JNumber (Dec false 1 0))]])
         (str "summary") initialized
       = Returned
           (LocalBackend.DataSummary (1%nat, length columns) columns
              [JObject [(str "a", JNumber (Dec false 1 0))]]).
Proof.
  split; [reflexivity|].
  destruct (summary_without_interpreter None
              (JArray [JObject [(str "a", JNumber (Dec false 1 0))]])
              initialized (or_introl eq_refl))
    as (columns & Hsummary & _).
  exists columns. exact Hsummary.
Defined.

Lemma stats_fallback_rejects_null_rows_witness :
  JNull ∈ LocalBackend.asRows (JArray [JNumber (Dec false 1 0); JNull])
  /\ LocalBackend.fallbackDataProcessing
       (JArray [JNumber (Dec false 1 0); JNull]) (str "stats")
     = Thrown TypeError.
Proof.
  assert (JNull ∈ LocalBackend.asRows
                    (JArray [JNumber (Dec false 1 0); JNull])) as Hin.
  { apply list_elem_of_further, list_elem_of_here. }
  split; [exact Hin|].
  apply (proj1 (stats_fallback_rejects_null_rows
                  (JArray [JNumber (Dec false 1 0); JNull]))).
  exists JNull. split; [exact Hin | left; reflexivity].
Defined.

Lemma processWithGPT_sends_at_most_one_request_witness :
  (CloudFallback.hasApiKey
     (CloudFallback.setEnabled true CloudFallback.fresh) = false
   /\ (@CloudFallback.processWithGPT answering
         (CloudFallback.setEnabled true CloudFallback.fresh) []
         CloudFallback.noOptions).2
      = [])
  /\ CloudFallback.isEnabled configured = true
  /\ CloudFallback.hasApiKey configured = true
  /\ exists r,
       (@CloudFallback.processWithGPT unauthorized configured []
          CloudFallback.noOptions).2 = [r]
       /\ CloudFallback.request_authorization r = str "Bearer sk-test".
Proof.
  split; [split; [reflexivity|]|].
  - exact (proj1 (@processWithGPT_sends_at_most_one_request answering
                    (CloudFallback.setEnabled true CloudFallback.fresh) []
                    CloudFallback.noOptions) (or_intror eq_refl)).
  - split; [reflexivity|]. split; [reflexivity|].
    destruct (@processWithGPT_sends_at_most_one_request unauthorized
                configured [] CloudFallback.noOptions)
      as (_ & Hone & Hsent).
    destruct (Hone eq_refl eq_refl) as [r Hr].
    exists r. split; [exact Hr|].
    assert (r ∈ (@CloudFallback.processWithGPT unauthorized configured []
                   CloudFallback.noOptions).2) as Hin
      by (rewrite Hr; apply list_elem_of_here).
    destruct (Hsent r Hin) as (_ & _ & (key & Hkey & _ & Hbearer) & _).
    injection Hkey as <-. exact Hbearer.
Defined.

Lemma chatWithGPT_caps_the_history_witness :
  let turn := {| CloudFallback.gpt_role := user;
                 CloudFallback.gpt_content := str "again" |} in
  let history := [turn; turn; turn; turn; turn; turn; turn; turn] in
  exists r,
    r ∈ (@CloudFallback.chatWithGPT answering configured (str "hi") history).2
    /\ length (CloudFallback.request_messages r) = 7%nat.
Proof.
  cbv zeta.
  eexists. split; [apply list_elem_of_here|].
  refine (proj1 (proj2 (proj2 (proj2
            (@chatWithGPT_caps_the_history answering configured (str "hi")
               _ _ (list_elem_of_here _ _)))))).
Defined.

Lemma analyzeDataWithGPT_truncates_the_data_witness :
  exists r content,
    r ∈ (@CloudFallback.analyzeDataWithGPT answering configured
           (Some (str "[1,2,3]")) (str "What is the sum?")).2
    /\ CloudFallback.request_messages r
       = [ {| CloudFallback.gpt_role := system;
              CloudFallback.gpt_content := CloudFallback.analystPrompt |};
           {| CloudFallback.gpt_role := user;
              CloudFallback.gpt_content := content |} ].
Proof.
  eexists.
  destruct (proj2 (@analyzeDataWithGPT_truncates_the_data answering
                     configured (Some (str "[1,2,3]"))
                     (str "What is the sum?"))
              (str "[1,2,3]") _ eq_refl (list_elem_of_here _ _))
    as (content & Hmessages & _).
  exists content. split; [apply list_elem_of_here | exact Hmessages].
Defined.

Lemma cloud_label_means_cloud_text_witness :
  ChatInterface.result
    (ChatInterface.attempted
       (@processMessage asciiHost answering initialized configured noon []
          (str "tell me a joke")))
  = Returned (str "Hello from the cloud", cloud)
  /\ CloudFallback.isEnabled configured = true.
Proof.
  assert (ChatInterface.result
            (ChatInterface.attempted
               (@processMessage asciiHost answering initialized configured
                  noon [] (str "tell me a joke")))
          = Returned (str "Hello from the cloud", cloud)) as Hcloud
    by reflexivity.
  split; [exact Hcloud|].
  exact (proj1 (proj2 (@cloud_label_means_cloud_text asciiHost answering
                         initialized configured noon []
                         (str "tell me a joke")
                         (str "Hello from the cloud") Hcloud))).
Defined.

Lemma cloud_answer_is_returned_witness :
  answerText
    (@processMessage asciiHost answering initialized configured noon []
       (str "tell me a joke"))
  = str "Hello from the cloud".
Proof.
  refine (proj1 (@cloud_answer_is_returned asciiHost answering initialized
                   configured noon [] (str "tell me a joke") (str "sk-test")
                   200 (str "OK") (str "Hello from the cloud") []
                   eq_refl eq_refl eq_refl _ eq_refl)).
  discriminate.
Defined.

Lemma no_credential_no_request_witness :
  CloudFallback.hasApiKey (CloudFallback.setApiKey [] configured) = false
  /\ requests
       (attempted
          (@processMessage asciiHost answering initialized
             (CloudFallback.setApiKey [] configured) noon []
             (str "tell me a joke")))
     = [].
Proof.
  split; [reflexivity|].
  exact (proj1 (proj2
           (proj1 (@no_credential_no_request asciiHost answering initialized
                     (CloudFallback.setApiKey [] configured) noon []
                     (str "tell me a joke"))
              (or_introl eq_refl)))).
Defined.

Lemma earlier_message_with_the_loading_id_is_overwritten_witness :
  let o := @processMessage asciiHost offline initialized CloudFallback.fresh
             noon [welcome; earlierAnswer] (str "hi there") in
  id earlierAnswer = numberToString (loadingNow noon + 1)
  /\ content <$> shown o !! 1%nat = Some greeting.
Proof.
  cbv zeta. split; [reflexivity|].
  rewrite (proj1 (@earlier_message_with_the_loading_id_is_overwritten
                    asciiHost offline initialized CloudFallback.fresh noon
                    [welcome; earlierAnswer] (str "hi there") 1%nat
                    earlierAnswer eq_refl) eq_refl).
  reflexivity.
Defined.

Lemma exchange_is_appended_witness :
  length
    (shown
       (@processMessage asciiHost offline initialized CloudFallback.fresh
          noon [welcome] (str "hi there")))
  = 3%nat.
Proof.
  assert (Forall (fun msg => id msg <> numberToString (loadingNow noon + 1))
            [welcome]) as Hfresh.
  { constructor; [|constructor]. intros H. vm_compute in H. discriminate. }
  assert (userNow noon <> loadingNow noon + 1) as Hclock by discriminate.
  rewrite (@exchange_is_appended asciiHost offline initialized
             CloudFallback.fresh noon [welcome] (str "hi there")
             Hfresh Hclock).
  reflexivity.
Defined.

Lemma handleSubmit_hands_over_trimmed_text_witness :
  handleSubmit (str "  hello  ") false = Some (str "hello")
  /\ str "hello" = trim (str "  hello  ").
Proof.
  assert (handleSubmit (str "  hello  ") false = Some (str "hello"))
    as Hsubmit by reflexivity.
  split; [exact Hsubmit|].
  exact (proj1 (proj2 (proj2 (proj2 (handleSubmit_hands_over_trimmed_text
                                       (str "  hello  ") false))
                         (str "hello") Hsubmit))).
Defined.

Lemma parseCSV_one_row_per_line_feed_witness :
  Forall (fun c => c <> 10) (trim (str "a,b,c"))
  /\ DataUpload.parseCSV (str "a,b,c") = [].
Proof.
  assert (Forall (fun c => c <> 10) (trim (str "a,b,c"))) as Hline
    by by_computation.
  split; [exact Hline|].
  exact (proj2 (parseCSV_one_row_per_line_feed (str "a,b,c")) Hline).
Defined.

Lemma parseCSV_rows_have_the_headers_witness :
  let text := str "b,1" ++ [10] ++ str "x,2" in
  DataUpload.headersOf text = [str "b"; str "1"]
  /\ Forall (fun row =>
              objectKeys (DataUpload.rowValue row)
              = Some [str "1"; str "b"])
       (DataUpload.parseCSV text).
Proof.
  cbv zeta.
  assert (NoDup (DataUpload.headersOf
                   (str "b,1" ++ [10] ++ str "x,2")))
    as Hnodup by by_computation.
  assert (str "__proto__"
          ∉ DataUpload.headersOf (str "b,1" ++ [10] ++ str "x,2"))
    as Hproto by by_computation.
  split; [vm_compute; reflexivity|].
  apply Forall_forall. intros row Hrow.
  pose proof (parseCSV_rows_have_the_headers _ Hnodup Hproto) as Hkeys.
  rewrite Forall_forall in Hkeys.
  destruct (Hkeys row Hrow) as [-> _]. vm_compute. reflexivity.
Defined.

Lemma ragged_lines_witness :
  let headers := [str "a"; str "b"] in
  getOwn (str "b") (DataUpload.forEachHeader 0 headers [str "1"] [])
  = Some (DataUpload.StringCell []).
Proof.
  cbv zeta.
  assert (NoDup [str "a"; str "b"]) as Hnodup by by_computation.
  assert (str "__proto__" ∉ [str "a"; str "b"]) as Hproto
    by by_computation.
  refine (proj1 (ragged_lines [str "a"; str "b"] [str "1"] [] 1%nat
                   (str "b")) Hnodup Hproto eq_refl _).
  cbn. lia.
Defined.

Lemma repeated_header_keeps_the_last_column_witness :
  getOwn (str "id")
    (DataUpload.forEachHeader 0 [str "id"; str "name"; str "id"]
       [str "7"; str "Ann"; str "9"] [])
  = Some (DataUpload.NumberCell (Dec false 9 0)).
Proof.
  assert (str "id" ∉ ([] : list jsstring)) as Hlast by apply not_elem_of_nil.
  assert (str "id" <> str "__proto__") as Hne
    by (intros H; vm_compute in H; discriminate).
  exact (repeated_header_keeps_the_last_column [str "id"; str "name"] []
           [str "7"; str "Ann"; str "9"] (str "id") Hlast Hne).
Defined.


Lemma failed_upload_writes_nothing_witness :
  endsWith (DataUpload.file_name notesFile) (str ".csv") = false
  /\ DataUpload.handleFileUpload noParse emptyArrayText (Some notesFile)
       1700000000000 1700000000000 initialized
     = (Some (DataUpload.UploadFailed (Error DataUpload.unsupportedType)),
        initialized).
Proof.
  split; [reflexivity|].
  exact (proj1 (proj2 (failed_upload_writes_nothing noParse emptyArrayText
                         notesFile 1700000000000 1700000000000 initialized))
           eq_refl eq_refl).
Defined.

Lemma csv_upload_is_stored_witness :
  exists backend',
    DataUpload.handleFileUpload noParse emptyArrayText (Some salesFile)
      1700000000000 1700000000000 initialized
    = (Some (DataUpload.DatasetUploaded (str "sales.csv")), backend').
Proof.
  destruct (csv_upload_is_stored noParse emptyArrayText salesFile
              1700000000000 1700000000000 initialized
              LocalBackend.emptyDatabase (str "[]")
              eq_refl eq_refl eq_refl eq_refl (lookup_empty _))
    as (backend' & listed & Hupload & _).
  exists backend'. exact Hupload.
Defined.

Lemma settings_survive_a_reload_witness :
  let panel := {| SettingsPanel.cloudEnabled := false;
                  SettingsPanel.apiKey := str "sk-test" |} in
  exists d' restored,
    LocalBackend.db
      (SettingsPanel.saveSettings panel initialized CloudFallback.fresh).1.2
    = Some d'
    /\ SettingsPanel.loadSettings SettingsPanel.initial
         (LocalBackend.initialize (Returned d') true
            LocalBackend.fresh).2
         CloudFallback.fresh
       = Some (panel, restored).
Proof.
  cbv zeta.
  destruct (settings_survive_a_reload
              {| SettingsPanel.cloudEnabled := false;
                 SettingsPanel.apiKey := str "sk-test" |}
              SettingsPanel.initial initialized CloudFallback.fresh
              LocalBackend.emptyDatabase true eq_refl)
    as (d' & restored & _ & Hd' & Hload & _).
  exists d', restored. split; [exact Hd' | exact Hload].
Defined.

Lemma settings_are_not_kept_without_a_database_witness :
  let panel := {| SettingsPanel.cloudEnabled := true;
                  SettingsPanel.apiKey := str "sk-test" |} in
  LocalBackend.db LocalBackend.fresh = None
  /\ SettingsPanel.loadSettings panel
       (SettingsPanel.saveSettings panel LocalBackend.fresh
          CloudFallback.fresh).1.2
       CloudFallback.fresh
     = Some (SettingsPanel.initial,
             CloudFallback.setEnabled false CloudFallback.fresh).
Proof.
  cbv zeta. split; [reflexivity|].
  exact (proj2 (settings_are_not_kept_without_a_database
                  {| SettingsPanel.cloudEnabled := true;
                     SettingsPanel.apiKey := str "sk-test" |}
                  {| SettingsPanel.cloudEnabled := true;
                     SettingsPanel.apiKey := str "sk-test" |}
                  LocalBackend.fresh CloudFallback.fresh eq_refl)).
Defined.

Lemma only_clearApiKey_removes_the_credential_witness :
  let panel := {| SettingsPanel.cloudEnabled := true;
                  SettingsPanel.apiKey := [] |} in
  CloudFallback.hasApiKey
    (SettingsPanel.saveSettings panel initialized configured).2
  = true.
Proof.
  exact (proj2 (proj1 (only_clearApiKey_removes_the_credential
                         {| SettingsPanel.cloudEnabled := true;
                            SettingsPanel.apiKey := [] |}
                         initialized configured) eq_refl)).
Defined.

Lemma testConnection_configures_the_client_witness :
  let panel := {| SettingsPanel.cloudEnabled := false;
                  SettingsPanel.apiKey := str "sk-test" |} in
  @SettingsPanel.testConnection answering panel CloudFallback.fresh
  = (SettingsPanel.TestRefused, CloudFallback.fresh, []).
Proof.
  exact (proj1 (@testConnection_configures_the_client answering
                  {| SettingsPanel.cloudEnabled := false;
                     SettingsPanel.apiKey := str "sk-test" |}
                  CloudFallback.fresh) (or_intror eq_refl)).
Defined.

End FurtherInstances.
